(** * amplifier_images: geometry, image sections, amplifiers and amplifier sets

    A shallow embedding of the Python package [lsst.amplifier_images] and
    the properties its specification states about it.

    Layout of the development:
    - [Py]: exceptions and the state-and-error monad the package's methods
      run in (Python raises; pixel buffers are shared and mutated);
    - [Geom]: the part of [lsst.geom] the package calls ([Box2I], [PointI],
      [ExtentI]);
    - [ImageSectionTransform], the three [ImageSection] implementations,
      the two amplifier classes and the amplifier-set classes, each
      translated method by method from the source file named in its header;
    - the properties. *)

From Stdlib Require Import ZArith List Bool Lia String.
Import ListNotations.
Open Scope Z_scope.

(* ================================================================== *)
(** ** Python: exceptions and results *)
(* ================================================================== *)

Module Py.

(** The exception classes that the package raises itself or that the
    libraries under it raise on the calls it makes. *)
Inductive PyError : Type :=
| AssertionError                 (* a failed [assert] *)
| TypeError                      (* wrong argument kinds, missing arguments *)
| ValueError                     (* raised by the package and by numpy broadcasting *)
| AttributeError                 (* failed attribute lookup *)
| LengthError                    (* lsst.pex.exceptions.LengthError, from lsst.afw.image *)
| IncompleteAmplifierSetError    (* _amplifier_set.py *)
| UnboundLocalError.

(** Outcome of a call: a value or a raised exception. *)
Inductive Res (A : Type) : Type :=
| Ok (a : A)
| Raise (e : PyError).
Arguments Ok {A} a.
Arguments Raise {A} e.

Definition rbind {A B} (r : Res A) (k : A -> Res B) : Res B :=
  match r with
  | Ok a => k a
  | Raise e => Raise e
  end.

(** [assert c]. *)
Definition assert_ (c : bool) : Res unit :=
  if c then Ok tt else Raise AssertionError.

Definition is_ok {A} (r : Res A) : bool :=
  match r with Ok _ => true | Raise _ => false end.

End Py.
Import Py.

Declare Scope res_scope.
Delimit Scope res_scope with res.
Notation "x <- c1 ;; c2" := (rbind c1 (fun x => c2))
  (at level 61, c1 at next level, right associativity) : res_scope.
Notation "c1 ;;; c2" := (rbind c1 (fun _ => c2))
  (at level 61, right associativity) : res_scope.

(* ================================================================== *)
(** ** lsst.geom: integer points, extents and boxes *)
(* ================================================================== *)

Module Geom.

(** [lsst.geom] is a library the package imports; the definitions below
    follow its documented behaviour for exactly the calls the package
    makes.  Coordinates are mathematical integers: the 32-bit overflow
    checks of the library constructors are not modelled. *)

Record PointI : Type := { getX : Z; getY : Z }.
Record ExtentI : Type := { extX : Z; extY : Z }.

(** [PointI - PointI], [PointI + ExtentI], [PointI - ExtentI],
    [ExtentI + ExtentI]. *)
Definition point_sub (p q : PointI) : ExtentI :=
  {| extX := getX p - getX q; extY := getY p - getY q |}.
Definition point_add_ext (p : PointI) (e : ExtentI) : PointI :=
  {| getX := getX p + extX e; getY := getY p + extY e |}.
Definition point_sub_ext (p : PointI) (e : ExtentI) : PointI :=
  {| getX := getX p - extX e; getY := getY p - extY e |}.
Definition ext_add (e f : ExtentI) : ExtentI :=
  {| extX := extX e + extX f; extY := extY e + extY f |}.

(** A [Box2I] stores a minimum corner and dimensions.  The class keeps the
    dimensions either both positive or, for the one empty box, both zero
    with the corner at the origin; the two constructors of this type are
    exactly those two states. *)
Inductive Box2I : Type :=
| EmptyBox
| Rect (minX minY : Z) (width height : positive).

(** [Box2I()]. *)
Definition Box2I_default : Box2I := EmptyBox.

Definition isEmpty (b : Box2I) : bool :=
  match b with EmptyBox => true | Rect _ _ _ _ => false end.

Definition getMin (b : Box2I) : PointI :=
  match b with
  | EmptyBox => {| getX := 0; getY := 0 |}
  | Rect x y _ _ => {| getX := x; getY := y |}
  end.

Definition getDimensions (b : Box2I) : ExtentI :=
  match b with
  | EmptyBox => {| extX := 0; extY := 0 |}
  | Rect _ _ w h => {| extX := Z.pos w; extY := Z.pos h |}
  end.

(** [getSize] is an alias of [getDimensions]. *)
Definition getSize (b : Box2I) : ExtentI := getDimensions b.

Definition getWidth (b : Box2I) : Z := extX (getDimensions b).
Definition getHeight (b : Box2I) : Z := extY (getDimensions b).

(** [getMax() = getMin() + getDimensions() - (1, 1)]; [(-1, -1)] for the
    empty box. *)
Definition getMax (b : Box2I) : PointI :=
  {| getX := getX (getMin b) + getWidth b - 1;
     getY := getY (getMin b) + getHeight b - 1 |}.

Definition getMinX (b : Box2I) : Z := getX (getMin b).
Definition getMinY (b : Box2I) : Z := getY (getMin b).
Definition getMaxX (b : Box2I) : Z := getX (getMax b).
Definition getMaxY (b : Box2I) : Z := getY (getMax b).

(** One axis of [Box2I(minimum, maximum, invert=True)]: a maximum below the
    minimum swaps the two ends instead of giving an empty box. *)
Definition axis_min_max (lo hi : Z) : Z * positive :=
  let d := hi - lo in
  if d <? 0 then (lo + d, Z.to_pos (- d + 1)) else (lo, Z.to_pos (d + 1)).

(** [Box2I(minimum=..., maximum=...)], [invert] left at its default. *)
Definition Box2I_min_max (minimum maximum : PointI) : Box2I :=
  let '(x, w) := axis_min_max (getX minimum) (getX maximum) in
  let '(y, h) := axis_min_max (getY minimum) (getY maximum) in
  Rect x y w h.

(** One axis of [Box2I(corner, dimensions, invert=True)] for a non-zero
    dimension: a negative dimension extends the box below the corner. *)
Definition axis_corner_dim (c d : Z) : Z * positive :=
  if d <? 0 then (c + (d + 1), Z.to_pos (- d)) else (c, Z.to_pos d).

(** [Box2I(corner, dimensions)]: a zero dimension gives the empty box. *)
Definition Box2I_corner_dims (corner : PointI) (dimensions : ExtentI) : Box2I :=
  if (extX dimensions =? 0) || (extY dimensions =? 0) then EmptyBox
  else
    let '(x, w) := axis_corner_dim (getX corner) (extX dimensions) in
    let '(y, h) := axis_corner_dim (getY corner) (extY dimensions) in
    Rect x y w h.

Definition point_eqb (p q : PointI) : bool :=
  (getX p =? getX q) && (getY p =? getY q).
Definition ext_eqb (e f : ExtentI) : bool :=
  (extX e =? extX f) && (extY e =? extY f).

(** [Box2I.__eq__]: same corner and same dimensions. *)
Definition box_eqb (a b : Box2I) : bool :=
  point_eqb (getMin a) (getMin b) && ext_eqb (getDimensions a) (getDimensions b).

(** [Box2I.contains(Box2I)]: the empty box is contained in every box. *)
Definition contains (self other : Box2I) : bool :=
  isEmpty other
  || ((getMinX self <=? getMinX other) && (getMinY self <=? getMinY other)
      && (getMaxX other <=? getMaxX self) && (getMaxY other <=? getMaxY self)).

(** [Box2I.contains(PointI)]. *)
Definition contains_point (self : Box2I) (x y : Z) : bool :=
  (getMinX self <=? x) && (x <=? getMaxX self)
  && (getMinY self <=? y) && (y <=? getMaxY self).

(** [self.include(other)], returning the grown box: the smallest box that
    holds both. *)
Definition include (self other : Box2I) : Box2I :=
  if isEmpty other then self
  else if isEmpty self then other
  else
    Box2I_min_max
      {| getX := Z.min (getMinX self) (getMinX other);
         getY := Z.min (getMinY self) (getMinY other) |}
      {| getX := Z.max (getMaxX self) (getMaxX other);
         getY := Z.max (getMaxY self) (getMaxY other) |}.

(** The box with corners [(x0, y0)] and [(x1, y1)], for writing examples. *)
Definition box (x0 y0 x1 y1 : Z) : Box2I :=
  Box2I_min_max {| getX := x0; getY := y0 |} {| getX := x1; getY := y1 |}.

End Geom.
Import Geom.

(* ================================================================== *)
(** ** _image_section.py: ImageSectionTransform *)
(* ================================================================== *)

Record ImageSectionTransform : Type := {
  input_bbox : Box2I;
  output_bbox : Box2I;
  flip_x : bool;
  flip_y : bool
}.

Module Transform.

(** The dataclass constructor.  [input_bbox] and [output_bbox] have no
    default; a call that leaves [output_bbox] out ([None] here) raises
    [TypeError] before [__post_init__] runs.  [__post_init__] raises
    [ValueError] when the two sizes differ. *)
Definition new (input : Box2I) (output : option Box2I) (fx fy : bool)
  : Res ImageSectionTransform :=
  match output with
  | None => Raise TypeError
  | Some output =>
      if ext_eqb (getSize input) (getSize output)
      then Ok {| input_bbox := input; output_bbox := output;
                 flip_x := fx; flip_y := fy |}
      else Raise ValueError
  end.

(** [ImageSectionTransform.make_identity(bbox)]. *)
Definition make_identity (bbox : Box2I) : Res ImageSectionTransform :=
  new bbox (Some bbox) false false.

(** The [is_identity] property. *)
Definition is_identity (self : ImageSectionTransform) : bool :=
  negb (flip_x self || flip_y self)
  && box_eqb (input_bbox self) (output_bbox self).

(** [self.after(other)]; Python's [!=] on two [bool]s is exclusive or. *)
Definition after (self other : ImageSectionTransform) : Res ImageSectionTransform :=
  new (input_bbox other) (Some (output_bbox self))
      (xorb (flip_x self) (flip_x other))
      (xorb (flip_y self) (flip_y other)).

(** [self.for_subimage(bbox)]. *)
Definition for_subimage (self : ImageSectionTransform) (bbox : Box2I)
  : Res ImageSectionTransform :=
  let lower := point_sub (getMin bbox) (getMin (input_bbox self)) in
  let upper := point_sub (getMax (input_bbox self)) (getMax bbox) in
  let '(lower_dist_x, upper_dist_x) :=
    if flip_x self then (extX upper, extX lower) else (extX lower, extX upper) in
  let '(lower_dist_y, upper_dist_y) :=
    if flip_y self then (extY upper, extY lower) else (extY lower, extY upper) in
  let out :=
    Box2I_min_max
      (point_add_ext (getMin (output_bbox self))
                     {| extX := lower_dist_x; extY := lower_dist_y |})
      (point_sub_ext (getMax (output_bbox self))
                     {| extX := upper_dist_x; extY := upper_dist_y |}) in
  new bbox (Some out) (flip_x self) (flip_y self).

(** Equality of two transforms as the dataclass's generated [__eq__]
    computes it: field by field. *)
Definition eqb (a b : ImageSectionTransform) : bool :=
  box_eqb (input_bbox a) (input_bbox b)
  && box_eqb (output_bbox a) (output_bbox b)
  && Bool.eqb (flip_x a) (flip_x b)
  && Bool.eqb (flip_y a) (flip_y b).

End Transform.

(* ================================================================== *)
(** ** Pixel storage *)
(* ================================================================== *)

(** Pixel buffers are shared between Python objects and written in place,
    so they live in a store.  A buffer is a two-dimensional grid of
    integer pixels addressed by (row, column); [next_buf] is the first
    identifier not yet handed out.  Arrays and images below are windows
    onto a buffer, which is what makes views and copies distinguishable. *)
Record Heap : Type := {
  next_buf : nat;
  pix : nat -> Z -> Z -> Z
}.

(** A storage cell: buffer, row, column. *)
Definition Cell : Type := (nat * Z * Z)%type.

Definition read (h : Heap) (c : Cell) : Z :=
  let '(b, r, k) := c in pix h b r k.

Definition cell_eqb (c d : Cell) : bool :=
  let '(b, r, k) := c in
  let '(b', r', k') := d in
  Nat.eqb b b' && (r =? r') && (k =? k').

(** Calls that may allocate or write pixels. *)
Definition M (A : Type) : Type := Heap -> Res (A * Heap).

Definition ret {A} (a : A) : M A := fun h => Ok (a, h).
Definition raise {A} (e : PyError) : M A := fun _ => Raise e.
Definition bind {A B} (m : M A) (k : A -> M B) : M B :=
  fun h => match m h with
           | Ok (a, h') => k a h'
           | Raise e => Raise e
           end.
(** A call that touches no pixel storage. *)
Definition lift {A} (r : Res A) : M A :=
  fun h => match r with Ok a => Ok (a, h) | Raise e => Raise e end.

Declare Scope m_scope.
Delimit Scope m_scope with m.
Notation "x <~ c1 ;; c2" := (bind c1 (fun x => c2))
  (at level 61, c1 at next level, right associativity) : m_scope.
Notation "c1 ;;~ c2" := (bind c1 (fun _ => c2))
  (at level 61, right associativity) : m_scope.

(** Map over a list, left to right, stopping at the first exception: the
    shape of every [for amp in ...] loop and generator expression of the
    package.  [mapR] is for bodies that touch no pixel storage. *)
Fixpoint mapR {A B} (f : A -> Res B) (l : list A) : Res (list B) :=
  match l with
  | [] => Ok []
  | a :: l' => (b <- f a ;; bs <- mapR f l' ;; Ok (b :: bs))%res
  end.

Fixpoint mapM {A B} (f : A -> M B) (l : list A) : M (list B) :=
  match l with
  | [] => ret []
  | a :: l' => (b <~ f a ;; bs <~ mapM f l' ;; ret (b :: bs))%m
  end.

Definition in_range (n : nat) (i : Z) : bool := (0 <=? i) && (i <? Z.of_nat n).

(* ------------------------------------------------------------------ *)
(** *** numpy.ndarray *)
(* ------------------------------------------------------------------ *)

Module Numpy.

(** The integer element types of numpy: [int8] to [int64] and [uint8] to
    [uint64], as signedness and width in bits. *)
Record dtype : Type := {
  signed : bool;
  bits : positive
}.

Definition int64 : dtype := {| signed := true; bits := 64 |}.
Definition int8 : dtype := {| signed := true; bits := 8 |}.

(** The value an integer becomes when it is stored into an array of
    element type [t] by an array assignment: numpy casts without a range
    check, so the value wraps around. *)
Definition cast (t : dtype) (v : Z) : Z :=
  let m := 2 ^ Z.pos (bits t) in
  if signed t then (v + m / 2) mod m - m / 2 else v mod m.

(** A two-dimensional [ndarray] of integers: a window of [shape0] rows and
    [shape1] columns onto a buffer.  Element [(i, j)] is the buffer cell
    [(a_r0 + i * a_sr, a_c0 + j * a_sc)]; the strides are non-zero and
    may be negative.  (The package also accepts arrays with further
    trailing dimensions; they play no part in its logic.)  [a_dtype] is
    the element type.  [a_module] is what the attribute lookup
    [array.__module__] finds: nothing on an instance of [numpy.ndarray]
    itself, and the name of the defining module on an instance of a
    subclass written in Python.  Views, copies and [zeros_like] keep
    both. *)
Record ndarray : Type := {
  a_buf : nat;
  a_r0 : Z;
  a_c0 : Z;
  a_sr : Z;
  a_sc : Z;
  shape0 : nat;
  shape1 : nat;
  a_dtype : dtype;
  a_module : option string
}.

Definition cell (a : ndarray) (i j : Z) : Cell :=
  (a_buf a, a_r0 a + i * a_sr a, a_c0 a + j * a_sc a).

Definition in_shape (a : ndarray) (i j : Z) : bool :=
  in_range (shape0 a) i && in_range (shape1 a) j.

(** [a[i, j]] and [a[i, j] = v] for an index inside the shape. *)
Definition get (h : Heap) (a : ndarray) (i j : Z) : Z := read h (cell a i j).

Definition set (h : Heap) (a : ndarray) (i j v : Z) : Heap :=
  {| next_buf := next_buf h;
     pix := fun b r c =>
       if cell_eqb (b, r, c) (cell a i j) then v else pix h b r c |}.

(** Python's adjustment of one end of a slice with step 1 against an
    axis of length [n]: negative values count from the end, then the
    result is clamped to [0, n]. *)
Definition adjust (n : nat) (i : Z) : Z :=
  let i := if i <? 0 then i + Z.of_nat n else i in
  if i <? 0 then 0 else if Z.of_nat n <? i then Z.of_nat n else i.

(** [a[y0:y1, x0:x1, ...]]: basic slicing, always a view. *)
Definition slice (a : ndarray) (y0 y1 x0 x1 : Z) : ndarray :=
  let ys := adjust (shape0 a) y0 in
  let ye := adjust (shape0 a) y1 in
  let xs := adjust (shape1 a) x0 in
  let xe := adjust (shape1 a) x1 in
  {| a_buf := a_buf a;
     a_r0 := a_r0 a + ys * a_sr a;
     a_c0 := a_c0 a + xs * a_sc a;
     a_sr := a_sr a;
     a_sc := a_sc a;
     shape0 := Z.to_nat (ye - ys);
     shape1 := Z.to_nat (xe - xs);
     a_dtype := a_dtype a;
     a_module := a_module a |}.

(** [a[::-1 if fy else 1, ::-1 if fx else 1]]: basic slicing again, so a
    view whose reversed axes are walked with the stride negated. *)
Definition flip_view (a : ndarray) (fy fx : bool) : ndarray :=
  {| a_buf := a_buf a;
     a_r0 := if fy then a_r0 a + (Z.of_nat (shape0 a) - 1) * a_sr a else a_r0 a;
     a_c0 := if fx then a_c0 a + (Z.of_nat (shape1 a) - 1) * a_sc a else a_c0 a;
     a_sr := if fy then - a_sr a else a_sr a;
     a_sc := if fx then - a_sc a else a_sc a;
     shape0 := shape0 a;
     shape1 := shape1 a;
     a_dtype := a_dtype a;
     a_module := a_module a |}.

(** The contiguous array of the next fresh buffer with the shape of [a]. *)
Definition fresh_like (h : Heap) (a : ndarray) : ndarray :=
  {| a_buf := next_buf h; a_r0 := 0; a_c0 := 0; a_sr := 1; a_sc := 1;
     shape0 := shape0 a; shape1 := shape1 a;
     a_dtype := a_dtype a; a_module := a_module a |}.

(** [a.copy()]. *)
Definition copy (a : ndarray) : M ndarray := fun h =>
  let n := fresh_like h a in
  Ok (n, {| next_buf := S (next_buf h);
            pix := fun b r c =>
              if Nat.eqb b (next_buf h) && in_shape a r c
              then get h a r c else pix h b r c |}).

(** [numpy.zeros_like(a)]. *)
Definition zeros_like (a : ndarray) : M ndarray := fun h =>
  let n := fresh_like h a in
  Ok (n, {| next_buf := S (next_buf h);
            pix := fun b r c =>
              if Nat.eqb b (next_buf h) && in_shape a r c
              then 0 else pix h b r c |}).

(** The index along one axis (origin [o], stride [s], length [n]) that
    lands on buffer coordinate [r], if there is one. *)
Definition axis_index (o s : Z) (n : nat) (r : Z) : option Z :=
  let i := (r - o) / s in
  if (o + i * s =? r) && in_range n i then Some i else None.

(** One axis of broadcasting a source of length [m] to a target of
    length [n]. *)
Definition broadcastable (m n : nat) : bool := Nat.eqb m n || Nat.eqb m 1.
Definition bsrc (m : nat) (i : Z) : Z := if Nat.eqb m 1 then 0 else i.

(** [dst[...] = src]: [src] is broadcast to the shape of [dst] ([ValueError]
    when it cannot be) and every element of [dst] receives the value the
    matching element of [src] had before the assignment, cast to the
    element type of [dst]. *)
Definition assign_all (dst src : ndarray) : M unit := fun h =>
  if broadcastable (shape0 src) (shape0 dst) && broadcastable (shape1 src) (shape1 dst)
  then
    Ok (tt, {| next_buf := next_buf h;
               pix := fun b r c =>
                 if Nat.eqb b (a_buf dst) then
                   match axis_index (a_r0 dst) (a_sr dst) (shape0 dst) r,
                         axis_index (a_c0 dst) (a_sc dst) (shape1 dst) c with
                   | Some i, Some j =>
                       cast (a_dtype dst)
                            (get h src (bsrc (shape0 src) i) (bsrc (shape1 src) j))
                   | _, _ => pix h b r c
                   end
                 else pix h b r c |})
  else Raise ValueError.

End Numpy.

(* ------------------------------------------------------------------ *)
(** *** lsst.afw.image images *)
(* ------------------------------------------------------------------ *)

Module Afw.

(** [lsst.afw.image] is a library the package adapts in [_afw.py]; what
    follows is the documented behaviour of the calls [_afw.py] makes
    ([AfwImageLike] in the source lists them).  An image is a window of
    [i_w] columns and [i_h] rows onto a buffer, walked forwards along
    both axes (these images have no negative strides), together with the
    parent coordinates [xy0] of its first pixel.  Every image class has
    one pixel type; the integer ones are modelled. *)
Inductive PixelType : Type :=
| PixelU                         (* ImageU, 16-bit unsigned *)
| PixelI                         (* ImageI, 32-bit signed *)
| PixelL.                        (* ImageL, 64-bit unsigned *)

Definition pixel_type_eqb (s t : PixelType) : bool :=
  match s, t with
  | PixelU, PixelU | PixelI, PixelI | PixelL, PixelL => true
  | _, _ => false
  end.

Record Image : Type := {
  i_buf : nat;
  i_r0 : Z;
  i_c0 : Z;
  i_x0 : Z;
  i_y0 : Z;
  i_w : nat;
  i_h : nat;
  i_type : PixelType
}.

(** Cell of the pixel in column [i], row [j], counted from the image's
    own first pixel. *)
Definition cell (m : Image) (i j : Z) : Cell :=
  (i_buf m, i_r0 m + j, i_c0 m + i).

Definition in_image (m : Image) (i j : Z) : bool :=
  in_range (i_w m) i && in_range (i_h m) j.

Definition getXY0 (m : Image) : PointI := {| getX := i_x0 m; getY := i_y0 m |}.
Definition getDimensions (m : Image) : ExtentI :=
  {| extX := Z.of_nat (i_w m); extY := Z.of_nat (i_h m) |}.

(** [image.getBBox()]. *)
Definition getBBox (m : Image) : Box2I :=
  Box2I_corner_dims (getXY0 m) (getDimensions m).

(** [image.setXY0(point)], on an image object nobody else refers to. *)
Definition setXY0 (m : Image) (p : PointI) : Image :=
  {| i_buf := i_buf m; i_r0 := i_r0 m; i_c0 := i_c0 m;
     i_x0 := getX p; i_y0 := getY p; i_w := i_w m; i_h := i_h m;
     i_type := i_type m |}.

Definition fresh_like (h : Heap) (m : Image) : Image :=
  {| i_buf := next_buf h; i_r0 := 0; i_c0 := 0;
     i_x0 := i_x0 m; i_y0 := i_y0 m; i_w := i_w m; i_h := i_h m;
     i_type := i_type m |}.

(** [type(image)(image, deep=deep)]: a new image object over the same
    pixels, or over a copy of them. *)
Definition clone (m : Image) (deep : bool) : M Image := fun h =>
  if deep then
    Ok (fresh_like h m,
        {| next_buf := S (next_buf h);
           pix := fun b r c =>
             if Nat.eqb b (next_buf h) && in_image m c r
             then read h (cell m c r) else pix h b r c |})
  else Ok (m, h).

(** [type(image)(bbox=bbox)]: a new image of zeros covering [bbox], of
    the class, and so the pixel type, of [image]. *)
Definition make (t : PixelType) (bbox : Box2I) : M Image := fun h =>
  let w := Z.to_nat (getWidth bbox) in
  let hh := Z.to_nat (getHeight bbox) in
  Ok ({| i_buf := next_buf h; i_r0 := 0; i_c0 := 0;
         i_x0 := getMinX bbox; i_y0 := getMinY bbox; i_w := w; i_h := hh;
         i_type := t |},
      {| next_buf := S (next_buf h);
         pix := fun b r c =>
           if Nat.eqb b (next_buf h) && in_range hh r && in_range w c
           then 0 else pix h b r c |}).

(** The window of [m] that starts [off] pixels in and has dimensions
    [dims], as the library's sub-view helper builds it: [LengthError]
    unless the window fits. *)
Definition sub_view (m : Image) (off dims : ExtentI) (xy0 : PointI) : Res Image :=
  if (extX off <? 0) || (extY off <? 0)
     || (Z.of_nat (i_w m) <? extX off + extX dims)
     || (Z.of_nat (i_h m) <? extY off + extY dims)
  then Raise LengthError
  else Ok {| i_buf := i_buf m;
             i_r0 := i_r0 m + extY off; i_c0 := i_c0 m + extX off;
             i_x0 := getX xy0; i_y0 := getY xy0;
             i_w := Z.to_nat (extX dims); i_h := Z.to_nat (extY dims);
             i_type := i_type m |}.

(** [type(image)(image, bbox=bbox)]: the sub-image in parent coordinates,
    sharing pixels. *)
Definition subimage (m : Image) (bbox : Box2I) : Res Image :=
  sub_view m (point_sub (Geom.getMin bbox) (getXY0 m)) (Geom.getDimensions bbox)
           (Geom.getMin bbox).

(** The heap after the pixels of [src] have been copied over the equally
    sized window [dst]. *)
Definition copy_pixels (h : Heap) (src dst : Image) : Heap :=
  {| next_buf := next_buf h;
     pix := fun b r c =>
       if Nat.eqb b (i_buf dst)
          && in_image dst (c - i_c0 dst) (r - i_r0 dst)
       then read h (cell src (c - i_c0 dst) (r - i_r0 dst))
       else pix h b r c |}.

(** [image.assign(rhs, bbox=bbox)]: the method of an image class takes
    an image of that same class, and the call is refused with [TypeError]
    for any other.  With an empty [bbox] the whole image is the target,
    otherwise its sub-image at [bbox]; the target and [rhs] must have
    the same dimensions. *)
Definition assign (m rhs : Image) (bbox : Box2I) : M unit := fun h =>
  let lhs_dim := if isEmpty bbox then getDimensions m else Geom.getDimensions bbox in
  if negb (pixel_type_eqb (i_type m) (i_type rhs)) then Raise TypeError
  else if negb (ext_eqb lhs_dim (getDimensions rhs)) then Raise LengthError
  else if isEmpty bbox then Ok (tt, copy_pixels h rhs m)
  else
    match sub_view m (point_sub (Geom.getMin bbox) (getXY0 m)) lhs_dim (Geom.getMin bbox) with
    | Ok target => Ok (tt, copy_pixels h rhs target)
    | Raise e => Raise e
    end.

(** [lsst.afw.math.flipImage(image, flipLR, flipTB)]: a new image, a deep
    copy of the input with its columns and/or rows reversed. *)
Definition flipImage (m : Image) (flipLR flipTB : bool) : M Image := fun h =>
  Ok (fresh_like h m,
      {| next_buf := S (next_buf h);
         pix := fun b r c =>
           if Nat.eqb b (next_buf h) && in_image m c r
           then read h (cell m (if flipLR then Z.of_nat (i_w m) - 1 - c else c)
                                (if flipTB then Z.of_nat (i_h m) - 1 - r else r))
           else pix h b r c |}).

End Afw.

(* ================================================================== *)
(** ** _image_section.py, _box_only.py, _numpy.py, _afw.py: ImageSection *)
(* ================================================================== *)

(** The values an [image] property can hold or a caller can pass as a new
    image: [None], an array, an image object of [lsst.afw.image], or an
    object of any other type, which is no array and has no image methods.
    Of such an object only what the lookup [image.__module__] finds
    matters: the name of the module that defines its class, or nothing
    (the instances of built-in types have no such attribute). *)
Inductive PyImage : Type :=
| PyNone
| PyArray (a : Numpy.ndarray)
| PyAfw (m : Afw.Image)
| PyOther (module : option string).

(** The image classes of [lsst.afw.image] are defined in modules of that
    package; this name stands for any of them. *)
Definition afw_image_module : string := "lsst.afw.image._image"%string.

(** [image.__module__], for an [image] that is not [None]. *)
Definition module_of (image : PyImage) : Res string :=
  match image with
  | PyNone => Raise AttributeError
  | PyArray a =>
      match Numpy.a_module a with
      | Some m => Ok m
      | None => Raise AttributeError
      end
  | PyAfw _ => Ok afw_image_module
  | PyOther (Some m) => Ok m
  | PyOther None => Raise AttributeError
  end.

(** What a [NumPyImageSection] holds in [_bbox_min].  The annotation says
    [PointI], but Python stores whatever the caller passes, and
    [NumPyImageSection.subimage] passes a [Box2I]. *)
Inductive BBoxMin : Type :=
| MinPoint (p : PointI)
| MinBox (b : Box2I).

(** The three implementations of the [ImageSection] interface, with the
    attributes their [__init__] stores. *)
Inductive ImageSection : Type :=
| BoxOnlyImageSection (_bbox : Box2I)
| NumPyImageSection (_array : Numpy.ndarray) (_bbox_min : BBoxMin)
| AfwImageSection (_image : Afw.Image).

Module ImgSec.

(** The [bbox] property.  For a [NumPyImageSection] it evaluates
    [Box2I(self._bbox_min, ExtentI(shape[1], shape[0]))]; [Box2I] has no
    constructor taking a box and an extent, so that call raises
    [TypeError] when [_bbox_min] holds a box. *)
Definition bbox (self : ImageSection) : Res Box2I :=
  match self with
  | BoxOnlyImageSection b => Ok b
  | NumPyImageSection a (MinPoint p) =>
      Ok (Box2I_corner_dims p {| extX := Z.of_nat (Numpy.shape1 a);
                                 extY := Z.of_nat (Numpy.shape0 a) |})
  | NumPyImageSection _ (MinBox _) => Raise TypeError
  | AfwImageSection m => Ok (Afw.getBBox m)
  end.

(** The [image] property. *)
Definition image (self : ImageSection) : PyImage :=
  match self with
  | BoxOnlyImageSection _ => PyNone
  | NumPyImageSection a _ => PyArray a
  | AfwImageSection m => PyAfw m
  end.

(** [self.copy()]. *)
Definition copy (self : ImageSection) : M ImageSection :=
  match self with
  | BoxOnlyImageSection b => ret (BoxOnlyImageSection b)
  | NumPyImageSection a m =>
      (a' <~ Numpy.copy a ;; ret (NumPyImageSection a' m))%m
  | AfwImageSection m =>
      (m' <~ Afw.clone m true ;; ret (AfwImageSection m'))%m
  end.

(** [ImageSection.without_image], inherited by all three classes. *)
Definition without_image (self : ImageSection) : Res ImageSection :=
  (b <- bbox self ;; Ok (BoxOnlyImageSection b))%res.

(** [ImageSection.with_new_image], inherited by all three classes.  The
    second test looks up [image.__module__] whatever [image] is, so an
    object without that attribute, a plain [numpy.ndarray] among them,
    ends the call with [AttributeError] before the array test is reached;
    in the first branch [self.bbox] is evaluated before [img.getBBox()],
    which only an image object has. *)
Definition with_new_image (self : ImageSection) (image : PyImage) : Res ImageSection :=
  match image with
  | PyNone => without_image self
  | _ =>
      (m <- module_of image ;;
       if String.prefix "lsst.afw.image" m then
         (b <- bbox self ;;
          match image with
          | PyAfw img =>
              if negb (box_eqb b (Afw.getBBox img)) then Raise ValueError
              else Ok (AfwImageSection img)
          | _ => Raise AttributeError
          end)
       else
         match image with
         | PyArray arr =>
             (b <- bbox self ;;
              if negb (getHeight b =? Z.of_nat (Numpy.shape0 arr))
                 || negb (getWidth b =? Z.of_nat (Numpy.shape1 arr))
              then Raise ValueError
              else
                (b' <- bbox self ;;
                 Ok (NumPyImageSection arr (MinPoint (getMin b')))))
         | _ => Raise TypeError
         end)%res
  end.

(** [self.make_empty(bbox)].  The NumPy implementation does not use its
    argument: it returns zeros shaped like [self]'s own array, at
    [self]'s own [_bbox_min]. *)
Definition make_empty (self : ImageSection) (bbox : Box2I) : M ImageSection :=
  match self with
  | BoxOnlyImageSection _ => ret (BoxOnlyImageSection bbox)
  | NumPyImageSection a m =>
      (z <~ Numpy.zeros_like a ;; ret (NumPyImageSection z m))%m
  | AfwImageSection m =>
      (m' <~ Afw.make (Afw.i_type m) bbox ;; ret (AfwImageSection m'))%m
  end.

(** [self.subimage(bbox)].  The NumPy implementation makes no containment
    check, slices with Python's clamping and wrap-around, and hands the
    whole [bbox] to the constructor as [bbox_min]. *)
Definition subimage (self : ImageSection) (bbox : Box2I) : Res ImageSection :=
  match self with
  | BoxOnlyImageSection b =>
      (assert_ (contains b bbox) ;;; Ok (BoxOnlyImageSection bbox))%res
  | NumPyImageSection a (MinPoint p) =>
      let start := point_sub (getMin bbox) p in
      let stop := ext_add start (getSize bbox) in
      Ok (NumPyImageSection
            (Numpy.slice a (extY start) (extY stop) (extX start) (extX stop))
            (MinBox bbox))
  | NumPyImageSection _ (MinBox _) => Raise TypeError   (* PointI - Box2I *)
  | AfwImageSection m =>
      (m' <- Afw.subimage m bbox ;; Ok (AfwImageSection m'))%res
  end.

(** [self.assign(other)].  Pixels are integers; storing [None] or an
    object that is not an array into an integer array, or passing
    something that is not an image to [Image.assign], raises
    [TypeError]. *)
Definition assign (self other : ImageSection) : M unit :=
  match self with
  | BoxOnlyImageSection b =>
      lift (ob <- bbox other ;; assert_ (contains b ob))%res
  | NumPyImageSection _ _ =>
      (ob <~ lift (bbox other) ;;
       target <~ lift (subimage self ob) ;;
       match image target, image other with
       | PyArray dst, PyArray src => Numpy.assign_all dst src
       | _, _ => raise TypeError
       end)%m
  | AfwImageSection m =>
      match image other with
      | PyAfw rhs => (ob <~ lift (bbox other) ;; Afw.assign m rhs ob)%m
      | _ => raise TypeError
      end
  end.

(** [self.apply_transform(transform, allow_view=allow_view)]. *)
Definition apply_transform (self : ImageSection) (transform : ImageSectionTransform)
    (allow_view : bool) : M ImageSection :=
  match self with
  | BoxOnlyImageSection b =>
      lift (assert_ (box_eqb (input_bbox transform) b) ;;;
            Ok (BoxOnlyImageSection (output_bbox transform)))%res
  | NumPyImageSection a _ =>
      let array := Numpy.flip_view a (flip_y transform) (flip_x transform) in
      (array <~ (if negb allow_view then Numpy.copy array else ret array) ;;
       ret (NumPyImageSection array (MinPoint (getMin (output_bbox transform)))))%m
  | AfwImageSection m =>
      (image <~ (if negb (flip_x transform || flip_y transform)
                 then Afw.clone m (negb allow_view)
                 else Afw.flipImage m (flip_x transform) (flip_y transform)) ;;
       ret (AfwImageSection (Afw.setXY0 image (getMin (output_bbox transform)))))%m
  end.

(** The storage cell behind the pixel at parent coordinates [(x, y)] of a
    section, when the section has pixels and [(x, y)] lies in them. *)
Definition pixel_cell (self : ImageSection) (x y : Z) : option Cell :=
  match self with
  | BoxOnlyImageSection _ => None
  | NumPyImageSection a (MinPoint p) =>
      if Numpy.in_shape a (y - getY p) (x - getX p)
      then Some (Numpy.cell a (y - getY p) (x - getX p)) else None
  | NumPyImageSection _ (MinBox _) => None
  | AfwImageSection m =>
      if Afw.in_image m (x - Afw.i_x0 m) (y - Afw.i_y0 m)
      then Some (Afw.cell m (x - Afw.i_x0 m) (y - Afw.i_y0 m)) else None
  end.

(** The pixel value at parent coordinates [(x, y)]. *)
Definition pixel (h : Heap) (self : ImageSection) (x y : Z) : option Z :=
  option_map (read h) (pixel_cell self x y).

End ImgSec.

(* ================================================================== *)
(** ** _trimmed_amplifier.py: TrimmedAmplifier *)
(* ================================================================== *)

Module TrimmedAmplifier.

Record t : Type := {
  _data : ImageSection;
  _amplifier_id : Z;
  _readout_transform : ImageSectionTransform;
  _horizontal_overscan_is_at_min : bool;
  _vertical_overscan_is_at_min : bool;
  _horizontal_prescan_is_at_min : bool;
  _physical_transform : ImageSectionTransform
}.

(** [TrimmedAmplifier.__init__], with its two assertions. *)
Definition init (data : ImageSection) (amplifier_id : Z)
    (readout_transform : ImageSectionTransform)
    (horizontal_overscan_is_at_min vertical_overscan_is_at_min
       horizontal_prescan_is_at_min : bool)
    (physical_transform : ImageSectionTransform) : Res t :=
  (b <- ImgSec.bbox data ;;
   assert_ (box_eqb (input_bbox readout_transform) b) ;;;
   b' <- ImgSec.bbox data ;;
   assert_ (box_eqb (input_bbox physical_transform) b') ;;;
   Ok {| _data := data;
         _amplifier_id := amplifier_id;
         _readout_transform := readout_transform;
         _horizontal_overscan_is_at_min := horizontal_overscan_is_at_min;
         _vertical_overscan_is_at_min := vertical_overscan_is_at_min;
         _horizontal_prescan_is_at_min := horizontal_prescan_is_at_min;
         _physical_transform := physical_transform |})%res.

Definition amplifier_id (self : t) : Z := _amplifier_id self.
Definition data (self : t) : ImageSection := _data self.
Definition trimmed_view (self : t) : t := self.
Definition readout_transform (self : t) : ImageSectionTransform := _readout_transform self.
Definition physical_transform (self : t) : ImageSectionTransform := _physical_transform self.

Definition copy (self : t) : M t :=
  (d <~ ImgSec.copy (_data self) ;;
   lift (init d (amplifier_id self) (_readout_transform self)
           (_horizontal_overscan_is_at_min self)
           (_vertical_overscan_is_at_min self)
           (_horizontal_prescan_is_at_min self)
           (_physical_transform self)))%m.

Definition without_images (self : t) : Res t :=
  match ImgSec.image (_data self) with
  | PyNone => Ok self
  | _ =>
      (d <- ImgSec.without_image (_data self) ;;
       init d (amplifier_id self) (_readout_transform self)
         (_horizontal_overscan_is_at_min self)
         (_vertical_overscan_is_at_min self)
         (_horizontal_prescan_is_at_min self)
         (_physical_transform self))%res
  end.

(** [into_readout_coordinates].  The new readout transform is written
    [ImageSectionTransform(new_data.bbox)]: one positional argument, so
    the required [output_bbox] is missing. *)
Definition into_readout_coordinates (self : t) (allow_view : bool) : M t :=
  (new_data <~ ImgSec.apply_transform (_data self) (_readout_transform self) allow_view ;;
   lift (nb <- ImgSec.bbox new_data ;;
         rt <- Transform.new nb None false false ;;
         pt <- Transform.after (_physical_transform self) (_readout_transform self) ;;
         init new_data (amplifier_id self) rt
           (xorb (_horizontal_overscan_is_at_min self) (flip_x (_readout_transform self)))
           (xorb (_vertical_overscan_is_at_min self) (flip_y (_readout_transform self)))
           (xorb (_horizontal_prescan_is_at_min self) (flip_x (_readout_transform self)))
           pt)%res)%m.

Definition horizontal_overscan_boundary (self : t) : Res Z :=
  (b <- ImgSec.bbox (_data self) ;;
   Ok (if _horizontal_overscan_is_at_min self then getMinX b else getMaxX b))%res.

Definition vertical_overscan_boundary (self : t) : Res Z :=
  (b <- ImgSec.bbox (_data self) ;;
   Ok (if _vertical_overscan_is_at_min self then getMinY b else getMaxY b))%res.

Definition horizontal_prescan_boundary (self : t) : Res Z :=
  (b <- ImgSec.bbox (_data self) ;;
   Ok (if _horizontal_prescan_is_at_min self then getMinX b else getMaxX b))%res.

Definition with_new_data_image (self : t) (image : PyImage) : Res t :=
  (new_data <- ImgSec.with_new_image (_data self) image ;;
   init new_data (amplifier_id self) (_readout_transform self)
     (_horizontal_overscan_is_at_min self)
     (_vertical_overscan_is_at_min self)
     (_horizontal_prescan_is_at_min self)
     (_physical_transform self))%res.

Definition into_physical_coordinates (self : t) (allow_view : bool) : M t :=
  (new_data <~ ImgSec.apply_transform (_data self) (_physical_transform self) allow_view ;;
   lift (rt <- Transform.after (_readout_transform self) (_physical_transform self) ;;
         nb <- ImgSec.bbox new_data ;;
         pt <- Transform.make_identity nb ;;
         init new_data (amplifier_id self) rt
           (xorb (_horizontal_overscan_is_at_min self) (flip_x (_physical_transform self)))
           (xorb (_vertical_overscan_is_at_min self) (flip_y (_physical_transform self)))
           (xorb (_horizontal_prescan_is_at_min self) (flip_x (_physical_transform self)))
           pt)%res)%m.

End TrimmedAmplifier.

(* ================================================================== *)
(** ** _untrimmed_amplifier.py: UntrimmedAmplifier *)
(* ================================================================== *)

Module UntrimmedAmplifier.

Record t : Type := {
  _full : ImageSection;
  _amplifier_id : Z;
  _readout_transform : ImageSectionTransform;
  _data_bbox : Box2I;
  _data_physical_bbox : Box2I;
  _horizontal_overscan_bbox : Box2I;
  _vertical_overscan_bbox : Box2I;
  _horizontal_prescan_bbox : Box2I;
  _raw_detector_transform : ImageSectionTransform
}.

(** [UntrimmedAmplifier.__init__], with its three assertions. *)
Definition init (full : ImageSection) (amplifier_id : Z)
    (readout_transform : ImageSectionTransform)
    (data_bbox data_physical_bbox horizontal_overscan_bbox
       vertical_overscan_bbox horizontal_prescan_bbox : Box2I)
    (raw_detector_transform : ImageSectionTransform) : Res t :=
  (b <- ImgSec.bbox full ;;
   assert_ (box_eqb (input_bbox readout_transform) b) ;;;
   b' <- ImgSec.bbox full ;;
   assert_ (box_eqb (input_bbox raw_detector_transform) b') ;;;
   b'' <- ImgSec.bbox full ;;
   assert_ (contains b'' data_bbox) ;;;
   Ok {| _full := full;
         _amplifier_id := amplifier_id;
         _readout_transform := readout_transform;
         _data_bbox := data_bbox;
         _data_physical_bbox := data_physical_bbox;
         _horizontal_overscan_bbox := horizontal_overscan_bbox;
         _vertical_overscan_bbox := vertical_overscan_bbox;
         _horizontal_prescan_bbox := horizontal_prescan_bbox;
         _raw_detector_transform := raw_detector_transform |})%res.

Definition amplifier_id (self : t) : Z := _amplifier_id self.
Definition full (self : t) : ImageSection := _full self.
Definition readout_transform (self : t) : ImageSectionTransform := _readout_transform self.
Definition raw_detector_transform (self : t) : ImageSectionTransform :=
  _raw_detector_transform self.

Definition copy (self : t) : M t :=
  (f <~ ImgSec.copy (_full self) ;;
   lift (init f (amplifier_id self) (_readout_transform self)
           (_data_bbox self) (_data_physical_bbox self)
           (_horizontal_overscan_bbox self) (_vertical_overscan_bbox self)
           (_horizontal_prescan_bbox self) (_raw_detector_transform self)))%m.

Definition without_images (self : t) : Res t :=
  match ImgSec.image (_full self) with
  | PyNone => Ok self
  | _ =>
      (f <- ImgSec.without_image (_full self) ;;
       init f (amplifier_id self) (_readout_transform self)
         (_data_bbox self) (_data_physical_bbox self)
         (_horizontal_overscan_bbox self) (_vertical_overscan_bbox self)
         (_horizontal_prescan_bbox self) (_raw_detector_transform self))%res
  end.

(** The [data] property: a sub-image of [full]. *)
Definition data (self : t) : Res ImageSection :=
  ImgSec.subimage (_full self) (_data_bbox self).

Definition horizontal_overscan_boundary (self : t) : Res Z :=
  if getMaxX (_horizontal_overscan_bbox self) <? getMinX (_data_bbox self)
  then Ok (getMinX (_data_bbox self))
  else
    (assert_ (getMaxX (_data_bbox self) <? getMinX (_horizontal_overscan_bbox self)) ;;;
     Ok (getMaxX (_data_bbox self)))%res.

Definition vertical_overscan_boundary (self : t) : Res Z :=
  if getMaxY (_vertical_overscan_bbox self) <? getMinY (_data_bbox self)
  then Ok (getMinY (_data_bbox self))
  else
    (assert_ (getMaxY (_data_bbox self) <? getMinY (_vertical_overscan_bbox self)) ;;;
     Ok (getMaxY (_data_bbox self)))%res.

Definition horizontal_prescan_boundary (self : t) : Res Z :=
  if getMaxX (_horizontal_prescan_bbox self) <? getMinX (_data_bbox self)
  then Ok (getMinX (_data_bbox self))
  else
    (assert_ (getMaxX (_data_bbox self) <? getMinX (_horizontal_prescan_bbox self)) ;;;
     Ok (getMaxX (_data_bbox self)))%res.

(** The [trimmed_view] property; the arguments of the [TrimmedAmplifier]
    call are evaluated in the order they are written. *)
Definition trimmed_view (self : t) : Res TrimmedAmplifier.t :=
  (d <- data self ;;
   rt <- Transform.for_subimage (_readout_transform self) (_data_bbox self) ;;
   hob <- horizontal_overscan_boundary self ;;
   vob <- vertical_overscan_boundary self ;;
   hpb <- horizontal_prescan_boundary self ;;
   pt <- Transform.new (_data_bbox self) (Some (_data_physical_bbox self))
           (flip_x (raw_detector_transform self))
           (flip_y (raw_detector_transform self)) ;;
   TrimmedAmplifier.init d (amplifier_id self) rt
     (hob =? getMinX (_data_bbox self))
     (vob =? getMinY (_data_bbox self))
     (hpb =? getMinX (_data_bbox self))
     pt)%res.

(** The output box of [transform.for_subimage(bbox)]. *)
Definition mapped (transform : ImageSectionTransform) (bbox : Box2I) : Res Box2I :=
  (s <- Transform.for_subimage transform bbox ;; Ok (output_bbox s))%res.

Definition into_readout_coordinates (self : t) (allow_view : bool) : M t :=
  (new_full <~ ImgSec.apply_transform (_full self) (_readout_transform self) allow_view ;;
   lift (nb <- ImgSec.bbox new_full ;;
         rt <- Transform.make_identity nb ;;
         db <- mapped (_readout_transform self) (_data_bbox self) ;;
         hob <- mapped (_readout_transform self) (_horizontal_overscan_bbox self) ;;
         vob <- mapped (_readout_transform self) (_vertical_overscan_bbox self) ;;
         hpb <- mapped (_readout_transform self) (_horizontal_prescan_bbox self) ;;
         rdt <- Transform.after (raw_detector_transform self) (_readout_transform self) ;;
         init new_full (amplifier_id self) rt db (_data_physical_bbox self)
           hob vob hpb rdt)%res)%m.

Definition horizontal_overscan (self : t) : Res ImageSection :=
  ImgSec.subimage (_full self) (_horizontal_overscan_bbox self).
Definition vertical_overscan (self : t) : Res ImageSection :=
  ImgSec.subimage (_full self) (_vertical_overscan_bbox self).
Definition horizontal_prescan (self : t) : Res ImageSection :=
  ImgSec.subimage (_full self) (_horizontal_prescan_bbox self).

Definition with_new_full_image (self : t) (image : PyImage) : Res t :=
  (new_full <- ImgSec.with_new_image (_full self) image ;;
   init new_full (amplifier_id self) (_readout_transform self)
     (_data_bbox self) (_data_physical_bbox self)
     (_horizontal_overscan_bbox self) (_vertical_overscan_bbox self)
     (_horizontal_prescan_bbox self) (_raw_detector_transform self))%res.

Definition into_raw_detector_coordinates (self : t) (allow_view : bool) : M t :=
  (new_full <~ ImgSec.apply_transform (_full self) (raw_detector_transform self) allow_view ;;
   lift (rt <- Transform.after (_readout_transform self) (raw_detector_transform self) ;;
         db <- mapped (raw_detector_transform self) (_data_bbox self) ;;
         hob <- mapped (raw_detector_transform self) (_horizontal_overscan_bbox self) ;;
         vob <- mapped (raw_detector_transform self) (_vertical_overscan_bbox self) ;;
         hpb <- mapped (raw_detector_transform self) (_horizontal_prescan_bbox self) ;;
         nb <- ImgSec.bbox new_full ;;
         rdt <- Transform.make_identity nb ;;
         init new_full (amplifier_id self) rt db (_data_physical_bbox self)
           hob vob hpb rdt)%res)%m.

End UntrimmedAmplifier.

(* ================================================================== *)
(** ** _amplifier_set.py and the two *_amplifier_sets.py: amplifier sets *)
(* ================================================================== *)

(** [observation_info] is passed through and never inspected. *)
Definition ObservationInfo : Type := option string.

(** A Python [dict] keyed by amplifier id: insertion order is kept, and
    storing under a key that is present replaces the value in place. *)
Module Dict.

Fixpoint set {V} (k : Z) (v : V) (d : list (Z * V)) : list (Z * V) :=
  match d with
  | [] => [(k, v)]
  | (k', v') :: d' => if k =? k' then (k, v) :: d' else (k', v') :: set k v d'
  end.

(** [{key(v): v for v in l}]. *)
Definition of_list {V} (key : V -> Z) (l : list V) : list (Z * V) :=
  fold_left (fun d v => set (key v) v d) l [].

Definition values {V} (d : list (Z * V)) : list V := map snd d.

(** [d[k]]: the value stored under [k]; [None] stands for the [KeyError]
    of a key that is not present. *)
Fixpoint get {V} (k : Z) (d : list (Z * V)) : option V :=
  match d with
  | [] => None
  | (k', v) :: d' => if k =? k' then Some v else get k d'
  end.

End Dict.

(** The variable [amp] after [for amp in self: ...]: bound to the last
    element, unbound when there was none. *)
Definition loop_variable {A} (l : list A) : Res A :=
  match rev l with
  | a :: _ => Ok a
  | [] => Raise UnboundLocalError
  end.

(* ------------------------------------------------------------------ *)
(** *** Attribute lookup on amplifier sets *)
(* ------------------------------------------------------------------ *)

Module Classes.

Local Open Scope string_scope.

Inductive SetClass : Type :=
| AmplifierSet
| TrimmedAmplifierSet
| UnassembledTrimmedAmplifierSet
| AssembledTrimmedAmplifierSet
| UntrimmedAmplifierSet
| UnassembledUntrimmedAmplifierSet
| AssembledUntrimmedAmplifierSet.

(** The names each class body defines. *)
Definition class_dict (c : SetClass) : list string :=
  match c with
  | AmplifierSet =>
      ["__getitem__"; "__iter__"; "__len__"; "observation_info"; "copy";
       "without_images"; "is_complete"; "trimmed_view";
       "into_readout_coordinates"; "assemble_into_trimmed"]
  | TrimmedAmplifierSet =>
      ["__init__"; "__getitem__"; "__iter__"; "__len__"; "observation_info";
       "trimmed_view"; "copy"; "without_images"]
  | UnassembledTrimmedAmplifierSet =>
      ["__init__"; "copy"; "without_images"; "is_complete";
       "into_readout_coordinates"; "assemble_into_trimmed"]
  | AssembledTrimmedAmplifierSet =>
      ["__init__"; "from_views"; "detector"; "copy"; "without_images";
       "is_complete"; "trimmed_view"; "assemble_into_trimmed";
       "with_new_detector_image"]
  | UntrimmedAmplifierSet =>
      ["__init__"; "__getitem__"; "__iter__"; "__len__"; "observation_info";
       "trimmed_view"; "assemble_into_trimmed"; "copy"; "without_images";
       "assemble_into_untrimmed"]
  | UnassembledUntrimmedAmplifierSet =>
      ["__init__"; "copy"; "without_images"; "is_complete";
       "into_readout_coordinates"; "assemble_into_untrimmed"]
  | AssembledUntrimmedAmplifierSet =>
      ["__init__"; "from_views"; "detector"; "copy"; "without_images";
       "is_complete"; "assemble_into_untrimmed"; "with_new_detector_image"]
  end.

(** Method resolution order, up to [typing.Generic] and [object]. *)
Definition mro (c : SetClass) : list SetClass :=
  match c with
  | AmplifierSet => [AmplifierSet]
  | TrimmedAmplifierSet => [TrimmedAmplifierSet; AmplifierSet]
  | UnassembledTrimmedAmplifierSet =>
      [UnassembledTrimmedAmplifierSet; TrimmedAmplifierSet; AmplifierSet]
  | AssembledTrimmedAmplifierSet =>
      [AssembledTrimmedAmplifierSet; TrimmedAmplifierSet; AmplifierSet]
  | UntrimmedAmplifierSet => [UntrimmedAmplifierSet; AmplifierSet]
  | UnassembledUntrimmedAmplifierSet =>
      [UnassembledUntrimmedAmplifierSet; UntrimmedAmplifierSet; AmplifierSet]
  | AssembledUntrimmedAmplifierSet =>
      [AssembledUntrimmedAmplifierSet; UntrimmedAmplifierSet; AmplifierSet]
  end.

(** The attributes the [__init__] methods and [from_views] store on an
    instance. *)
Definition instance_dict (c : SetClass) : list string :=
  match c with
  | AssembledTrimmedAmplifierSet | AssembledUntrimmedAmplifierSet =>
      ["_detector"; "_mapping"; "_observation_info"]
  | UnassembledTrimmedAmplifierSet | UnassembledUntrimmedAmplifierSet =>
      ["_mapping"; "_observation_info"; "_is_complete"]
  | _ => ["_mapping"; "_observation_info"]
  end.

Definition mem (name : string) (l : list string) : bool :=
  existsb (String.eqb name) l.

(** [typing.Generic] and [object] only define names that begin with an
    underscore; every such name is taken to be present. *)
Definition in_builtin_bases (name : string) : bool :=
  String.prefix "_" name.

(** Whether [getattr(instance, name)] finds anything. *)
Definition has_attribute (c : SetClass) (name : string) : bool :=
  mem name (instance_dict c)
  || existsb (fun k => mem name (class_dict k)) (mro c)
  || in_builtin_bases name.

End Classes.

(* ------------------------------------------------------------------ *)
(** *** _trimmed_amplifier_sets.py *)
(* ------------------------------------------------------------------ *)

Module AssembledTrimmedAmplifierSet.

Record t : Type := {
  _detector : ImageSection;
  _mapping : list (Z * TrimmedAmplifier.t);
  _observation_info : ObservationInfo
}.

Definition values (self : t) : list TrimmedAmplifier.t := Dict.values (_mapping self).
Definition detector (self : t) : ImageSection := _detector self.
Definition observation_info (self : t) : ObservationInfo := _observation_info self.
Definition is_complete (self : t) : bool := true.

(** [AssembledTrimmedAmplifierSet.__init__]: each amplifier is moved to
    physical coordinates and re-wrapped around the matching sub-image of
    [detector] as the dictionary is filled. *)
Definition init (detector : ImageSection) (amplifiers : list TrimmedAmplifier.t)
    (observation_info : ObservationInfo) : M t :=
  (views <~ mapM (fun amp =>
       (amp <~ TrimmedAmplifier.into_physical_coordinates amp true ;;
        lift (b <- ImgSec.bbox (TrimmedAmplifier.data amp) ;;
              sub <- ImgSec.subimage detector b ;;
              TrimmedAmplifier.with_new_data_image amp (ImgSec.image sub))%res)%m)
     amplifiers ;;
   ret {| _detector := detector;
          _mapping := Dict.of_list TrimmedAmplifier.amplifier_id views;
          _observation_info := observation_info |})%m.

Definition copy (self : t) : M t :=
  (d <~ ImgSec.copy (_detector self) ;;
   init d (values self) (observation_info self))%m.

Definition assemble_into_trimmed (self : t) (allow_view : bool) : M t :=
  if allow_view then ret self else copy self.

Section AttributeLookup.

(** What calling the attribute found under a name does; the lookup
    itself is what matters below. *)
Variable call : string -> t -> M t.

(** [with_new_detector_image(detector)].  The [None] branch calls
    [self.without_image()]. *)
Definition with_new_detector_image (self : t) (detector : PyImage) : M t :=
  match detector with
  | PyNone =>
      if Classes.has_attribute Classes.AssembledTrimmedAmplifierSet "without_image"%string
      then call "without_image"%string self
      else raise AttributeError
  | _ =>
      (d <~ lift (ImgSec.with_new_image (_detector self) detector) ;;
       init d (values self) (observation_info self))%m
  end.

End AttributeLookup.

End AssembledTrimmedAmplifierSet.

Module UnassembledTrimmedAmplifierSet.

Record t : Type := {
  _mapping : list (Z * TrimmedAmplifier.t);
  _observation_info : ObservationInfo;
  _is_complete : bool
}.

(** [UnassembledTrimmedAmplifierSet.__init__]. *)
Definition init (amplifiers : list TrimmedAmplifier.t) (is_complete : bool)
    (observation_info : ObservationInfo) : t :=
  {| _mapping := Dict.of_list TrimmedAmplifier.amplifier_id amplifiers;
     _observation_info := observation_info;
     _is_complete := is_complete |}.

Definition values (self : t) : list TrimmedAmplifier.t := Dict.values (_mapping self).
Definition len (self : t) : nat := List.length (_mapping self).
Definition observation_info (self : t) : ObservationInfo := _observation_info self.
Definition is_complete (self : t) : bool := _is_complete self.
Definition trimmed_view (self : t) : t := self.

Definition copy (self : t) : M t :=
  (amps <~ mapM TrimmedAmplifier.copy (values self) ;;
   ret (init amps (_is_complete self) (observation_info self)))%m.

Definition without_images (self : t) : Res t :=
  (amps <- mapR TrimmedAmplifier.without_images (values self) ;;
   Ok (init amps (_is_complete self) (observation_info self)))%res.

Definition into_readout_coordinates (self : t) (allow_view : bool) : M t :=
  if allow_view
     && forallb (fun amp => Transform.is_identity (TrimmedAmplifier.readout_transform amp))
          (values self)
  then ret self
  else
    (amps <~ mapM (fun amp => TrimmedAmplifier.into_readout_coordinates amp allow_view)
                  (values self) ;;
     ret (init amps (_is_complete self) (observation_info self)))%m.

(** [assemble_into_trimmed].  [not self] tests [len(self) == 0]. *)
Definition assemble_into_trimmed (self : t) (allow_view : bool)
  : M AssembledTrimmedAmplifierSet.t :=
  if negb (is_complete self) || Nat.eqb (len self) 0
  then raise IncompleteAmplifierSetError
  else
    let detector_bbox :=
      fold_left (fun b amp =>
                   include b (output_bbox (TrimmedAmplifier.physical_transform amp)))
                (values self) Box2I_default in
    (amp <~ lift (loop_variable (values self)) ;;
     detector <~ ImgSec.make_empty (TrimmedAmplifier.data amp) detector_bbox ;;
     new_amplifiers <~ mapM (fun amp =>
         (new_amp <~ TrimmedAmplifier.into_physical_coordinates amp true ;;
          ImgSec.assign detector (TrimmedAmplifier.data new_amp) ;;~
          ret new_amp)%m)
       (values self) ;;
     AssembledTrimmedAmplifierSet.init detector new_amplifiers (observation_info self))%m.

(** [self[amplifier_id]], i.e. [__getitem__]: a lookup in [_mapping]. *)
Definition getitem (self : t) (amplifier_id : Z) :=
  Dict.get amplifier_id (_mapping self).

End UnassembledTrimmedAmplifierSet.

(* ------------------------------------------------------------------ *)
(** *** _untrimmed_amplifier_sets.py *)
(* ------------------------------------------------------------------ *)

Module AssembledUntrimmedAmplifierSet.

Record t : Type := {
  _detector : ImageSection;
  _mapping : list (Z * UntrimmedAmplifier.t);
  _observation_info : ObservationInfo
}.

Definition values (self : t) : list UntrimmedAmplifier.t := Dict.values (_mapping self).
Definition detector (self : t) : ImageSection := _detector self.
Definition observation_info (self : t) : ObservationInfo := _observation_info self.
Definition is_complete (self : t) : bool := true.

(** [AssembledUntrimmedAmplifierSet.__init__]. *)
Definition init (detector : ImageSection) (amplifiers : list UntrimmedAmplifier.t)
    (observation_info : ObservationInfo) : M t :=
  (views <~ mapM (fun amp =>
       (amp <~ UntrimmedAmplifier.into_raw_detector_coordinates amp true ;;
        lift (b <- ImgSec.bbox (UntrimmedAmplifier.full amp) ;;
              sub <- ImgSec.subimage detector b ;;
              UntrimmedAmplifier.with_new_full_image amp (ImgSec.image sub))%res)%m)
     amplifiers ;;
   ret {| _detector := detector;
          _mapping := Dict.of_list UntrimmedAmplifier.amplifier_id views;
          _observation_info := observation_info |})%m.

Definition copy (self : t) : M t :=
  (d <~ ImgSec.copy (_detector self) ;;
   init d (values self) (observation_info self))%m.

Definition assemble_into_untrimmed (self : t) (allow_view : bool) : M t :=
  if allow_view then ret self else copy self.

(** [trimmed_view] and [assemble_into_trimmed], inherited from
    [UntrimmedAmplifierSet]. *)
Definition trimmed_view (self : t) : Res UnassembledTrimmedAmplifierSet.t :=
  (amps <- mapR UntrimmedAmplifier.trimmed_view (values self) ;;
   Ok (UnassembledTrimmedAmplifierSet.init amps (is_complete self)
         (observation_info self)))%res.

Definition assemble_into_trimmed (self : t) (allow_view : bool)
  : M AssembledTrimmedAmplifierSet.t :=
  (tv <~ lift (trimmed_view self) ;;
   UnassembledTrimmedAmplifierSet.assemble_into_trimmed tv allow_view)%m.

Section AttributeLookup.

Variable call : string -> t -> M t.

(** [with_new_detector_image(detector)].  The [None] branch calls
    [self.without_image()]. *)
Definition with_new_detector_image (self : t) (detector : PyImage) : M t :=
  match detector with
  | PyNone =>
      if Classes.has_attribute Classes.AssembledUntrimmedAmplifierSet "without_image"%string
      then call "without_image"%string self
      else raise AttributeError
  | _ =>
      (d <~ lift (ImgSec.with_new_image (_detector self) detector) ;;
       init d (values self) (observation_info self))%m
  end.

End AttributeLookup.

End AssembledUntrimmedAmplifierSet.

Module UnassembledUntrimmedAmplifierSet.

Record t : Type := {
  _mapping : list (Z * UntrimmedAmplifier.t);
  _observation_info : ObservationInfo;
  _is_complete : bool
}.

(** [UnassembledUntrimmedAmplifierSet.__init__]. *)
Definition init (amplifiers : list UntrimmedAmplifier.t) (is_complete : bool)
    (observation_info : ObservationInfo) : t :=
  {| _mapping := Dict.of_list UntrimmedAmplifier.amplifier_id amplifiers;
     _observation_info := observation_info;
     _is_complete := is_complete |}.

Definition values (self : t) : list UntrimmedAmplifier.t := Dict.values (_mapping self).
Definition len (self : t) : nat := List.length (_mapping self).
Definition observation_info (self : t) : ObservationInfo := _observation_info self.
Definition is_complete (self : t) : bool := _is_complete self.

Definition copy (self : t) : M t :=
  (amps <~ mapM UntrimmedAmplifier.copy (values self) ;;
   ret (init amps (_is_complete self) (observation_info self)))%m.

Definition without_images (self : t) : Res t :=
  (amps <- mapR UntrimmedAmplifier.without_images (values self) ;;
   Ok (init amps (_is_complete self) (observation_info self)))%res.

Definition into_readout_coordinates (self : t) (allow_view : bool) : M t :=
  if allow_view
     && forallb (fun amp => Transform.is_identity (UntrimmedAmplifier.readout_transform amp))
          (values self)
  then ret self
  else
    (amps <~ mapM (fun amp => UntrimmedAmplifier.into_readout_coordinates amp allow_view)
                  (values self) ;;
     ret (init amps (_is_complete self) (observation_info self)))%m.

(** [trimmed_view] and [assemble_into_trimmed], inherited from
    [UntrimmedAmplifierSet]: the trimmed view of every member is built
    before the trimmed set's own [assemble_into_trimmed] runs. *)
Definition trimmed_view (self : t) : Res UnassembledTrimmedAmplifierSet.t :=
  (amps <- mapR UntrimmedAmplifier.trimmed_view (values self) ;;
   Ok (UnassembledTrimmedAmplifierSet.init amps (is_complete self)
         (observation_info self)))%res.

Definition assemble_into_trimmed (self : t) (allow_view : bool)
  : M AssembledTrimmedAmplifierSet.t :=
  (tv <~ lift (trimmed_view self) ;;
   UnassembledTrimmedAmplifierSet.assemble_into_trimmed tv allow_view)%m.

(** [assemble_into_untrimmed]. *)
Definition assemble_into_untrimmed (self : t) (allow_view : bool)
  : M AssembledUntrimmedAmplifierSet.t :=
  if negb (is_complete self) || Nat.eqb (len self) 0
  then raise IncompleteAmplifierSetError
  else
    let detector_bbox :=
      fold_left (fun b amp =>
                   include b (output_bbox (UntrimmedAmplifier.raw_detector_transform amp)))
                (values self) Box2I_default in
    (amp <~ lift (loop_variable (values self)) ;;
     data <~ lift (UntrimmedAmplifier.data amp) ;;
     detector <~ ImgSec.make_empty data detector_bbox ;;
     new_amplifiers <~ mapM (fun amp =>
         (new_amp <~ UntrimmedAmplifier.into_raw_detector_coordinates amp true ;;
          d <~ lift (UntrimmedAmplifier.data new_amp) ;;
          ImgSec.assign detector d ;;~
          ret new_amp)%m)
       (values self) ;;
     AssembledUntrimmedAmplifierSet.init detector new_amplifiers (observation_info self))%m.

(** [self[amplifier_id]], i.e. [__getitem__]: a lookup in [_mapping]. *)
Definition getitem (self : t) (amplifier_id : Z) :=
  Dict.get amplifier_id (_mapping self).

End UnassembledUntrimmedAmplifierSet.

(* ================================================================== *)
(** ** Concrete inputs used by the examples below *)
(* ================================================================== *)

Module Examples.

Definition point (x y : Z) : PointI := {| getX := x; getY := y |}.

(** A transform record written out field by field. *)
Definition transform (i o : Box2I) (fx fy : bool) : ImageSectionTransform :=
  {| input_bbox := i; output_bbox := o; flip_x := fx; flip_y := fy |}.

Definition identity (b : Box2I) : ImageSectionTransform := transform b b false false.

(** A store with [n] buffers handed out, in which cell [(r, c)] of buffer
    [b] holds [1000 * (b + 1) + 100 * r + c]. *)
Definition heap (n : nat) : Heap :=
  {| next_buf := n;
     pix := fun b r c => 1000 * (Z.of_nat b + 1) + 100 * r + c |}.

(** The contiguous [int64] array, an instance of [numpy.ndarray] itself,
    that covers rows [0..h-1], columns [0..w-1] of buffer [b]. *)
Definition array (b h w : nat) : Numpy.ndarray :=
  {| Numpy.a_buf := b; Numpy.a_r0 := 0; Numpy.a_c0 := 0;
     Numpy.a_sr := 1; Numpy.a_sc := 1;
     Numpy.shape0 := h; Numpy.shape1 := w;
     Numpy.a_dtype := Numpy.int64; Numpy.a_module := None |}.

(** The same array as an instance of a subclass of [numpy.ndarray] that
    adds nothing and is defined in a Python module [pixels]:
    [class Pixels(numpy.ndarray): pass], and
    [numpy.zeros((h, w), dtype=numpy.int64).view(Pixels)]. *)
Definition subclass_array (b h w : nat) : Numpy.ndarray :=
  {| Numpy.a_buf := b; Numpy.a_r0 := 0; Numpy.a_c0 := 0;
     Numpy.a_sr := 1; Numpy.a_sc := 1;
     Numpy.shape0 := h; Numpy.shape1 := w;
     Numpy.a_dtype := Numpy.int64; Numpy.a_module := Some "pixels"%string |}.

(** The afw image, an [ImageI], of [w] columns and [h] rows over buffer
    [b] whose first pixel sits at [(x0, y0)]. *)
Definition afw_image (b : nat) (x0 y0 : Z) (w h : nat) : Afw.Image :=
  {| Afw.i_buf := b; Afw.i_r0 := 0; Afw.i_c0 := 0;
     Afw.i_x0 := x0; Afw.i_y0 := y0; Afw.i_w := w; Afw.i_h := h;
     Afw.i_type := Afw.PixelI |}.

(** *** A transform and the empty sub-box *)
Definition shift_flip : ImageSectionTransform :=
  transform (box 0 0 9 19) (box 10 0 19 19) true false.

(** *** A 2x2 array section at the origin *)
Definition small_numpy : ImageSection :=
  NumPyImageSection (array 0 2 2) (MinPoint (point 0 0)).
Definition small_afw : ImageSection :=
  AfwImageSection (afw_image 0 0 0 2 2).
Definition flip_in_place : ImageSectionTransform :=
  transform (box 0 0 1 1) (box 0 0 1 1) true false.

(** *** Two untrimmed amplifiers side by side, the second one flipped in x

    Each amplifier is 10 columns by 20 rows and is all data; amplifier 1
    occupies [(0,0)-(9,19)] and amplifier 2 [(10,0)-(19,19)] of the raw
    detector.  The overscan and prescan boxes are one-pixel boxes placed
    outside the amplifier.  [full] is the section that holds the
    amplifier's pixels. *)
Definition side_by_side (id : Z) (full : ImageSection) (x0 : Z) (fx : bool)
  : Res UntrimmedAmplifier.t :=
  let b := box x0 0 (x0 + 9) 19 in
  UntrimmedAmplifier.init full id (identity b) b b
    (box (x0 + 10) 0 (x0 + 10) 0) (box x0 20 x0 20) (box (x0 - 1) 0 (x0 - 1) 0)
    (transform b b fx false).

Definition numpy_pair : Res UnassembledUntrimmedAmplifierSet.t :=
  (a1 <- side_by_side 1 (NumPyImageSection (array 0 20 10) (MinPoint (point 0 0))) 0 false ;;
   a2 <- side_by_side 2 (NumPyImageSection (array 1 20 10) (MinPoint (point 10 0))) 10 true ;;
   Ok (UnassembledUntrimmedAmplifierSet.init [a1; a2] true None))%res.

Definition afw_pair : Res UnassembledUntrimmedAmplifierSet.t :=
  (a1 <- side_by_side 1 (AfwImageSection (afw_image 0 0 0 10 20)) 0 false ;;
   a2 <- side_by_side 2 (AfwImageSection (afw_image 1 10 0 10 20)) 10 true ;;
   Ok (UnassembledUntrimmedAmplifierSet.init [a1; a2] true None))%res.

(** The same second amplifier held in its own coordinates [(0,0)-(9,19)],
    with a raw-detector transform that moves it to [(10,0)-(19,19)]. *)
Definition local_amplifier_2 (full : ImageSection) : Res UntrimmedAmplifier.t :=
  let b := box 0 0 9 19 in
  UntrimmedAmplifier.init full 2 (identity b) b (box 10 0 19 19)
    (box 10 0 10 0) (box 0 20 0 20) (box (-1) 0 (-1) 0)
    (transform b (box 10 0 19 19) true false).

(** *** Two trimmed one-row amplifiers over arrays

    Amplifier 1 is the single pixel [(0,0)]; amplifier 2 is the two
    pixels [(2,0)-(3,0)]; every transform is the identity. *)
Definition one_row (id : Z) (b : nat) (x0 : Z) (w : nat) : Res TrimmedAmplifier.t :=
  let bx := box x0 0 (x0 + Z.of_nat w - 1) 0 in
  TrimmedAmplifier.init (NumPyImageSection (array b 1 w) (MinPoint (point x0 0))) id
    (identity bx) true true true (identity bx).

Definition one_row_pair : Res UnassembledTrimmedAmplifierSet.t :=
  (a1 <- one_row 1 0 0 1 ;;
   a2 <- one_row 2 1 2 2 ;;
   Ok (UnassembledTrimmedAmplifierSet.init [a1; a2] true None))%res.

(** *** The same two amplifiers over arrays of a subclass of ndarray

    As [one_row_pair], with each array an instance of the subclass
    [Pixels] of [subclass_array]. *)
Definition pixels_row (id : Z) (b : nat) (x0 : Z) (w : nat) : Res TrimmedAmplifier.t :=
  let bx := box x0 0 (x0 + Z.of_nat w - 1) 0 in
  TrimmedAmplifier.init
    (NumPyImageSection (subclass_array b 1 w) (MinPoint (point x0 0))) id
    (identity bx) true true true (identity bx).

Definition pixels_row_pair : Res UnassembledTrimmedAmplifierSet.t :=
  (a1 <- pixels_row 1 0 0 1 ;;
   a2 <- pixels_row 2 1 2 2 ;;
   Ok (UnassembledTrimmedAmplifierSet.init [a1; a2] true None))%res.

(** *** A trimmed box-only amplifier *)
Definition box_only_trimmed : Res TrimmedAmplifier.t :=
  let b := box 0 0 9 19 in
  TrimmedAmplifier.init (BoxOnlyImageSection b) 1 (identity b) true true true (identity b).

(** *** An untrimmed box-only amplifier with overscans on a 12x22 frame *)
Definition box_only_untrimmed (hos : Box2I) : Res UntrimmedAmplifier.t :=
  let f := box 0 0 11 21 in
  UntrimmedAmplifier.init (BoxOnlyImageSection f) 1 (identity f)
    (box 1 0 10 19) (box 0 0 9 19) hos (box 1 20 10 21) (box 0 0 0 19)
    (identity f).

(** An incomplete set holding one amplifier whose horizontal overscan
    box overlaps its data box. *)
Definition overlapping_incomplete : Res UnassembledUntrimmedAmplifierSet.t :=
  (a <- box_only_untrimmed (box 5 0 11 19) ;;
   Ok (UnassembledUntrimmedAmplifierSet.init [a] false None))%res.

(** An incomplete set holding one well-formed amplifier. *)
Definition wellformed_incomplete : Res UnassembledUntrimmedAmplifierSet.t :=
  (a <- box_only_untrimmed (box 11 0 11 19) ;;
   Ok (UnassembledUntrimmedAmplifierSet.init [a] false None))%res.

(** *** An untrimmed box-only amplifier whose readout transform moves it *)
Definition shifted_readout : Res UntrimmedAmplifier.t :=
  let f := box 10 0 21 21 in
  UntrimmedAmplifier.init (BoxOnlyImageSection f) 1
    (transform f (box 0 0 11 21) false false)
    (box 11 0 20 19) (box 0 0 9 19) (box 21 0 21 19) (box 11 20 20 21) (box 10 0 10 19)
    (identity f).

(** *** Two untrimmed amplifiers over afw images, with overscans

    Each full frame is 15 columns by 22 rows: two prescan columns, ten
    data columns, three horizontal-overscan columns, and two
    vertical-overscan rows above the data.  Frame 1 is
    [(0,0)-(14,21)]; frame 2 is [(15,0)-(29,21)] and is flipped in x in
    the raw detector, which puts its data at columns 18 to 27. *)
Definition framed (id : Z) (buf : nat) (x0 : Z) (fx : bool) : UntrimmedAmplifier.t :=
  let f := box x0 0 (x0 + 14) 21 in
  {| UntrimmedAmplifier._full := AfwImageSection (afw_image buf x0 0 15 22);
     UntrimmedAmplifier._amplifier_id := id;
     UntrimmedAmplifier._readout_transform := identity f;
     UntrimmedAmplifier._data_bbox := box (x0 + 2) 0 (x0 + 11) 19;
     UntrimmedAmplifier._data_physical_bbox := box x0 0 (x0 + 9) 19;
     UntrimmedAmplifier._horizontal_overscan_bbox := box (x0 + 12) 0 (x0 + 14) 19;
     UntrimmedAmplifier._vertical_overscan_bbox := box (x0 + 2) 20 (x0 + 11) 21;
     UntrimmedAmplifier._horizontal_prescan_bbox := box x0 0 (x0 + 1) 19;
     UntrimmedAmplifier._raw_detector_transform := transform f f fx false |}.

Definition framed_1 : UntrimmedAmplifier.t := framed 1 0 0 false.
Definition framed_2 : UntrimmedAmplifier.t := framed 2 1 15 true.

Definition framed_pair : UnassembledUntrimmedAmplifierSet.t :=
  UnassembledUntrimmedAmplifierSet.init [framed_1; framed_2] true None.

End Examples.

(* ================================================================== *)
(** ** Vocabulary of the properties *)
(* ================================================================== *)

(** What a call returned, seen through [f]; the store itself is a
    function and is only ever inspected pixel by pixel. *)
Definition result_of {A B} (r : Res (A * Heap)) (f : A -> Heap -> B) : Res B :=
  match r with
  | Ok (a, h) => Ok (f a h)
  | Raise e => Raise e
  end.

(** The union of a list of boxes. *)
Definition bbox_union (l : list Box2I) : Box2I := fold_left include l Box2I_default.

(** A transform that came out of the dataclass constructor. *)
Definition constructed (t : ImageSectionTransform) : Prop :=
  Transform.new (input_bbox t) (Some (output_bbox t)) (flip_x t) (flip_y t) = Ok t.

(** The invariant of a [TrimmedAmplifier]: both transforms start from
    the box of [data]. *)
Definition trimmed_invariant (a : TrimmedAmplifier.t) : Prop :=
  exists b, ImgSec.bbox (TrimmedAmplifier.data a) = Ok b
    /\ input_bbox (TrimmedAmplifier.readout_transform a) = b
    /\ input_bbox (TrimmedAmplifier.physical_transform a) = b.

(** The invariant of an [UntrimmedAmplifier]: both transforms start from
    the box of [full], which contains the data box. *)
Definition untrimmed_invariant (a : UntrimmedAmplifier.t) : Prop :=
  exists b, ImgSec.bbox (UntrimmedAmplifier.full a) = Ok b
    /\ input_bbox (UntrimmedAmplifier.readout_transform a) = b
    /\ input_bbox (UntrimmedAmplifier.raw_detector_transform a) = b
    /\ contains b (UntrimmedAmplifier._data_bbox a) = true.

(** The untrimmed amplifiers that the package's operations can produce:
    the constructor, and every method that returns an amplifier. *)
Inductive produced_untrimmed : UntrimmedAmplifier.t -> Prop :=
| PU_init full id rt db dpb hob vob hpb rdt a :
    UntrimmedAmplifier.init full id rt db dpb hob vob hpb rdt = Ok a ->
    produced_untrimmed a
| PU_copy a h a' h' :
    produced_untrimmed a ->
    UntrimmedAmplifier.copy a h = Ok (a', h') ->
    produced_untrimmed a'
| PU_without_images a a' :
    produced_untrimmed a ->
    UntrimmedAmplifier.without_images a = Ok a' ->
    produced_untrimmed a'
| PU_into_readout_coordinates a allow_view h a' h' :
    produced_untrimmed a ->
    UntrimmedAmplifier.into_readout_coordinates a allow_view h = Ok (a', h') ->
    produced_untrimmed a'
| PU_into_raw_detector_coordinates a allow_view h a' h' :
    produced_untrimmed a ->
    UntrimmedAmplifier.into_raw_detector_coordinates a allow_view h = Ok (a', h') ->
    produced_untrimmed a'
| PU_with_new_full_image a image a' :
    produced_untrimmed a ->
    UntrimmedAmplifier.with_new_full_image a image = Ok a' ->
    produced_untrimmed a'.

(** The trimmed amplifiers that the package's operations can produce. *)
Inductive produced_trimmed : TrimmedAmplifier.t -> Prop :=
| PT_init data id rt ho vo hp pt a :
    TrimmedAmplifier.init data id rt ho vo hp pt = Ok a ->
    produced_trimmed a
| PT_copy a h a' h' :
    produced_trimmed a ->
    TrimmedAmplifier.copy a h = Ok (a', h') ->
    produced_trimmed a'
| PT_without_images a a' :
    produced_trimmed a ->
    TrimmedAmplifier.without_images a = Ok a' ->
    produced_trimmed a'
| PT_trimmed_view a :
    produced_trimmed a ->
    produced_trimmed (TrimmedAmplifier.trimmed_view a)
| PT_untrimmed_trimmed_view u a :
    produced_untrimmed u ->
    UntrimmedAmplifier.trimmed_view u = Ok a ->
    produced_trimmed a
| PT_into_readout_coordinates a allow_view h a' h' :
    produced_trimmed a ->
    TrimmedAmplifier.into_readout_coordinates a allow_view h = Ok (a', h') ->
    produced_trimmed a'
| PT_into_physical_coordinates a allow_view h a' h' :
    produced_trimmed a ->
    TrimmedAmplifier.into_physical_coordinates a allow_view h = Ok (a', h') ->
    produced_trimmed a'
| PT_with_new_data_image a image a' :
    produced_trimmed a ->
    TrimmedAmplifier.with_new_data_image a image = Ok a' ->
    produced_trimmed a'.

(** Two sections share storage when some pixel of one and some pixel of
    the other are the same cell of the same buffer. *)
Definition shares_storage (s1 s2 : ImageSection) : Prop :=
  exists x1 y1 x2 y2 c,
    ImgSec.pixel_cell s1 x1 y1 = Some c /\ ImgSec.pixel_cell s2 x2 y2 = Some c.

(** A section that holds at least one pixel. *)
Definition has_pixels (s : ImageSection) : Prop :=
  exists x y c, ImgSec.pixel_cell s x y = Some c.

(** The buffer behind a section's pixels. *)
Definition payload_buffer (s : ImageSection) : option nat :=
  match s with
  | BoxOnlyImageSection _ => None
  | NumPyImageSection a _ => Some (Numpy.a_buf a)
  | AfwImageSection m => Some (Afw.i_buf m)
  end.

(** The section's buffer is one the store has handed out. *)
Definition allocated (h : Heap) (s : ImageSection) : Prop :=
  forall b, payload_buffer s = Some b -> (b < next_buf h)%nat.

(** The store after [v] has been written into cell [c]. *)
Definition write (h : Heap) (c : Cell) (v : Z) : Heap :=
  {| next_buf := next_buf h;
     pix := fun b r k => if cell_eqb (b, r, k) c then v else pix h b r k |}.

(** [h'] was reached from [h] by handing out fresh buffers only: every
    buffer of [h] still holds what it held. *)
Definition extends (h h' : Heap) : Prop :=
  (next_buf h <= next_buf h')%nat
  /\ forall b r k, (b < next_buf h)%nat -> pix h' b r k = pix h b r k.

(** The data box of an untrimmed amplifier in raw detector coordinates,
    as [into_raw_detector_coordinates] computes it. *)
Definition raw_data_bbox (amp : UntrimmedAmplifier.t) : Res Box2I :=
  UntrimmedAmplifier.mapped (UntrimmedAmplifier.raw_detector_transform amp)
    (UntrimmedAmplifier._data_bbox amp).

(** The point [(x, y)] lies in the raw-detector data box of no amplifier
    of the list. *)
Definition outside_data (l : list UntrimmedAmplifier.t) (x y : Z) : Prop :=
  forall amp b, In amp l -> raw_data_bbox amp = Ok b -> contains_point b x y = false.

(** Calls that never raise [IncompleteAmplifierSetError]. *)
Definition quiet {A} (r : Res A) : Prop :=
  match r with
  | Raise IncompleteAmplifierSetError => False
  | _ => True
  end.
Definition quietM {A} (m : M A) : Prop := forall h, quiet (m h).

(** The offset of a sub-box from the edge of the box around it along one
    axis, measured from the far edge when the axis is flipped. *)
Definition edge_offset (flip : bool) (outer_min outer_max inner_min inner_max : Z) : Z :=
  if flip then outer_max - inner_max else inner_min - outer_min.

(** Where a coordinate of the input box lands in the output box along
    one axis: at the same distance from the near edge, or from the far
    edge when the axis is flipped. *)
Definition moved (flip : bool) (in_min out_min out_max x : Z) : Z :=
  if flip then out_max - (x - in_min) else out_min + (x - in_min).

(** The extent of [w] columns by [h] rows. *)
Definition nat_extent (w h : nat) : ExtentI :=
  {| extX := Z.of_nat w; extY := Z.of_nat h |}.

(** Two sections between which [assign] carries pixel values over as
    they are: two arrays, the one written to walked with non-zero strides
    and of an element type that holds every value [other] has in the
    store [h]; or two afw images of the same pixel type. *)
Definition assignable (h : Heap) (self other : ImageSection) : Prop :=
  match self, other with
  | NumPyImageSection a _, NumPyImageSection b _ =>
      Numpy.a_sr a <> 0 /\ Numpy.a_sc a <> 0
      /\ forall i j, Numpy.in_shape b i j = true ->
           Numpy.cast (Numpy.a_dtype a) (Numpy.get h b i j) = Numpy.get h b i j
  | AfwImageSection m, AfwImageSection rhs => Afw.i_type m = Afw.i_type rhs
  | _, _ => False
  end.

(** A section that wraps a NumPy array. *)
Definition array_backed (s : ImageSection) : bool :=
  match s with
  | NumPyImageSection _ _ => true
  | _ => false
  end.

(* ================================================================== *)
(** * Properties *)
(* ================================================================== *)

(** ** Boxes *)

Lemma box_eqb_eq (a b : Box2I) : box_eqb a b = true <-> a = b.
Proof.
  unfold box_eqb, point_eqb, ext_eqb.
  destruct a as [|x y w h], b as [|x' y' w' h']; cbn [getMin getDimensions getX getY extX extY].
  - split; reflexivity.
  - split; [|discriminate]. rewrite !andb_true_iff, !Z.eqb_eq. intros [_ [H _]]; discriminate.
  - split; [|discriminate]. rewrite !andb_true_iff, !Z.eqb_eq. intros [_ [H _]]; discriminate.
  - rewrite !andb_true_iff, !Z.eqb_eq. split.
    + intros [[-> ->] [Hw Hh]]. inversion Hw; inversion Hh; reflexivity.
    + intros H; inversion H; subst. repeat split; reflexivity.
Qed.

Lemma box_eqb_refl (a : Box2I) : box_eqb a a = true.
Proof. now apply box_eqb_eq. Qed.

Lemma ext_eqb_refl (e : ExtentI) : ext_eqb e e = true.
Proof. unfold ext_eqb. now rewrite !Z.eqb_refl. Qed.

(** With its ends in order, the two-corner constructor keeps them. *)
Lemma axis_min_max_width (lo hi : Z) (w : positive) :
  hi - lo = Z.pos w - 1 -> axis_min_max lo hi = (lo, w).
Proof.
  intros H. unfold axis_min_max. rewrite H.
  destruct (Z.ltb_spec (Z.pos w - 1) 0) as [Hlt|_]; [lia|].
  f_equal. replace (Z.pos w - 1 + 1) with (Z.pos w) by lia. reflexivity.
Qed.

Lemma axis_min_max_ordered (lo : Z) (w : positive) :
  axis_min_max lo (lo + Z.pos w - 1) = (lo, w).
Proof. apply axis_min_max_width; lia. Qed.

Lemma Box2I_min_max_rect (x y : Z) (w h : positive) :
  Box2I_min_max {| getX := x; getY := y |}
                {| getX := x + Z.pos w - 1; getY := y + Z.pos h - 1 |}
  = Rect x y w h.
Proof.
  unfold Box2I_min_max; simpl. now rewrite !axis_min_max_ordered.
Qed.

(** ** ImageSectionTransform *)

Lemma constructed_sizes (t : ImageSectionTransform) :
  constructed t <-> getSize (input_bbox t) = getSize (output_bbox t).
Proof.
  unfold constructed, Transform.new.
  destruct t as [i o fx fy]; simpl.
  destruct (ext_eqb (getSize i) (getSize o)) eqn:E; split; intros H;
    try discriminate; try reflexivity.
  - unfold ext_eqb in E. apply andb_true_iff in E as [E1 E2].
    apply Z.eqb_eq in E1, E2.
    destruct (getSize i), (getSize o); simpl in *; congruence.
  - rewrite H, ext_eqb_refl in E. discriminate.
Qed.

Lemma new_ok (i o : Box2I) (fx fy : bool) (t : ImageSectionTransform) :
  Transform.new i (Some o) fx fy = Ok t ->
  t = {| input_bbox := i; output_bbox := o; flip_x := fx; flip_y := fy |}
  /\ getSize i = getSize o.
Proof.
  unfold Transform.new. destruct (ext_eqb (getSize i) (getSize o)) eqn:E; [|discriminate].
  intros H; inversion H; subst; split; [reflexivity|].
  apply (constructed_sizes {| input_bbox := i; output_bbox := o;
                              flip_x := fx; flip_y := fy |}).
  unfold constructed, Transform.new; simpl. now rewrite E.
Qed.

Ltac unfold_geom :=
  unfold point_sub, point_add_ext, point_sub_ext, getMaxX, getMaxY, getMinX, getMinY,
    getMax, getMin, getWidth, getHeight, getSize, getDimensions in *;
  cbn [getX getY extX extY] in *.

(** The output box that [for_subimage] computes for a non-empty box has
    the dimensions of that box, whatever the flips. *)
Lemma sub_output_size (i o : Box2I) (fx fy : bool) (x y : Z) (w h : positive) :
  getSize i = getSize o ->
  exists ox oy,
  Box2I_min_max
    (point_add_ext (getMin o)
       {| extX := if fx then extX (point_sub (getMax i) (getMax (Rect x y w h)))
                  else extX (point_sub (getMin (Rect x y w h)) (getMin i));
          extY := if fy then extY (point_sub (getMax i) (getMax (Rect x y w h)))
                  else extY (point_sub (getMin (Rect x y w h)) (getMin i)) |})
    (point_sub_ext (getMax o)
       {| extX := if fx then extX (point_sub (getMin (Rect x y w h)) (getMin i))
                  else extX (point_sub (getMax i) (getMax (Rect x y w h)));
          extY := if fy then extY (point_sub (getMin (Rect x y w h)) (getMin i))
                  else extY (point_sub (getMax i) (getMax (Rect x y w h))) |})
  = Rect ox oy w h.
Proof.
  intros Hs. unfold Box2I_min_max. unfold getSize in Hs.
  do 2 eexists.
  cbn [getX getY point_add_ext point_sub_ext].
  rewrite (axis_min_max_width _ _ w), (axis_min_max_width _ _ h); [reflexivity| |].
  - destruct i, o; try discriminate; [|inversion Hs; subst];
      destruct fy; unfold_geom; lia.
  - destruct i, o; try discriminate; [|inversion Hs; subst];
      destruct fx; unfold_geom; lia.
Qed.

(** Restricting a constructed transform to a non-empty box always works,
    and the result starts from that box with the same flips. *)
Lemma for_subimage_nonempty (t : ImageSectionTransform) (x y : Z) (w h : positive) :
  constructed t ->
  exists ox oy, Transform.for_subimage t (Rect x y w h)
            = Ok {| input_bbox := Rect x y w h; output_bbox := Rect ox oy w h;
                    flip_x := flip_x t; flip_y := flip_y t |}.
Proof.
  intros Hc. apply constructed_sizes in Hc.
  destruct t as [i o fx fy]; simpl in *.
  destruct (sub_output_size i o fx fy x y w h Hc) as (ox & oy & E).
  exists ox, oy.
  unfold Transform.for_subimage. cbn [input_bbox output_bbox flip_x flip_y].
  destruct fx, fy; cbn [extX extY] in E |- *; rewrite E; unfold Transform.new;
    change (getSize (Rect ox oy w h)) with (getSize (Rect x y w h));
    rewrite ext_eqb_refl; reflexivity.
Qed.

Lemma Box2I_min_max_eq (p q : PointI) (x y : Z) (w h : positive) :
  getX p = x -> getY p = y ->
  getX q = x + Z.pos w - 1 -> getY q = y + Z.pos h - 1 ->
  Box2I_min_max p q = Rect x y w h.
Proof.
  destruct p, q; simpl; intros; subst. apply Box2I_min_max_rect.
Qed.

Lemma for_subimage_whole (t : ImageSectionTransform) :
  constructed t -> isEmpty (input_bbox t) = false ->
  Transform.for_subimage t (input_bbox t) = Ok t.
Proof.
  intros Hc Hne. pose proof Hc as Hs. apply constructed_sizes in Hs.
  destruct t as [i o fx fy]; simpl in *.
  destruct i as [|ix iy iw ih]; [discriminate|].
  destruct o as [|ox oy ow oh]; [discriminate|].
  inversion Hs; subst ow oh.
  unfold Transform.for_subimage. cbn [input_bbox output_bbox flip_x flip_y].
  destruct fx, fy;
    (rewrite (Box2I_min_max_eq _ _ ox oy iw ih);
     [ unfold Transform.new; rewrite ext_eqb_refl; reflexivity
     | unfold_geom; lia .. ]).
Qed.

(** C7 (as stated) fails on the empty box, which every box contains:
    [shift_flip.for_subimage(Box2I())] raises instead of returning a
    transform whose input box is the empty box. *)
Lemma for_subimage_empty_box_raises :
  contains (input_bbox Examples.shift_flip) EmptyBox = true
  /\ constructed Examples.shift_flip
  /\ Transform.for_subimage Examples.shift_flip EmptyBox = Raise ValueError.
Proof. repeat split. Qed.

(** C7 (amended).  For every constructed transform [t]: restricting it to
    a non-empty box [s] contained in [t.input_bbox] returns a transform
    whose input box is [s] (with [t]'s flips), and when [t.input_bbox] is
    not empty, [t.for_subimage(t.input_bbox)] is [t] itself. *)
Theorem for_subimage_round_trip (t : ImageSectionTransform) :
  constructed t ->
  (forall s, isEmpty s = false -> contains (input_bbox t) s = true ->
     exists t', Transform.for_subimage t s = Ok t'
                /\ input_bbox t' = s
                /\ flip_x t' = flip_x t /\ flip_y t' = flip_y t)
  /\ (isEmpty (input_bbox t) = false ->
      exists t', Transform.for_subimage t (input_bbox t) = Ok t'
                 /\ Transform.eqb t' t = true /\ t' = t).
Proof.
  intros Hc; split.
  - intros [|x y w h] Hne _; [discriminate|].
    destruct (for_subimage_nonempty t x y w h Hc) as (ox & oy & Ho).
    eexists; split; [exact Ho|]. simpl; auto.
  - intros Hne. exists t. split; [now apply for_subimage_whole|].
    split; [|reflexivity].
    unfold Transform.eqb. rewrite !box_eqb_refl.
    now destruct (flip_x t), (flip_y t).
Qed.

Lemma for_subimage_round_trip_witness :
  (exists t', Transform.for_subimage Examples.shift_flip (box 0 0 2 19) = Ok t'
              /\ input_bbox t' = box 0 0 2 19
              /\ flip_x t' = true /\ flip_y t' = false)
  /\ (exists t', Transform.for_subimage Examples.shift_flip (box 0 0 9 19) = Ok t'
                 /\ Transform.eqb t' Examples.shift_flip = true
                 /\ t' = Examples.shift_flip).
Proof.
  assert (Hc : constructed Examples.shift_flip) by reflexivity.
  destruct (for_subimage_round_trip Examples.shift_flip Hc) as [H1 H2].
  split.
  - apply (H1 (box 0 0 2 19)); reflexivity.
  - apply H2; reflexivity.
Defined.

(** ** TrimmedAmplifier.into_readout_coordinates *)

(** C3.  The specification has [into_readout_coordinates] return an
    amplifier whose readout transform is the identity.  On a
    [TrimmedAmplifier] the call never returns: whatever the amplifier,
    the store and [allow_view], it raises. *)
Theorem trimmed_into_readout_coordinates_raises :
  forall (self : TrimmedAmplifier.t) (allow_view : bool) (h : Heap),
    exists e, TrimmedAmplifier.into_readout_coordinates self allow_view h = Raise e.
Proof.
  intros self allow_view h.
  unfold TrimmedAmplifier.into_readout_coordinates, bind.
  destruct (ImgSec.apply_transform _ _ _ h) as [[new_data h']|e]; [|eauto].
  unfold lift. destruct (ImgSec.bbox new_data) as [nb|e]; simpl; eauto.
Qed.

(** On the box-only amplifier of the examples the exception is the
    [TypeError] of the incomplete constructor call. *)
Lemma box_only_trimmed_into_readout_coordinates :
  exists a, Examples.box_only_trimmed = Ok a
    /\ forall allow_view h,
         TrimmedAmplifier.into_readout_coordinates a allow_view h = Raise TypeError.
Proof. eexists; split; [reflexivity|]. intros [|] h; reflexivity. Qed.

(** An [UntrimmedAmplifier] whose readout transform moves its box trips
    the constructor's assertion instead. *)
Lemma shifted_readout_into_readout_coordinates :
  exists a, Examples.shifted_readout = Ok a
    /\ forall allow_view h,
         UntrimmedAmplifier.into_readout_coordinates a allow_view h = Raise AssertionError.
Proof. eexists; split; [reflexivity|]. intros [|] h; reflexivity. Qed.

(** ** with_new_detector_image(None) *)

(** C10.  On both assembled set classes, [with_new_detector_image(None)]
    raises [AttributeError], whatever the set and the store: nothing
    named [without_image] is found on an amplifier set. *)
Theorem with_new_detector_image_none_raises :
  (forall call self h,
     AssembledTrimmedAmplifierSet.with_new_detector_image call self PyNone h
     = Raise AttributeError)
  /\ (forall call self h,
        AssembledUntrimmedAmplifierSet.with_new_detector_image call self PyNone h
        = Raise AttributeError).
Proof. split; intros; reflexivity. Qed.

(** The name the sets do define is found. *)
Lemma without_images_is_defined :
  Classes.has_attribute Classes.AssembledTrimmedAmplifierSet "without_images" = true
  /\ Classes.has_attribute Classes.AssembledUntrimmedAmplifierSet "without_images" = true.
Proof. split; reflexivity. Qed.

(** ** subimage *)

(** The box-only implementation checks containment and returns the box
    it was given. *)
Lemma box_only_subimage (b bx : Box2I) :
  (contains b bx = false ->
   ImgSec.subimage (BoxOnlyImageSection b) bx = Raise AssertionError)
  /\ (contains b bx = true ->
      exists s, ImgSec.subimage (BoxOnlyImageSection b) bx = Ok s
                /\ ImgSec.bbox s = Ok bx).
Proof.
  split; intros H; simpl; rewrite H; simpl; eauto.
Qed.

(** C8.  The specification has [subimage] fail on a box that is not
    contained and return a view whose [bbox] is the given box otherwise.
    The array implementation does neither: on a 2x2 array at the origin,
    the box [(5,5)-(6,6)] outside it is accepted, and for the contained
    box [(0,0)-(0,0)] the section returned raises when asked for its
    [bbox]. *)
Theorem numpy_subimage_unchecked :
  ImgSec.bbox Examples.small_numpy = Ok (box 0 0 1 1)
  /\ contains (box 0 0 1 1) (box 5 5 6 6) = false
  /\ is_ok (ImgSec.subimage Examples.small_numpy (box 5 5 6 6)) = true
  /\ contains (box 0 0 1 1) (box 0 0 0 0) = true
  /\ exists s, ImgSec.subimage Examples.small_numpy (box 0 0 0 0) = Ok s
               /\ ImgSec.bbox s = Raise TypeError.
Proof.
  split; [reflexivity|]. split; [reflexivity|]. split; [reflexivity|].
  split; [reflexivity|]. eexists; split; reflexivity.
Qed.

(** The array implementation never raises on its first call, and the
    section it returns never has a [bbox]. *)
Lemma numpy_subimage_any (a : Numpy.ndarray) (p : PointI) (bx : Box2I) :
  exists s, ImgSec.subimage (NumPyImageSection a (MinPoint p)) bx = Ok s
            /\ ImgSec.bbox s = Raise TypeError.
Proof. eexists; split; reflexivity. Qed.

(** ** Assembly on the array backend *)

(** C1.  Two untrimmed amplifiers over arrays, amplifier 1 at
    [(0,0)-(9,19)] and amplifier 2 at [(10,0)-(19,19)] with [flip_x], in a
    complete set: [assemble_into_untrimmed] does not produce a canvas; it
    raises [TypeError]. *)
Theorem numpy_pair_assemble_into_untrimmed_raises :
  exists s, Examples.numpy_pair = Ok s
    /\ UnassembledUntrimmedAmplifierSet.is_complete s = true
    /\ UnassembledUntrimmedAmplifierSet.len s = 2%nat
    /\ forall allow_view,
         UnassembledUntrimmedAmplifierSet.assemble_into_untrimmed s allow_view
           (Examples.heap 2) = Raise TypeError.
Proof.
  eexists; split; [reflexivity|].
  split; [reflexivity|]. split; [reflexivity|].
  intros [|]; vm_compute; reflexivity.
Qed.

(** The same two amplifiers over afw images assemble as the
    specification says: the canvas is [(0,0)-(19,19)] and the pixel of
    amplifier 2's column 0 (first cell of buffer 1) is at canvas column
    19, its column 9 at canvas column 10. *)
Lemma afw_pair_assemble_into_untrimmed :
  exists s, Examples.afw_pair = Ok s
    /\ result_of
         (UnassembledUntrimmedAmplifierSet.assemble_into_untrimmed s false (Examples.heap 2))
         (fun r h => (ImgSec.bbox (AssembledUntrimmedAmplifierSet.detector r),
                      ImgSec.pixel h (AssembledUntrimmedAmplifierSet.detector r) 19 0,
                      ImgSec.pixel h (AssembledUntrimmedAmplifierSet.detector r) 10 0))
       = Ok (Ok (box 0 0 19 19),
             Some (pix (Examples.heap 2) 1 0 0),
             Some (pix (Examples.heap 2) 1 0 9)).
Proof. eexists; split; [reflexivity|]. vm_compute; reflexivity. Qed.

(** Held in its own coordinates, amplifier 2 cannot even be moved to raw
    detector coordinates: the constructor's assertion on the composed
    readout transform fails. *)
Lemma local_amplifier_2_into_raw_detector_coordinates :
  exists a, Examples.local_amplifier_2 (AfwImageSection (Examples.afw_image 1 0 0 10 20)) = Ok a
    /\ forall allow_view,
         UntrimmedAmplifier.into_raw_detector_coordinates a allow_view (Examples.heap 2)
         = Raise AssertionError.
Proof. eexists; split; [reflexivity|]. intros [|]; vm_compute; reflexivity. Qed.

(** Over instances of [numpy.ndarray] itself the assembly of a trimmed
    set does not get as far as returning a canvas: the constructor of
    the assembled set re-wraps each member with [with_new_image], and
    the lookup [image.__module__] fails on such an array. *)
Lemma numpy_one_row_pair_assemble_raises :
  exists s, Examples.one_row_pair = Ok s
    /\ forall allow_view,
         UnassembledTrimmedAmplifierSet.assemble_into_trimmed s allow_view (Examples.heap 2)
         = Raise AttributeError.
Proof. eexists; split; [reflexivity|]. intros [|]; vm_compute; reflexivity. Qed.

(** C2.  Two trimmed one-row amplifiers at [(0,0)-(0,0)] and
    [(2,0)-(3,0)], in a complete set, over arrays that are instances of
    a subclass of [numpy.ndarray] written in Python (which
    [with_new_image] accepts): [assemble_into_trimmed] succeeds, and the
    canvas it returns has the box of the last amplifier, [(2,0)-(3,0)],
    not the union [(0,0)-(3,0)] of the members' physical output boxes. *)
Theorem numpy_subclass_pair_canvas_bbox :
  exists s, Examples.pixels_row_pair = Ok s
    /\ UnassembledTrimmedAmplifierSet.is_complete s = true
    /\ bbox_union (map (fun amp => output_bbox (TrimmedAmplifier.physical_transform amp))
                       (UnassembledTrimmedAmplifierSet.values s))
       = box 0 0 3 0
    /\ result_of
         (UnassembledTrimmedAmplifierSet.assemble_into_trimmed s false (Examples.heap 2))
         (fun r _ => ImgSec.bbox (AssembledTrimmedAmplifierSet.detector r))
       = Ok (Ok (box 2 0 3 0)).
Proof.
  eexists; split; [reflexivity|].
  split; [reflexivity|]. split; [reflexivity|].
  vm_compute; reflexivity.
Qed.

(** ** IncompleteAmplifierSetError *)


Lemma quiet_ok {A} (a : A) : quiet (Ok a).
Proof. exact I. Qed.

Lemma quiet_spec {A} (r : Res A) : quiet r <-> r <> Raise IncompleteAmplifierSetError.
Proof.
  destruct r as [a|[]]; simpl; split; intros H; try exact I; try discriminate;
    try contradiction; try (now apply H).
Qed.

Lemma quiet_rbind {A B} (r : Res A) (k : A -> Res B) :
  quiet r -> (forall a, quiet (k a)) -> quiet (rbind r k).
Proof.
  destruct r as [a|e]; simpl; intros Hr Hk; [apply Hk|exact Hr].
Qed.

Lemma quiet_assert (c : bool) : quiet (assert_ c).
Proof. destruct c; exact I. Qed.

Lemma quiet_mapR {A B} (f : A -> Res B) (l : list A) :
  (forall a, quiet (f a)) -> quiet (mapR f l).
Proof.
  intros Hf. induction l as [|a l IH]; cbn [mapR]; [apply quiet_ok|].
  apply quiet_rbind; [apply Hf|]. intros b.
  apply quiet_rbind; [exact IH|]. intros bs. apply quiet_ok.
Qed.

Lemma quietM_ret {A} (a : A) : quietM (ret a).
Proof. intros h; exact I. Qed.

Lemma quietM_bind {A B} (m : M A) (k : A -> M B) :
  quietM m -> (forall a, quietM (k a)) -> quietM (bind m k).
Proof.
  unfold quietM, bind. intros Hm Hk h.
  specialize (Hm h). destruct (m h) as [[a h']|e]; [apply Hk|exact Hm].
Qed.

Lemma quietM_lift {A} (r : Res A) : quiet r -> quietM (lift r).
Proof. unfold quietM, lift. intros Hr h. destruct r; [exact I|exact Hr]. Qed.

Lemma quietM_mapM {A B} (f : A -> M B) (l : list A) :
  (forall a, quietM (f a)) -> quietM (mapM f l).
Proof.
  intros Hf. induction l as [|a l IH]; cbn [mapM]; [apply quietM_ret|].
  apply quietM_bind; [apply Hf|]. intros b.
  apply quietM_bind; [exact IH|]. intros bs. apply quietM_ret.
Qed.

Create HintDb quiet.
#[local] Hint Resolve quiet_ok quiet_assert quietM_ret : quiet.

(** One step of a proof that a call is quiet: peel the outermost
    sequencing or case distinction. *)
Ltac quiet_step :=
  match goal with
  | |- quiet (Ok _) => apply quiet_ok
  | |- quiet (Raise _) => exact I
  | |- quiet (assert_ _) => apply quiet_assert
  | |- quiet (rbind _ _) => apply quiet_rbind; [|intros ?]
  | |- quiet (mapR _ _) => apply quiet_mapR; intros ?
  | |- quietM (ret _) => apply quietM_ret
  | |- quietM (raise _) => intros ?; exact I
  | |- quietM (lift _) => apply quietM_lift
  | |- quietM (bind _ _) => apply quietM_bind; [|intros ?]
  | |- quietM (mapM _ _) => apply quietM_mapM; intros ?
  | |- quiet (if ?c then _ else _) => destruct c
  | |- quietM (if ?c then _ else _) => destruct c
  | |- quiet (match ?x with _ => _ end) => destruct x
  | |- quietM (match ?x with _ => _ end) => destruct x
  | |- _ => solve [auto with quiet]
  end.
Ltac quiet_tac := repeat quiet_step.

Lemma quiet_new i o fx fy : quiet (Transform.new i o fx fy).
Proof. unfold Transform.new. quiet_tac. Qed.
#[local] Hint Resolve quiet_new : quiet.

Lemma quiet_make_identity b : quiet (Transform.make_identity b).
Proof. unfold Transform.make_identity. quiet_tac. Qed.

Lemma quiet_after t u : quiet (Transform.after t u).
Proof. unfold Transform.after. quiet_tac. Qed.

Lemma quiet_for_subimage t b : quiet (Transform.for_subimage t b).
Proof.
  unfold Transform.for_subimage.
  destruct (flip_x t), (flip_y t); cbv zeta; quiet_tac.
Qed.
#[local] Hint Resolve quiet_make_identity quiet_after quiet_for_subimage : quiet.

Lemma quiet_bbox s : quiet (ImgSec.bbox s).
Proof. unfold ImgSec.bbox. quiet_tac. Qed.
#[local] Hint Resolve quiet_bbox : quiet.

Lemma quiet_afw_sub_view m off dims xy0 : quiet (Afw.sub_view m off dims xy0).
Proof. unfold Afw.sub_view. quiet_tac. Qed.
#[local] Hint Resolve quiet_afw_sub_view : quiet.

Lemma quiet_subimage s b : quiet (ImgSec.subimage s b).
Proof. unfold ImgSec.subimage, Afw.subimage. quiet_tac. Qed.

Lemma quiet_without_image s : quiet (ImgSec.without_image s).
Proof. unfold ImgSec.without_image. quiet_tac. Qed.
#[local] Hint Resolve quiet_subimage quiet_without_image : quiet.

Lemma quiet_with_new_image s i : quiet (ImgSec.with_new_image s i).
Proof.
  destruct i as [|a|m|[mo|]]; unfold ImgSec.with_new_image, module_of;
    try destruct (Numpy.a_module a); cbn [rbind]; quiet_tac.
Qed.
#[local] Hint Resolve quiet_with_new_image : quiet.

Lemma quietM_numpy_copy a : quietM (Numpy.copy a).
Proof. intros h; exact I. Qed.
Lemma quietM_zeros_like a : quietM (Numpy.zeros_like a).
Proof. intros h; exact I. Qed.
Lemma quietM_assign_all d s : quietM (Numpy.assign_all d s).
Proof. intros h; unfold Numpy.assign_all. quiet_tac. Qed.
Lemma quietM_afw_clone m d : quietM (Afw.clone m d).
Proof. intros h; unfold Afw.clone. quiet_tac. Qed.
Lemma quietM_afw_make t b : quietM (Afw.make t b).
Proof. intros h; exact I. Qed.
Lemma quietM_afw_flipImage m a b : quietM (Afw.flipImage m a b).
Proof. intros h; exact I. Qed.
Lemma quietM_afw_assign m r b : quietM (Afw.assign m r b).
Proof.
  intros h; unfold Afw.assign.
  destruct (negb (Afw.pixel_type_eqb _ _)); [exact I|].
  destruct (negb _); [exact I|].
  destruct (isEmpty b); [exact I|].
  pose proof (quiet_afw_sub_view m (point_sub (getMin b) (Afw.getXY0 m))
                (getDimensions b) (getMin b)) as Hq.
  destruct (Afw.sub_view _ _ _ _); [exact I|exact Hq].
Qed.
#[local] Hint Resolve quietM_numpy_copy quietM_zeros_like quietM_assign_all
  quietM_afw_clone quietM_afw_make quietM_afw_flipImage quietM_afw_assign : quiet.

Lemma quietM_section_copy s : quietM (ImgSec.copy s).
Proof. unfold ImgSec.copy. quiet_tac. Qed.
Lemma quietM_make_empty s b : quietM (ImgSec.make_empty s b).
Proof. unfold ImgSec.make_empty. quiet_tac. Qed.
Lemma quietM_section_assign s o : quietM (ImgSec.assign s o).
Proof. unfold ImgSec.assign. quiet_tac. Qed.
Lemma quietM_apply_transform s t v : quietM (ImgSec.apply_transform s t v).
Proof. unfold ImgSec.apply_transform. quiet_tac. Qed.
#[local] Hint Resolve quietM_section_copy quietM_make_empty quietM_section_assign
  quietM_apply_transform : quiet.

Lemma quiet_trimmed_init d i r a b c p : quiet (TrimmedAmplifier.init d i r a b c p).
Proof. unfold TrimmedAmplifier.init. quiet_tac. Qed.
#[local] Hint Resolve quiet_trimmed_init : quiet.

Lemma quietM_into_physical_coordinates a v :
  quietM (TrimmedAmplifier.into_physical_coordinates a v).
Proof. unfold TrimmedAmplifier.into_physical_coordinates. quiet_tac. Qed.

Lemma quiet_with_new_data_image a i : quiet (TrimmedAmplifier.with_new_data_image a i).
Proof. unfold TrimmedAmplifier.with_new_data_image. quiet_tac. Qed.
#[local] Hint Resolve quietM_into_physical_coordinates quiet_with_new_data_image : quiet.

Lemma quiet_untrimmed_init f i r a b c d e p :
  quiet (UntrimmedAmplifier.init f i r a b c d e p).
Proof. unfold UntrimmedAmplifier.init. quiet_tac. Qed.
#[local] Hint Resolve quiet_untrimmed_init : quiet.

Lemma quiet_mapped t b : quiet (UntrimmedAmplifier.mapped t b).
Proof. unfold UntrimmedAmplifier.mapped. quiet_tac. Qed.
#[local] Hint Resolve quiet_mapped : quiet.

Lemma quietM_into_raw_detector_coordinates a v :
  quietM (UntrimmedAmplifier.into_raw_detector_coordinates a v).
Proof. unfold UntrimmedAmplifier.into_raw_detector_coordinates. quiet_tac. Qed.

Lemma quiet_with_new_full_image a i : quiet (UntrimmedAmplifier.with_new_full_image a i).
Proof. unfold UntrimmedAmplifier.with_new_full_image. quiet_tac. Qed.

Lemma quiet_untrimmed_data a : quiet (UntrimmedAmplifier.data a).
Proof. unfold UntrimmedAmplifier.data. quiet_tac. Qed.
#[local] Hint Resolve quietM_into_raw_detector_coordinates quiet_with_new_full_image
  quiet_untrimmed_data : quiet.

Lemma quiet_untrimmed_trimmed_view a : quiet (UntrimmedAmplifier.trimmed_view a).
Proof.
  unfold UntrimmedAmplifier.trimmed_view, UntrimmedAmplifier.horizontal_overscan_boundary,
    UntrimmedAmplifier.vertical_overscan_boundary,
    UntrimmedAmplifier.horizontal_prescan_boundary.
  quiet_tac.
Qed.
#[local] Hint Resolve quiet_untrimmed_trimmed_view : quiet.

Lemma quiet_loop_variable {A} (l : list A) : quiet (loop_variable l).
Proof. unfold loop_variable. quiet_tac. Qed.
#[local] Hint Resolve quiet_loop_variable : quiet.

Lemma quietM_assembled_trimmed_init d l o : quietM (AssembledTrimmedAmplifierSet.init d l o).
Proof. unfold AssembledTrimmedAmplifierSet.init. quiet_tac. Qed.

Lemma quietM_assembled_untrimmed_init d l o :
  quietM (AssembledUntrimmedAmplifierSet.init d l o).
Proof. unfold AssembledUntrimmedAmplifierSet.init. quiet_tac. Qed.
#[local] Hint Resolve quietM_assembled_trimmed_init quietM_assembled_untrimmed_init : quiet.

Lemma dict_set_nonempty {V} (k : Z) (v : V) (d : list (Z * V)) : Dict.set k v d <> [].
Proof. destruct d as [|[k' v'] d]; simpl; [|destruct (k =? k')]; discriminate. Qed.

Lemma dict_fold_nonempty {V} (key : V -> Z) (l : list V) (d : list (Z * V)) :
  d <> [] -> fold_left (fun d v => Dict.set (key v) v d) l d <> [].
Proof.
  revert d. induction l as [|a l IH]; simpl; intros d Hd; [exact Hd|].
  apply IH, dict_set_nonempty.
Qed.

Lemma dict_of_list_nil {V} (key : V -> Z) (l : list V) :
  Dict.of_list key l = [] <-> l = [].
Proof.
  split; [|intros ->; reflexivity].
  destruct l as [|a l]; [reflexivity|]. unfold Dict.of_list; simpl.
  intros H. exfalso. revert H. apply dict_fold_nonempty. discriminate.
Qed.

Lemma mapR_nil {A B} (f : A -> Res B) (l : list A) (l' : list B) :
  mapR f l = Ok l' -> (l' = [] <-> l = []).
Proof.
  destruct l as [|a l]; simpl.
  - intros H; inversion H; split; reflexivity.
  - destruct (f a); simpl; [|discriminate].
    destruct (mapR f l); simpl; [|discriminate].
    intros H; inversion H; split; discriminate.
Qed.

Lemma length_zero_nil {A} (l : list A) : Nat.eqb (List.length l) 0 = true <-> l = [].
Proof. destruct l; simpl; split; intros; try reflexivity; discriminate. Qed.

(** The guard at the head of the two assembly methods. *)
Lemma guard_spec (c : bool) (n : nat) :
  negb c || Nat.eqb n 0 = true <-> (c = false \/ n = 0%nat).
Proof.
  rewrite orb_true_iff, negb_true_iff, Nat.eqb_eq. reflexivity.
Qed.

Lemma trimmed_assemble_incomplete (s : UnassembledTrimmedAmplifierSet.t)
    (allow_view : bool) (h : Heap) :
  UnassembledTrimmedAmplifierSet.assemble_into_trimmed s allow_view h
  = Raise IncompleteAmplifierSetError
  <-> (UnassembledTrimmedAmplifierSet.is_complete s = false
       \/ UnassembledTrimmedAmplifierSet.len s = 0%nat).
Proof.
  rewrite <- guard_spec.
  unfold UnassembledTrimmedAmplifierSet.assemble_into_trimmed.
  destruct (negb _ || _); [split; reflexivity|].
  split; [|discriminate]. intros H. exfalso. revert H. apply quiet_spec.
  revert h.
  match goal with |- forall h, quiet (?m h) => change (quietM m) end.
  quiet_tac.
Qed.

Lemma untrimmed_assemble_incomplete (s : UnassembledUntrimmedAmplifierSet.t)
    (allow_view : bool) (h : Heap) :
  UnassembledUntrimmedAmplifierSet.assemble_into_untrimmed s allow_view h
  = Raise IncompleteAmplifierSetError
  <-> (UnassembledUntrimmedAmplifierSet.is_complete s = false
       \/ UnassembledUntrimmedAmplifierSet.len s = 0%nat).
Proof.
  rewrite <- guard_spec.
  unfold UnassembledUntrimmedAmplifierSet.assemble_into_untrimmed.
  destruct (negb _ || _); [split; reflexivity|].
  split; [|discriminate]. intros H. exfalso. revert H. apply quiet_spec.
  revert h.
  match goal with |- forall h, quiet (?m h) => change (quietM m) end.
  quiet_tac.
Qed.

(** C6 (as stated) fails for [assemble_into_trimmed] on an untrimmed set:
    the set below is incomplete, yet the call raises the
    [AssertionError] of a member's [trimmed_view]. *)
Lemma incomplete_untrimmed_set_other_error :
  exists s, Examples.overlapping_incomplete = Ok s
    /\ UnassembledUntrimmedAmplifierSet.is_complete s = false
    /\ forall allow_view h,
         UnassembledUntrimmedAmplifierSet.assemble_into_trimmed s allow_view h
         = Raise AssertionError.
Proof.
  eexists; split; [reflexivity|]. split; [reflexivity|]. intros [|] h; reflexivity.
Qed.

(** C6 (amended).  [assemble_into_trimmed] on an unassembled trimmed set
    and [assemble_into_untrimmed] on an unassembled untrimmed set raise
    [IncompleteAmplifierSetError] exactly when [is_complete] is false or
    the set has no members.  [assemble_into_trimmed] on an unassembled
    untrimmed set first builds the trimmed view of every member: when
    that succeeds the same equivalence holds, and when it raises, that
    exception (never [IncompleteAmplifierSetError]) is what the call
    raises. *)
Theorem incomplete_set_error :
  (forall (s : UnassembledTrimmedAmplifierSet.t) allow_view h,
     UnassembledTrimmedAmplifierSet.assemble_into_trimmed s allow_view h
     = Raise IncompleteAmplifierSetError
     <-> (UnassembledTrimmedAmplifierSet.is_complete s = false
          \/ UnassembledTrimmedAmplifierSet.len s = 0%nat))
  /\ (forall (s : UnassembledUntrimmedAmplifierSet.t) allow_view h,
        UnassembledUntrimmedAmplifierSet.assemble_into_untrimmed s allow_view h
        = Raise IncompleteAmplifierSetError
        <-> (UnassembledUntrimmedAmplifierSet.is_complete s = false
             \/ UnassembledUntrimmedAmplifierSet.len s = 0%nat))
  /\ (forall (s : UnassembledUntrimmedAmplifierSet.t) allow_view h,
        (forall tv, UnassembledUntrimmedAmplifierSet.trimmed_view s = Ok tv ->
           (UnassembledUntrimmedAmplifierSet.assemble_into_trimmed s allow_view h
            = Raise IncompleteAmplifierSetError
            <-> (UnassembledUntrimmedAmplifierSet.is_complete s = false
                 \/ UnassembledUntrimmedAmplifierSet.len s = 0%nat)))
        /\ (forall e, UnassembledUntrimmedAmplifierSet.trimmed_view s = Raise e ->
              e <> IncompleteAmplifierSetError
              /\ UnassembledUntrimmedAmplifierSet.assemble_into_trimmed s allow_view h
                 = Raise e)).
Proof.
  split; [exact trimmed_assemble_incomplete|].
  split; [exact untrimmed_assemble_incomplete|].
  intros s allow_view h; split.
  - intros tv Htv.
    unfold UnassembledUntrimmedAmplifierSet.assemble_into_trimmed, bind, lift.
    rewrite Htv. rewrite trimmed_assemble_incomplete.
    unfold UnassembledUntrimmedAmplifierSet.trimmed_view in Htv.
    destruct (mapR _ _) as [amps|e] eqn:Hm; simpl in Htv; [|discriminate].
    inversion Htv; subst tv; clear Htv.
    unfold UnassembledTrimmedAmplifierSet.is_complete,
      UnassembledTrimmedAmplifierSet.len, UnassembledTrimmedAmplifierSet.init,
      UnassembledUntrimmedAmplifierSet.len; simpl.
    apply mapR_nil in Hm.
    unfold UnassembledUntrimmedAmplifierSet.values, Dict.values in Hm.
    rewrite <- !Nat.eqb_eq, !length_zero_nil, dict_of_list_nil, Hm.
    split; (intros [H|H]; [left; exact H|right]).
    + now destruct (UnassembledUntrimmedAmplifierSet._mapping s).
    + now rewrite H.
  - intros e He. split.
    + pose proof (quiet_mapR UntrimmedAmplifier.trimmed_view
                    (UnassembledUntrimmedAmplifierSet.values s)
                    quiet_untrimmed_trimmed_view) as Hq.
      unfold UnassembledUntrimmedAmplifierSet.trimmed_view in He.
      destruct (mapR _ _) as [amps|e']; simpl in He; [discriminate|].
      inversion He; subst e'. intros ->. exact Hq.
    + unfold UnassembledUntrimmedAmplifierSet.assemble_into_trimmed, bind, lift.
      rewrite He. reflexivity.
Qed.

Lemma incomplete_set_error_witness :
  exists s tv,
    Examples.wellformed_incomplete = Ok s
    /\ UnassembledUntrimmedAmplifierSet.trimmed_view s = Ok tv
    /\ (UnassembledUntrimmedAmplifierSet.assemble_into_trimmed s false (Examples.heap 0)
        = Raise IncompleteAmplifierSetError
        <-> (UnassembledUntrimmedAmplifierSet.is_complete s = false
             \/ UnassembledUntrimmedAmplifierSet.len s = 0%nat)).
Proof.
  eexists; eexists. split; [reflexivity|]. split; [reflexivity|].
  destruct incomplete_set_error as (_ & _ & H).
  refine (proj1 (H _ false (Examples.heap 0)) _ _). reflexivity.
Defined.

(** ** The amplifier invariants *)

(** Peel the sequencing off a hypothesis that says a call returned. *)
Ltac returned :=
  repeat match goal with
         | H : rbind ?r _ = Ok _ |- _ =>
             destruct r eqn:?; cbn [rbind] in H; [|discriminate H]
         | H : bind ?m _ ?h = Ok _ |- _ =>
             unfold bind at 1 in H;
             destruct (m h) as [[? ?]|?] eqn:?; [|discriminate H]
         | H : lift ?r _ = Ok _ |- _ =>
             unfold lift in H; destruct r eqn:?; [|discriminate H]
         | H : Ok _ = Ok _ |- _ => inversion H; subst; clear H
         end.

Lemma assert_ok (c : bool) (u : unit) : assert_ c = Ok u -> c = true.
Proof. destruct c; [reflexivity|discriminate]. Qed.

Lemma trimmed_init_invariant data id rt ho vo hp pt a :
  TrimmedAmplifier.init data id rt ho vo hp pt = Ok a -> trimmed_invariant a.
Proof.
  unfold TrimmedAmplifier.init. intros H.
  destruct (ImgSec.bbox data) as [b|] eqn:Eb; cbn [rbind] in H; [|discriminate].
  destruct (box_eqb (input_bbox rt) b) eqn:E1; cbn [rbind assert_] in H; [|discriminate].
  destruct (box_eqb (input_bbox pt) b) eqn:E2; cbn [rbind assert_] in H; [|discriminate].
  inversion H; subst a. exists b.
  apply box_eqb_eq in E1, E2. cbn. auto.
Qed.

Lemma untrimmed_init_invariant full id rt db dpb hob vob hpb rdt a :
  UntrimmedAmplifier.init full id rt db dpb hob vob hpb rdt = Ok a ->
  untrimmed_invariant a.
Proof.
  unfold UntrimmedAmplifier.init. intros H.
  destruct (ImgSec.bbox full) as [b|] eqn:Eb; cbn [rbind] in H; [|discriminate].
  destruct (box_eqb (input_bbox rt) b) eqn:E1; cbn [rbind assert_] in H; [|discriminate].
  destruct (box_eqb (input_bbox rdt) b) eqn:E2; cbn [rbind assert_] in H; [|discriminate].
  destruct (contains b db) eqn:E3; cbn [rbind assert_] in H; [|discriminate].
  inversion H; subst a. exists b.
  apply box_eqb_eq in E1, E2. cbn. auto.
Qed.

Lemma produced_untrimmed_invariant (a : UntrimmedAmplifier.t) :
  produced_untrimmed a -> untrimmed_invariant a.
Proof.
  induction 1 as [ full id rt db dpb hob vob hpb rdt a H
                 | a h a' h' _ IH H
                 | a a' _ IH H
                 | a v h a' h' _ IH H
                 | a v h a' h' _ IH H
                 | a image a' _ IH H ].
  - eapply untrimmed_init_invariant; eassumption.
  - unfold UntrimmedAmplifier.copy in H. returned.
    eapply untrimmed_init_invariant; eassumption.
  - unfold UntrimmedAmplifier.without_images in H.
    destruct (ImgSec.image _); [inversion H; subst; exact IH| | |];
      returned; eapply untrimmed_init_invariant; eassumption.
  - unfold UntrimmedAmplifier.into_readout_coordinates in H. returned.
    eapply untrimmed_init_invariant; eassumption.
  - unfold UntrimmedAmplifier.into_raw_detector_coordinates in H. returned.
    eapply untrimmed_init_invariant; eassumption.
  - unfold UntrimmedAmplifier.with_new_full_image in H. returned.
    eapply untrimmed_init_invariant; eassumption.
Qed.

Lemma produced_trimmed_invariant (a : TrimmedAmplifier.t) :
  produced_trimmed a -> trimmed_invariant a.
Proof.
  induction 1 as [ data id rt ho vo hp pt a H
                 | a h a' h' _ IH H
                 | a a' _ IH H
                 | a _ IH
                 | u a Hu H
                 | a v h a' h' _ IH H
                 | a v h a' h' _ IH H
                 | a image a' _ IH H ].
  - eapply trimmed_init_invariant; eassumption.
  - unfold TrimmedAmplifier.copy in H. returned.
    eapply trimmed_init_invariant; eassumption.
  - unfold TrimmedAmplifier.without_images in H.
    destruct (ImgSec.image _); [inversion H; subst; exact IH| | |];
      returned; eapply trimmed_init_invariant; eassumption.
  - exact IH.
  - unfold UntrimmedAmplifier.trimmed_view in H. returned.
    eapply trimmed_init_invariant; eassumption.
  - unfold TrimmedAmplifier.into_readout_coordinates in H. returned.
    eapply trimmed_init_invariant; eassumption.
  - unfold TrimmedAmplifier.into_physical_coordinates in H. returned.
    eapply trimmed_init_invariant; eassumption.
  - unfold TrimmedAmplifier.with_new_data_image in H. returned.
    eapply trimmed_init_invariant; eassumption.
Qed.

(** C4.  Every amplifier that construction, [copy], [without_images],
    [trimmed_view], [into_readout_coordinates],
    [into_physical_coordinates], [into_raw_detector_coordinates] (and the
    [with_new_*_image] methods) produce satisfies the invariant of its
    class: for a [TrimmedAmplifier],
    [readout_transform.input_bbox == physical_transform.input_bbox == data.bbox];
    for an [UntrimmedAmplifier],
    [readout_transform.input_bbox == raw_detector_transform.input_bbox == full.bbox]. *)
Theorem amplifier_invariant_preserved :
  (forall a, produced_trimmed a -> trimmed_invariant a)
  /\ (forall a, produced_untrimmed a -> untrimmed_invariant a).
Proof.
  split; [exact produced_trimmed_invariant|exact produced_untrimmed_invariant].
Qed.

Lemma amplifier_invariant_preserved_witness :
  (exists a a', Examples.box_only_trimmed = Ok a
     /\ result_of (TrimmedAmplifier.into_physical_coordinates a false (Examples.heap 0))
          (fun r _ => r) = Ok a'
     /\ trimmed_invariant a')
  /\ (exists u u', Examples.box_only_untrimmed (box 11 0 11 19) = Ok u
        /\ result_of (UntrimmedAmplifier.into_raw_detector_coordinates u false
                        (Examples.heap 0))
             (fun r _ => r) = Ok u'
        /\ untrimmed_invariant u').
Proof.
  split.
  - eexists; eexists. split; [reflexivity|]. split; [reflexivity|].
    apply (proj1 amplifier_invariant_preserved).
    refine (PT_into_physical_coordinates _ false (Examples.heap 0) _ _
              (PT_init (BoxOnlyImageSection (box 0 0 9 19)) 1
                 (Examples.identity (box 0 0 9 19)) true true true
                 (Examples.identity (box 0 0 9 19)) _ eq_refl) _).
    reflexivity.
  - eexists; eexists. split; [reflexivity|]. split; [reflexivity|].
    apply (proj2 amplifier_invariant_preserved).
    refine (PU_into_raw_detector_coordinates _ false (Examples.heap 0) _ _
              (PU_init (BoxOnlyImageSection (box 0 0 11 21)) 1
                 (Examples.identity (box 0 0 11 21))
                 (box 1 0 10 19) (box 0 0 9 19) (box 11 0 11 19) (box 1 20 10 21)
                 (box 0 0 0 19) (Examples.identity (box 0 0 11 21)) _ eq_refl) _).
    reflexivity.
Defined.

(** ** Views and copies *)

Lemma cell_eqb_refl (c : Cell) : cell_eqb c c = true.
Proof.
  destruct c as [[b r] k]; simpl. now rewrite Nat.eqb_refl, !Z.eqb_refl.
Qed.

Lemma cell_eqb_eq (c d : Cell) : cell_eqb c d = true <-> c = d.
Proof.
  destruct c as [[b r] k], d as [[b' r'] k']; simpl.
  rewrite !andb_true_iff, Nat.eqb_eq, !Z.eqb_eq. split.
  - intros [[-> ->] ->]; reflexivity.
  - intros H; inversion H; auto.
Qed.

(** A write through one section is seen through every section that has
    the written cell, and through no section that lacks it. *)
Lemma write_visible (h : Heap) (s : ImageSection) (x y : Z) (c : Cell) (v : Z) :
  ImgSec.pixel_cell s x y = Some c -> ImgSec.pixel (write h c v) s x y = Some v.
Proof.
  unfold ImgSec.pixel. intros ->. simpl. destruct c as [[b r] k].
  unfold read, write; simpl. now rewrite Nat.eqb_refl, !Z.eqb_refl.
Qed.

Lemma write_invisible (h : Heap) (r s : ImageSection) (x y : Z) (c : Cell) (v : Z) :
  ~ shares_storage r s -> ImgSec.pixel_cell r x y = Some c ->
  forall x' y', ImgSec.pixel (write h c v) s x' y' = ImgSec.pixel h s x' y'.
Proof.
  intros Hn Hc x' y'. unfold ImgSec.pixel.
  destruct (ImgSec.pixel_cell s x' y') as [d|] eqn:Hd; [|reflexivity].
  simpl. f_equal. destruct d as [[b r'] k]. unfold read, write; simpl.
  change (Nat.eqb b (fst (fst c)) && (r' =? snd (fst c)) && (k =? snd c))
    with (cell_eqb (b, r', k) (fst (fst c), snd (fst c), snd c)).
  destruct c as [[cb cr] ck]; simpl.
  destruct (Nat.eqb b cb && (r' =? cr) && (k =? ck)) eqn:E; [|reflexivity].
  exfalso. apply Hn. exists x, y, x', y', (cb, cr, ck). split; [exact Hc|].
  rewrite Hd. f_equal. apply cell_eqb_eq. exact E.
Qed.

Lemma in_range_spec (n : nat) (i : Z) : in_range n i = true <-> 0 <= i < Z.of_nat n.
Proof. unfold in_range. rewrite andb_true_iff, Z.leb_le, Z.ltb_lt. reflexivity. Qed.

(** The reversed view addresses the cells of the array it was taken
    from: element [(i, j)] of the view is the element of the source in
    the mirrored row and/or column. *)
Lemma flip_view_cell (a : Numpy.ndarray) (fy fx : bool) (i j : Z) :
  Numpy.cell (Numpy.flip_view a fy fx) i j
  = Numpy.cell a (if fy then Z.of_nat (Numpy.shape0 a) - 1 - i else i)
                 (if fx then Z.of_nat (Numpy.shape1 a) - 1 - j else j).
Proof.
  unfold Numpy.cell, Numpy.flip_view; simpl.
  destruct fy, fx; simpl;
    (apply f_equal2; [apply f_equal2; [reflexivity|ring]|ring]).
Qed.

Lemma flip_view_in_shape (a : Numpy.ndarray) (fy fx : bool) (i j : Z) :
  Numpy.in_shape a i j = true ->
  Numpy.in_shape (Numpy.flip_view a fy fx)
    (if fy then Z.of_nat (Numpy.shape0 a) - 1 - i else i)
    (if fx then Z.of_nat (Numpy.shape1 a) - 1 - j else j) = true.
Proof.
  unfold Numpy.in_shape, Numpy.flip_view; simpl.
  rewrite !andb_true_iff, !in_range_spec. destruct fy, fx; lia.
Qed.

(** With [allow_view=True] the array implementation returns a view of
    the source whatever the flips. *)
Lemma numpy_apply_transform_view (a : Numpy.ndarray) (p : PointI)
    (t : ImageSectionTransform) (h : Heap) :
  has_pixels (NumPyImageSection a (MinPoint p)) ->
  exists r, ImgSec.apply_transform (NumPyImageSection a (MinPoint p)) t true h = Ok (r, h)
            /\ shares_storage r (NumPyImageSection a (MinPoint p)).
Proof.
  intros (x & y & c & Hc). eexists; split; [reflexivity|].
  simpl in Hc.
  destruct (Numpy.in_shape a (y - getY p) (x - getX p)) eqn:Hin; [|discriminate].
  inversion Hc; subst c; clear Hc.
  set (i := y - getY p) in *. set (j := x - getX p) in *.
  set (i' := if flip_y t then Z.of_nat (Numpy.shape0 a) - 1 - i else i).
  set (j' := if flip_x t then Z.of_nat (Numpy.shape1 a) - 1 - j else j).
  exists (getX (getMin (output_bbox t)) + j'), (getY (getMin (output_bbox t)) + i'),
    x, y, (Numpy.cell a i j).
  split.
  - simpl.
    replace (getY (getMin (output_bbox t)) + i' - getY (getMin (output_bbox t)))
      with i' by ring.
    replace (getX (getMin (output_bbox t)) + j' - getX (getMin (output_bbox t)))
      with j' by ring.
    pose proof (flip_view_in_shape a (flip_y t) (flip_x t) i j Hin) as Hin1.
    fold i' j' in Hin1. rewrite Hin1. f_equal.
    rewrite flip_view_cell. subst i' j'. unfold Numpy.cell.
    destruct (flip_y t), (flip_x t);
      (apply f_equal2; [apply f_equal2; [reflexivity|ring]|ring]).
  - simpl. fold i j. now rewrite Hin.
Qed.

(** A section over a fresh buffer shares nothing with a section whose
    buffer was handed out before. *)
Lemma fresh_buffer_disjoint (h : Heap) (r s : ImageSection) :
  allocated h s -> payload_buffer r = Some (next_buf h) -> ~ shares_storage r s.
Proof.
  intros Hs Hr (x1 & y1 & x2 & y2 & c & H1 & H2).
  assert (Hb1 : fst (fst c) = next_buf h).
  { destruct r as [b|a [p|b]|m]; simpl in *; try discriminate.
    - destruct (Numpy.in_shape _ _ _); [|discriminate].
      inversion H1; subst c; simpl. now inversion Hr.
    - destruct (Afw.in_image _ _ _); [|discriminate].
      inversion H1; subst c; simpl. now inversion Hr. }
  assert (Hb2 : (fst (fst c) < next_buf h)%nat).
  { destruct s as [b|a [p|b]|m]; simpl in *; try discriminate.
    - destruct (Numpy.in_shape _ _ _); [|discriminate].
      inversion H2; subst c; simpl. now apply Hs.
    - destruct (Afw.in_image _ _ _); [|discriminate].
      inversion H2; subst c; simpl. now apply Hs. }
  lia.
Qed.

(** C5 (as stated) fails on the array backend: a transform with
    [flip_x] applied with [allow_view=True] to a 2x2 array section leaves
    the store untouched and returns a section whose pixel [(0,0)] is the
    cell of the source's pixel [(1,0)], so that a write through the result
    is read back through the source. *)
Lemma numpy_flipped_view_shares_storage :
  flip_x Examples.flip_in_place = true
  /\ exists r,
       ImgSec.apply_transform Examples.small_numpy Examples.flip_in_place true
         (Examples.heap 1) = Ok (r, Examples.heap 1)
       /\ shares_storage r Examples.small_numpy
       /\ exists c, ImgSec.pixel_cell r 0 0 = Some c
            /\ ImgSec.pixel (write (Examples.heap 1) c 7) Examples.small_numpy 1 0 = Some 7.
Proof.
  split; [reflexivity|]. eexists; split; [cbv; reflexivity|]. split.
  - exists 0, 0, 1, 0, (0%nat, 0, 1). split; reflexivity.
  - eexists; split; reflexivity.
Qed.

(** C5 (amended).  For every section that holds pixels, over a buffer of
    the store, and every transform:
    - with no flips and [allow_view=True] the result shares storage with
      the source and the store is unchanged;
    - on the array backend the same holds with [allow_view=True]
      whatever the flips: a flip is a reversed view;
    - on the afw backend a flip with [allow_view=True] returns a result
      that shares no storage with the source;
    - with [allow_view=False] the result never shares storage with the
      source, flips or not. *)
Theorem apply_transform_view_or_copy (s : ImageSection) (t : ImageSectionTransform)
    (h : Heap) :
  has_pixels s -> allocated h s ->
  (flip_x t = false -> flip_y t = false ->
   exists r, ImgSec.apply_transform s t true h = Ok (r, h) /\ shares_storage r s)
  /\ (forall a m, s = NumPyImageSection a m ->
      exists r, ImgSec.apply_transform s t true h = Ok (r, h) /\ shares_storage r s)
  /\ (forall m, s = AfwImageSection m -> flip_x t || flip_y t = true ->
      exists r h', ImgSec.apply_transform s t true h = Ok (r, h')
                   /\ ~ shares_storage r s)
  /\ (exists r h', ImgSec.apply_transform s t false h = Ok (r, h')
                   /\ ~ shares_storage r s).
Proof.
  intros Hp Ha. repeat split.
  - intros Hx Hy. destruct s as [b|a [p|b]|m].
    + destruct Hp as (x & y & c & Hc); discriminate.
    + now apply numpy_apply_transform_view.
    + destruct Hp as (x & y & c & Hc); discriminate.
    + simpl. rewrite Hx, Hy. simpl. eexists; split; [reflexivity|].
      destruct Hp as (x & y & c & Hc). simpl in Hc.
      destruct (Afw.in_image m _ _) eqn:Hin; [|discriminate].
      exists (x - Afw.i_x0 m + getX (getMin (output_bbox t))),
        (y - Afw.i_y0 m + getY (getMin (output_bbox t))), x, y, c.
      split; [|simpl; now rewrite Hin].
      simpl. unfold Afw.in_image, Afw.cell in *; simpl.
      replace (x - Afw.i_x0 m + getX (getMin (output_bbox t))
               - getX (getMin (output_bbox t))) with (x - Afw.i_x0 m) by ring.
      replace (y - Afw.i_y0 m + getY (getMin (output_bbox t))
               - getY (getMin (output_bbox t))) with (y - Afw.i_y0 m) by ring.
      now rewrite Hin.
  - intros a m ->. destruct m as [p|b].
    + now apply numpy_apply_transform_view.
    + destruct Hp as (x & y & c & Hc); discriminate.
  - intros m -> Hf. simpl. rewrite Hf. simpl.
    eexists; eexists; split; [reflexivity|].
    apply (fresh_buffer_disjoint h); [exact Ha|reflexivity].
  - destruct s as [b|a m|m].
    + destruct Hp as (x & y & c & Hc); discriminate.
    + simpl. eexists; eexists; split; [reflexivity|].
      apply (fresh_buffer_disjoint h); [exact Ha|reflexivity].
    + simpl. destruct (flip_x t || flip_y t); simpl;
        (eexists; eexists; split; [reflexivity|];
         apply (fresh_buffer_disjoint h); [exact Ha|reflexivity]).
Qed.

Lemma apply_transform_view_or_copy_witness :
  (exists r, ImgSec.apply_transform Examples.small_numpy Examples.flip_in_place true
               (Examples.heap 1) = Ok (r, Examples.heap 1)
             /\ shares_storage r Examples.small_numpy)
  /\ (exists r h', ImgSec.apply_transform Examples.small_afw Examples.flip_in_place true
                     (Examples.heap 1) = Ok (r, h')
                   /\ ~ shares_storage r Examples.small_afw)
  /\ (exists r h', ImgSec.apply_transform Examples.small_numpy Examples.flip_in_place false
                     (Examples.heap 1) = Ok (r, h')
                   /\ ~ shares_storage r Examples.small_numpy).
Proof.
  assert (Hn : has_pixels Examples.small_numpy)
    by (exists 0, 0, (0%nat, 0, 0); reflexivity).
  assert (Hm : has_pixels Examples.small_afw)
    by (exists 0, 0, (0%nat, 0, 0); reflexivity).
  assert (An : allocated (Examples.heap 1) Examples.small_numpy)
    by (intros b Hb; inversion Hb; simpl; lia).
  assert (Am : allocated (Examples.heap 1) Examples.small_afw)
    by (intros b Hb; inversion Hb; simpl; lia).
  split; [|split].
  - exact (proj1 (proj2 (apply_transform_view_or_copy Examples.small_numpy
                           Examples.flip_in_place (Examples.heap 1) Hn An))
             _ _ eq_refl).
  - exact (proj1 (proj2 (proj2 (apply_transform_view_or_copy Examples.small_afw
                                  Examples.flip_in_place (Examples.heap 1) Hm Am)))
             _ eq_refl eq_refl).
  - exact (proj2 (proj2 (proj2 (apply_transform_view_or_copy Examples.small_numpy
                                  Examples.flip_in_place (Examples.heap 1) Hn An)))).
Defined.

(** ** The canvas of assemble_into_untrimmed *)

Lemma extends_refl (h : Heap) : extends h h.
Proof. split; [lia|reflexivity]. Qed.

Lemma extends_trans (h1 h2 h3 : Heap) : extends h1 h2 -> extends h2 h3 -> extends h1 h3.
Proof.
  intros [L1 P1] [L2 P2]. split; [lia|].
  intros b r k Hb. rewrite P2 by lia. now apply P1.
Qed.

(** Allocation writes the fresh buffer only. *)
Lemma fresh_extends (h : Heap) (f : nat -> Z -> Z -> Z) :
  (forall b r k, (b < next_buf h)%nat -> f b r k = pix h b r k) ->
  extends h {| next_buf := S (next_buf h); pix := f |}.
Proof. intros Hf. split; simpl; [lia|exact Hf]. Qed.

Ltac fresh_buffer :=
  apply fresh_extends; intros b r k Hb;
  replace (Nat.eqb b _) with false by (symmetry; apply Nat.eqb_neq; lia);
  reflexivity.

Lemma numpy_copy_extends a h a' h' : Numpy.copy a h = Ok (a', h') -> extends h h'.
Proof. unfold Numpy.copy. intros H; inversion H; subst. fresh_buffer. Qed.

Lemma afw_clone_extends m d h m' h' : Afw.clone m d h = Ok (m', h') -> extends h h'.
Proof.
  unfold Afw.clone. destruct d; intros H; inversion H; subst;
    [fresh_buffer|apply extends_refl].
Qed.

Lemma afw_flipImage_extends m fx fy h m' h' :
  Afw.flipImage m fx fy h = Ok (m', h') -> extends h h'.
Proof. unfold Afw.flipImage. intros H; inversion H; subst. fresh_buffer. Qed.

Lemma lift_heap {A} (r : Res A) (h : Heap) (a : A) (h' : Heap) :
  lift r h = Ok (a, h') -> r = Ok a /\ h' = h.
Proof. unfold lift. destruct r; intros H; inversion H; auto. Qed.

Lemma apply_transform_extends s t v h s' h' :
  ImgSec.apply_transform s t v h = Ok (s', h') -> extends h h'.
Proof.
  destruct s as [b|a m|m]; simpl.
  - intros H. apply lift_heap in H as [_ ->]. apply extends_refl.
  - unfold bind. destruct (negb v).
    + destruct (Numpy.copy _ h) as [[a' h1]|] eqn:E; [|discriminate].
      intros H; inversion H; subst. eapply numpy_copy_extends; eassumption.
    + intros H; inversion H; subst. apply extends_refl.
  - unfold bind. destruct (negb (flip_x t || flip_y t)).
    + destruct (Afw.clone _ _ h) as [[m' h1]|] eqn:E; [|discriminate].
      intros H; inversion H; subst. eapply afw_clone_extends; eassumption.
    + destruct (Afw.flipImage _ _ _ h) as [[m' h1]|] eqn:E; [|discriminate].
      intros H; inversion H; subst. eapply afw_flipImage_extends; eassumption.
Qed.

(** What [into_raw_detector_coordinates] returns: the store only grew,
    and the new amplifier's data box is the old one mapped through the
    raw-detector transform. *)
Lemma into_raw_detector_coordinates_spec a v h a' h' :
  UntrimmedAmplifier.into_raw_detector_coordinates a v h = Ok (a', h') ->
  extends h h' /\ raw_data_bbox a = Ok (UntrimmedAmplifier._data_bbox a').
Proof.
  unfold UntrimmedAmplifier.into_raw_detector_coordinates, bind. intros H.
  destruct (ImgSec.apply_transform _ _ _ h) as [[nf h1]|] eqn:E; [|discriminate].
  apply lift_heap in H as [H ->].
  split; [eapply apply_transform_extends; eassumption|].
  unfold raw_data_bbox.
  destruct (Transform.after _ _); cbn [rbind] in H; [|discriminate].
  destruct (UntrimmedAmplifier.mapped _ (UntrimmedAmplifier._data_bbox a)) as [db|];
    cbn [rbind] in H; [|discriminate].
  returned.
  match goal with
  | E : UntrimmedAmplifier.init _ _ _ _ _ _ _ _ _ = Ok _ |- _ =>
      unfold UntrimmedAmplifier.init in E; returned
  end.
  reflexivity.
Qed.

(** Monadic loops whose every step relates the store before to the
    store after by a preorder relate the first store to the last. *)
Lemma mapM_preorder {A B} (R : Heap -> Heap -> Prop) (f : A -> M B) (l : list A) :
  (forall h, R h h) -> (forall h1 h2 h3, R h1 h2 -> R h2 h3 -> R h1 h3) ->
  (forall a h b h', In a l -> f a h = Ok (b, h') -> R h h') ->
  forall h bs h', mapM f l h = Ok (bs, h') -> R h h'.
Proof.
  intros Hrefl Htrans. induction l as [|a l IH]; intros Hf h bs h' H.
  - inversion H; subst. apply Hrefl.
  - cbn [mapM] in H. unfold bind at 1 in H.
    destruct (f a h) as [[b h1]|] eqn:E1; [|discriminate].
    unfold bind at 1 in H.
    destruct (mapM f l h1) as [[bs' h2]|] eqn:E2; [|discriminate].
    inversion H; subst.
    eapply Htrans.
    + eapply Hf; [left; reflexivity|eassumption].
    + eapply IH; [|eassumption]. intros; eapply Hf; [right|]; eassumption.
Qed.

Lemma assembled_untrimmed_init_spec d l o h r h' :
  AssembledUntrimmedAmplifierSet.init d l o h = Ok (r, h') ->
  AssembledUntrimmedAmplifierSet.detector r = d /\ extends h h'.
Proof.
  unfold AssembledUntrimmedAmplifierSet.init. unfold bind at 1. intros H.
  destruct (mapM _ l h) as [[views h1]|] eqn:E; [|discriminate].
  inversion H; subst. split; [reflexivity|].
  revert E. apply mapM_preorder; [apply extends_refl|apply extends_trans|].
  intros a hc b hc' _ Hstep. unfold bind at 1 in Hstep.
  destruct (UntrimmedAmplifier.into_raw_detector_coordinates a true hc)
    as [[a1 h2]|] eqn:E1; [|discriminate].
  apply lift_heap in Hstep as [_ ->].
  now apply into_raw_detector_coordinates_spec in E1.
Qed.

(** The box of an afw sub-image is the box that was asked for. *)
Lemma corner_dims_of_box (b : Box2I) :
  Box2I_corner_dims (getMin b) (getDimensions b) = b.
Proof. destruct b as [|x y w h]; reflexivity. Qed.

Lemma afw_sub_view_bbox m off dims xy0 m' :
  0 <= extX dims -> 0 <= extY dims ->
  Afw.sub_view m off dims xy0 = Ok m' ->
  Afw.getBBox m' = Box2I_corner_dims xy0 dims.
Proof.
  intros Hx Hy. unfold Afw.sub_view.
  destruct (_ || _); [discriminate|]. intros H; inversion H; subst.
  unfold Afw.getBBox, Afw.getXY0, Afw.getDimensions; simpl.
  rewrite !Z2Nat.id by assumption. now destruct xy0, dims.
Qed.

Lemma dims_nonneg (b : Box2I) : 0 <= extX (getDimensions b) /\ 0 <= extY (getDimensions b).
Proof. destruct b; simpl; lia. Qed.

Lemma afw_subimage_bbox m bx s :
  ImgSec.subimage (AfwImageSection m) bx = Ok s ->
  ImgSec.bbox s = Ok bx /\ exists m', s = AfwImageSection m'.
Proof.
  simpl. unfold Afw.subimage.
  destruct (Afw.sub_view _ _ _ _) as [m'|] eqn:E; [|discriminate].
  intros H; inversion H; subst. split; [|eauto]. simpl. f_equal.
  destruct (dims_nonneg bx).
  erewrite afw_sub_view_bbox by eassumption. apply corner_dims_of_box.
Qed.

(** Whatever [subimage] returns over an array carries a box where a
    point is expected, and so has no usable coordinates. *)
Lemma numpy_subimage_min_box s bx a m :
  ImgSec.subimage s bx = Ok (NumPyImageSection a m) -> exists b, m = MinBox b.
Proof.
  destruct s as [b|a' [p|b]|m']; simpl.
  - destruct (contains b bx); simpl; discriminate.
  - intros H; inversion H; eauto.
  - discriminate.
  - destruct (Afw.subimage m' bx); simpl; discriminate.
Qed.

Lemma contains_point_rect (x0 y0 : Z) (w h : positive) (x y : Z) :
  contains_point (Rect x0 y0 w h) x y = true
  <-> x0 <= x < x0 + Z.pos w /\ y0 <= y < y0 + Z.pos h.
Proof.
  unfold contains_point, getMinX, getMaxX, getMinY, getMaxY, getMax, getMin,
    getWidth, getHeight; simpl.
  rewrite !andb_true_iff, !Z.leb_le. lia.
Qed.

(** [image.assign(rhs, bbox=bbox)] writes the buffer of [image] only, and
    there only pixels whose parent coordinates lie in [bbox]. *)
Lemma afw_assign_frame (m rhs : Afw.Image) (bx : Box2I) (h : Heap) (u : unit) (h' : Heap) :
  Afw.getBBox rhs = bx ->
  Afw.assign m rhs bx h = Ok (u, h') ->
  next_buf h' = next_buf h
  /\ forall x y,
       contains_point bx x y = false ->
       pix h' (Afw.i_buf m) (Afw.i_r0 m + (y - Afw.i_y0 m)) (Afw.i_c0 m + (x - Afw.i_x0 m))
       = pix h (Afw.i_buf m) (Afw.i_r0 m + (y - Afw.i_y0 m)) (Afw.i_c0 m + (x - Afw.i_x0 m)).
Proof.
  intros Hb. unfold Afw.assign.
  destruct (negb (Afw.pixel_type_eqb _ _)); [discriminate|].
  destruct (negb _) eqn:Hd; [discriminate|]. apply negb_false_iff in Hd.
  destruct bx as [|x0 y0 w hh]; cbn [isEmpty].
  - (* nothing to copy: both images have a zero dimension *)
    intros H; inversion H; subst; clear H. split; [reflexivity|].
    intros x y _. simpl.
    rewrite Nat.eqb_refl. cbn [andb].
    replace (Afw.in_image m _ _) with false; [reflexivity|].
    symmetry. unfold Afw.in_image.
    unfold ext_eqb, Afw.getDimensions in Hd; simpl in Hd.
    apply andb_true_iff in Hd as [Hw Hh]. apply Z.eqb_eq in Hw, Hh.
    unfold Afw.getBBox, Box2I_corner_dims, Afw.getDimensions in Hb; simpl in Hb.
    destruct (Z.of_nat (Afw.i_w rhs) =? 0) eqn:E1.
    + apply Z.eqb_eq in E1.
      replace (in_range (Afw.i_w m) _) with false; [reflexivity|].
      symmetry. apply not_true_iff_false. rewrite in_range_spec. lia.
    + destruct (Z.of_nat (Afw.i_h rhs) =? 0) eqn:E2.
      * apply Z.eqb_eq in E2.
        replace (in_range (Afw.i_h m) _) with false; [apply andb_false_r|].
        symmetry. apply not_true_iff_false. rewrite in_range_spec. lia.
      * simpl in Hb. destruct (axis_corner_dim _ _), (axis_corner_dim _ _). discriminate.
  - destruct (Afw.sub_view _ _ _ _) as [target|] eqn:E; [|discriminate].
    intros H; inversion H; subst; clear H. split; [reflexivity|].
    intros x y Hout. simpl.
    unfold Afw.sub_view in E. destruct (_ || _); [discriminate|].
    inversion E; subst target; clear E. simpl.
    rewrite Nat.eqb_refl. cbn [andb].
    replace (Afw.in_image _ _ _) with false; [reflexivity|].
    symmetry. apply not_true_iff_false. intros Hin. 
    apply not_true_iff_false in Hout. apply Hout.
    apply contains_point_rect.
    unfold Afw.in_image in Hin; simpl in Hin.
    apply andb_true_iff in Hin as [Hi Hj]. apply in_range_spec in Hi, Hj.
    rewrite positive_nat_Z in Hi, Hj. lia.
Qed.

(** One round of the assembly loop over an afw canvas leaves alone every
    canvas pixel outside the amplifier's raw-detector data box. *)
Lemma assembly_step_frame (canvas : Afw.Image) (amp : UntrimmedAmplifier.t)
    (h : Heap) (new : UntrimmedAmplifier.t) (h' : Heap) (x y : Z) :
  (new_amp <~ UntrimmedAmplifier.into_raw_detector_coordinates amp true ;;
   d <~ lift (UntrimmedAmplifier.data new_amp) ;;
   ImgSec.assign (AfwImageSection canvas) d ;;~
   ret new_amp)%m h = Ok (new, h') ->
  (forall b, raw_data_bbox amp = Ok b -> contains_point b x y = false) ->
  (Afw.i_buf canvas < next_buf h)%nat ->
  (Afw.i_buf canvas < next_buf h')%nat
  /\ pix h' (Afw.i_buf canvas) (Afw.i_r0 canvas + (y - Afw.i_y0 canvas))
         (Afw.i_c0 canvas + (x - Afw.i_x0 canvas))
     = pix h (Afw.i_buf canvas) (Afw.i_r0 canvas + (y - Afw.i_y0 canvas))
           (Afw.i_c0 canvas + (x - Afw.i_x0 canvas)).
Proof.
  intros H Hout Hc. unfold bind at 1 in H.
  destruct (UntrimmedAmplifier.into_raw_detector_coordinates amp true h)
    as [[a1 h1]|] eqn:E1; [|discriminate].
  apply into_raw_detector_coordinates_spec in E1 as [[Hle Hpix] Hdb].
  unfold bind at 1 in H.
  destruct (lift (UntrimmedAmplifier.data a1) h1) as [[d h1']|] eqn:E2; [|discriminate].
  apply lift_heap in E2 as [Hd ->].
  unfold bind at 1 in H.
  destruct (ImgSec.assign (AfwImageSection canvas) d h1) as [[u h2]|] eqn:E3;
    [|discriminate].
  inversion H; subst new h'; clear H.
  unfold UntrimmedAmplifier.data in Hd.
  destruct (UntrimmedAmplifier._full a1) as [b|a m|m] eqn:Ef.
  - (* a box-only amplifier cannot be assigned to an image *)
    simpl in Hd. destruct (contains b _); simpl in Hd; [|discriminate].
    inversion Hd; subst d. discriminate E3.
  - destruct m as [p|b]; simpl in Hd; [|discriminate].
    inversion Hd; subst d. discriminate E3.
  - apply afw_subimage_bbox in Hd as [Hb [m' ->]].
    simpl in E3. unfold bind, lift in E3. simpl in Hb.
    inversion Hb as [Hb'].
    apply (afw_assign_frame canvas m' _ h1 u h2 eq_refl) in E3 as [Hn Hframe].
    split; [lia|].
    rewrite Hframe by (rewrite Hb'; now apply Hout).
    apply Hpix. exact Hc.
Qed.

(** C9.  When [assemble_into_untrimmed] returns, every pixel of the
    canvas that lies outside the raw-detector data box of every member
    (the overscan and prescan areas in particular) holds the zero that
    [make_empty] put there. *)
Theorem untrimmed_canvas_outside_data_is_zero
    (s : UnassembledUntrimmedAmplifierSet.t) (allow_view : bool) (h : Heap)
    (r : AssembledUntrimmedAmplifierSet.t) (h' : Heap) (x y : Z) (c : Cell) :
  UnassembledUntrimmedAmplifierSet.assemble_into_untrimmed s allow_view h = Ok (r, h') ->
  outside_data (UnassembledUntrimmedAmplifierSet.values s) x y ->
  ImgSec.pixel_cell (AssembledUntrimmedAmplifierSet.detector r) x y = Some c ->
  read h' c = 0.
Proof.
  unfold UnassembledUntrimmedAmplifierSet.assemble_into_untrimmed.
  destruct (negb _ || _); [discriminate|].
  set (l := UnassembledUntrimmedAmplifierSet.values s).
  set (bx := fold_left _ l Box2I_default).
  intros H Hout Hv.
  unfold bind at 1 in H.
  destruct (lift (loop_variable l) h) as [[amp h0]|] eqn:E0; [|discriminate].
  apply lift_heap in E0 as [_ ->].
  unfold bind at 1 in H.
  destruct (lift (UntrimmedAmplifier.data amp) h) as [[data h0]|] eqn:E1; [|discriminate].
  apply lift_heap in E1 as [Hdata ->].
  unfold bind at 1 in H.
  destruct (ImgSec.make_empty data bx h) as [[detector h1]|] eqn:E2; [|discriminate].
  unfold bind at 1 in H.
  destruct (mapM _ l h1) as [[news h2]|] eqn:E3; [|discriminate].
  apply assembled_untrimmed_init_spec in H as [Hdet [Hle Hpix]].
  rewrite Hdet in Hv. clear Hdet.
  destruct data as [b|a m|m0].
  - (* a box-only canvas has no pixels *)
    simpl in E2. inversion E2; subst detector. discriminate Hv.
  - (* a canvas made from an array sub-image has no usable coordinates *)
    unfold UntrimmedAmplifier.data in Hdata.
    apply numpy_subimage_min_box in Hdata as [b ->].
    simpl in E2. inversion E2; subst detector. discriminate Hv.
  - simpl in E2. unfold bind, Afw.make in E2. inversion E2; clear E2.
    set (canvas := {| Afw.i_buf := next_buf h; Afw.i_r0 := 0; Afw.i_c0 := 0;
                      Afw.i_x0 := getMinX bx; Afw.i_y0 := getMinY bx;
                      Afw.i_w := Z.to_nat (getWidth bx);
                      Afw.i_h := Z.to_nat (getHeight bx) |}) in *.
    subst detector.
    assert (Hloop :
      (Afw.i_buf canvas < next_buf h1)%nat ->
      (Afw.i_buf canvas < next_buf h2)%nat
      /\ pix h2 (Afw.i_buf canvas) (Afw.i_r0 canvas + (y - Afw.i_y0 canvas))
             (Afw.i_c0 canvas + (x - Afw.i_x0 canvas))
         = pix h1 (Afw.i_buf canvas) (Afw.i_r0 canvas + (y - Afw.i_y0 canvas))
               (Afw.i_c0 canvas + (x - Afw.i_x0 canvas))).
    { revert E3.
      apply (mapM_preorder
               (fun ha hb =>
                  (Afw.i_buf canvas < next_buf ha)%nat ->
                  (Afw.i_buf canvas < next_buf hb)%nat
                  /\ pix hb (Afw.i_buf canvas) (Afw.i_r0 canvas + (y - Afw.i_y0 canvas))
                         (Afw.i_c0 canvas + (x - Afw.i_x0 canvas))
                     = pix ha (Afw.i_buf canvas) (Afw.i_r0 canvas + (y - Afw.i_y0 canvas))
                           (Afw.i_c0 canvas + (x - Afw.i_x0 canvas)))).
      - intros ha Ha; split; [exact Ha|reflexivity].
      - intros ha hb hc Hab Hbc Ha.
        destruct (Hab Ha) as [Hb Eab]. destruct (Hbc Hb) as [Hc Ebc].
        split; [exact Hc|]. now rewrite Ebc.
      - intros a ha b hb Hin Hstep Ha.
        eapply assembly_step_frame; [exact Hstep| |exact Ha].
        intros bb Hbb. eapply Hout; eassumption. }
    destruct Hloop as [Hlt Heq]; [subst h1; simpl; lia|].
    simpl in Hv.
    destruct (Afw.in_image canvas _ _) eqn:Hin; [|discriminate].
    inversion Hv; subst c; clear Hv.
    unfold read, Afw.cell. rewrite Hpix by exact Hlt.
    change (pix h2 (Afw.i_buf canvas) (Afw.i_r0 canvas + (y - Afw.i_y0 canvas))
                (Afw.i_c0 canvas + (x - Afw.i_x0 canvas)) = 0).
    rewrite Heq. subst h1. cbn [pix].
    unfold Afw.in_image in Hin.
    apply andb_true_iff in Hin as [Hi Hj].
    subst canvas. cbn [Afw.i_buf Afw.i_r0 Afw.i_c0 Afw.i_x0 Afw.i_y0 Afw.i_w Afw.i_h] in *.
    rewrite Nat.eqb_refl, !Z.add_0_l, Hi, Hj. reflexivity.
Qed.

Lemma untrimmed_canvas_outside_data_is_zero_witness :
  UntrimmedAmplifier.init (UntrimmedAmplifier._full Examples.framed_1) 1
    (Examples.identity (box 0 0 14 21)) (box 2 0 11 19) (box 0 0 9 19)
    (box 12 0 14 19) (box 2 20 11 21) (box 0 0 1 19)
    (Examples.identity (box 0 0 14 21)) = Ok Examples.framed_1
  /\ exists r h',
       UnassembledUntrimmedAmplifierSet.assemble_into_untrimmed Examples.framed_pair false
         (Examples.heap 2) = Ok (r, h')
       /\ outside_data (UnassembledUntrimmedAmplifierSet.values Examples.framed_pair) 17 0
       /\ ImgSec.pixel_cell (AssembledUntrimmedAmplifierSet.detector r) 17 0
          = Some (2%nat, 0, 17)
       /\ read h' (2%nat, 0, 17) = 0.
Proof.
  split; [reflexivity|].
  destruct (UnassembledUntrimmedAmplifierSet.assemble_into_untrimmed Examples.framed_pair
              false (Examples.heap 2)) as [[r h']|e] eqn:E;
    [|vm_compute in E; discriminate E].
  assert (Hc : result_of
                 (UnassembledUntrimmedAmplifierSet.assemble_into_untrimmed
                    Examples.framed_pair false (Examples.heap 2))
                 (fun r _ => ImgSec.pixel_cell (AssembledUntrimmedAmplifierSet.detector r) 17 0)
               = Ok (Some (2%nat, 0, 17))) by (vm_compute; reflexivity).
  rewrite E in Hc. cbn [result_of] in Hc. injection Hc as Hc'.
  assert (Ho : outside_data
                 (UnassembledUntrimmedAmplifierSet.values Examples.framed_pair) 17 0).
  { intros amp b [<-|[<-|[]]] Hb; vm_compute in Hb; inversion Hb; reflexivity. }
  exists r, h'. split; [reflexivity|]. split; [exact Ho|]. split; [exact Hc'|].
  exact (untrimmed_canvas_outside_data_is_zero Examples.framed_pair false
           (Examples.heap 2) r h' 17 0 _ E Ho Hc').
Defined.

(** ** Supporting facts: where the specification and the code agree *)

(** When [UntrimmedAmplifier.into_readout_coordinates] does return, the
    readout transform of the result is the identity. *)
Lemma untrimmed_into_readout_coordinates_identity a v h a' h' :
  UntrimmedAmplifier.into_readout_coordinates a v h = Ok (a', h') ->
  Transform.is_identity (UntrimmedAmplifier.readout_transform a') = true.
Proof.
  unfold UntrimmedAmplifier.into_readout_coordinates. intros H. returned.
  match goal with
  | E : UntrimmedAmplifier.init _ _ _ _ _ _ _ _ _ = Ok _ |- _ =>
      unfold UntrimmedAmplifier.init in E; returned
  end.
  match goal with
  | E : Transform.make_identity _ = Ok _ |- _ =>
      unfold Transform.make_identity in E; apply new_ok in E as [-> _]
  end.
  unfold Transform.is_identity; simpl. apply box_eqb_refl.
Qed.

Lemma fold_left_include_map {A} (f : A -> Box2I) (l : list A) (d : Box2I) :
  fold_left (fun b a => include b (f a)) l d = fold_left include (map f l) d.
Proof. revert d. induction l as [|a l IH]; simpl; intros d; [reflexivity|apply IH]. Qed.

(** The box-only and afw implementations of [make_empty] return a
    section with the box they were given. *)
Lemma make_empty_bbox (s : ImageSection) (bx : Box2I) (h : Heap) (d : ImageSection)
    (h' : Heap) :
  (forall a m, s <> NumPyImageSection a m) ->
  ImgSec.make_empty s bx h = Ok (d, h') -> ImgSec.bbox d = Ok bx.
Proof.
  intros Hs. destruct s as [b|a m|m]; simpl.
  - intros H; inversion H; reflexivity.
  - exfalso. now apply (Hs a m).
  - unfold bind, Afw.make. intros H; inversion H; subst; clear H. simpl. f_equal.
    unfold Afw.getBBox, Afw.getXY0, Afw.getDimensions; simpl.
    destruct bx as [|x y w hh]; [reflexivity|].
    unfold getWidth, getHeight, getMinX, getMinY; simpl.
    rewrite !positive_nat_Z. reflexivity.
Qed.

Lemma assembled_trimmed_init_detector d l o h r h' :
  AssembledTrimmedAmplifierSet.init d l o h = Ok (r, h') ->
  AssembledTrimmedAmplifierSet.detector r = d.
Proof.
  unfold AssembledTrimmedAmplifierSet.init. unfold bind at 1.
  destruct (mapM _ l h) as [[views h1]|]; [|discriminate].
  intros H; inversion H; reflexivity.
Qed.

(** Away from the array backend, the canvas of a successful assembly
    has the union of the members' target boxes as its box. *)
Lemma canvas_bbox_is_union_without_arrays :
  (forall (s : UnassembledTrimmedAmplifierSet.t) allow_view h r h',
     (forall amp a m,
        loop_variable (UnassembledTrimmedAmplifierSet.values s) = Ok amp ->
        TrimmedAmplifier.data amp <> NumPyImageSection a m) ->
     UnassembledTrimmedAmplifierSet.assemble_into_trimmed s allow_view h = Ok (r, h') ->
     ImgSec.bbox (AssembledTrimmedAmplifierSet.detector r)
     = Ok (bbox_union
             (map (fun amp => output_bbox (TrimmedAmplifier.physical_transform amp))
                  (UnassembledTrimmedAmplifierSet.values s))))
  /\ (forall (s : UnassembledUntrimmedAmplifierSet.t) allow_view h r h',
        (forall amp a m,
           loop_variable (UnassembledUntrimmedAmplifierSet.values s) = Ok amp ->
           UntrimmedAmplifier.full amp <> NumPyImageSection a m) ->
        UnassembledUntrimmedAmplifierSet.assemble_into_untrimmed s allow_view h
        = Ok (r, h') ->
        ImgSec.bbox (AssembledUntrimmedAmplifierSet.detector r)
        = Ok (bbox_union
                (map (fun amp =>
                        output_bbox (UntrimmedAmplifier.raw_detector_transform amp))
                     (UnassembledUntrimmedAmplifierSet.values s)))).
Proof.
  split.
  - intros s allow_view h r h' Hs.
    unfold UnassembledTrimmedAmplifierSet.assemble_into_trimmed.
    destruct (negb _ || _); [discriminate|].
    rewrite fold_left_include_map. fold (bbox_union
      (map (fun amp => output_bbox (TrimmedAmplifier.physical_transform amp))
           (UnassembledTrimmedAmplifierSet.values s))).
    intros H. unfold bind at 1 in H.
    destruct (lift (loop_variable _) h) as [[amp h0]|] eqn:E0; [|discriminate].
    apply lift_heap in E0 as [Hl ->].
    unfold bind at 1 in H.
    destruct (ImgSec.make_empty _ _ h) as [[detector h1]|] eqn:E1; [|discriminate].
    unfold bind at 1 in H.
    destruct (mapM _ _ h1) as [[news h2]|]; [|discriminate].
    apply assembled_trimmed_init_detector in H. rewrite H.
    eapply make_empty_bbox; [|exact E1]. intros a m. now apply Hs.
  - intros s allow_view h r h' Hs.
    unfold UnassembledUntrimmedAmplifierSet.assemble_into_untrimmed.
    destruct (negb _ || _); [discriminate|].
    rewrite fold_left_include_map. fold (bbox_union
      (map (fun amp => output_bbox (UntrimmedAmplifier.raw_detector_transform amp))
           (UnassembledUntrimmedAmplifierSet.values s))).
    intros H. unfold bind at 1 in H.
    destruct (lift (loop_variable _) h) as [[amp h0]|] eqn:E0; [|discriminate].
    apply lift_heap in E0 as [Hl ->].
    unfold bind at 1 in H.
    destruct (lift (UntrimmedAmplifier.data amp) h) as [[data h0]|] eqn:E1; [|discriminate].
    apply lift_heap in E1 as [Hd ->].
    unfold bind at 1 in H.
    destruct (ImgSec.make_empty _ _ h) as [[detector h1]|] eqn:E2; [|discriminate].
    unfold bind at 1 in H.
    destruct (mapM _ _ h1) as [[news h2]|]; [|discriminate].
    apply assembled_untrimmed_init_spec in H as [H _]. rewrite H.
    eapply make_empty_bbox; [|exact E2]. intros a m ->.
    unfold UntrimmedAmplifier.data in Hd.
    specialize (Hs amp). unfold UntrimmedAmplifier.full in Hs.
    destruct (UntrimmedAmplifier._full amp) as [b|a' m'|m'] eqn:Ef; simpl in Hd.
    + destruct (contains b _); simpl in Hd; discriminate.
    + now apply (Hs a' m').
    + destruct (Afw.subimage _ _); simpl in Hd; discriminate.
Qed.

(* ================================================================== *)
(** * Further properties of the code *)
(* ================================================================== *)

(** ** Composition and restriction of transforms *)

Lemma constructed_new i o fx fy t :
  Transform.new i (Some o) fx fy = Ok t -> constructed t.
Proof.
  intros H. apply new_ok in H as [-> Hs]. now apply constructed_sizes.
Qed.

Lemma new_of_sizes i o fx fy :
  getSize i = getSize o ->
  Transform.new i (Some o) fx fy
  = Ok {| input_bbox := i; output_bbox := o; flip_x := fx; flip_y := fy |}.
Proof. intros H. unfold Transform.new. now rewrite H, ext_eqb_refl. Qed.

(** [after] is associative, and composing two composable pairs is
    always possible when the middle transform was constructed. *)
Theorem after_associative (a b c ab bc : ImageSectionTransform) :
  constructed b ->
  Transform.after a b = Ok ab ->
  Transform.after b c = Ok bc ->
  exists abc, Transform.after ab c = Ok abc /\ Transform.after a bc = Ok abc.
Proof.
  intros Hb Hab Hbc. apply constructed_sizes in Hb.
  unfold Transform.after in *.
  apply new_ok in Hab as [-> Sab]. apply new_ok in Hbc as [-> Sbc].
  cbn [input_bbox output_bbox flip_x flip_y].
  assert (S : getSize (input_bbox c) = getSize (output_bbox a)) by congruence.
  rewrite Bool.xorb_assoc, (Bool.xorb_assoc (flip_y a)).
  rewrite (new_of_sizes _ _ _ _ S). eauto.
Qed.

Lemma after_associative_witness :
  exists abc,
    Transform.after (Examples.transform (box 0 0 9 19) (box 10 0 19 19) true false)
                    (Examples.identity (box 0 0 9 19)) = Ok abc
    /\ Transform.after Examples.shift_flip (Examples.identity (box 0 0 9 19)) = Ok abc.
Proof.
  refine (after_associative Examples.shift_flip (Examples.identity (box 0 0 9 19))
            (Examples.identity (box 0 0 9 19)) _ _ _ eq_refl eq_refl).
  reflexivity.
Defined.

(** The identity transforms of a constructed transform's two boxes are
    its left and right units under [after]. *)
Theorem after_identity (t : ImageSectionTransform) :
  constructed t ->
  exists i j,
    Transform.make_identity (output_bbox t) = Ok i
    /\ Transform.make_identity (input_bbox t) = Ok j
    /\ Transform.is_identity i = true /\ Transform.is_identity j = true
    /\ Transform.after i t = Ok t
    /\ Transform.after t j = Ok t.
Proof.
  intros Hc. pose proof Hc as Hs. apply constructed_sizes in Hs.
  unfold Transform.make_identity, Transform.after.
  rewrite !(new_of_sizes _ _ _ _ eq_refl). do 2 eexists.
  split; [reflexivity|]. split; [reflexivity|].
  unfold Transform.is_identity; simpl. rewrite !box_eqb_refl.
  split; [reflexivity|]. split; [reflexivity|].
  destruct t as [i o fx fy]; cbn [input_bbox output_bbox flip_x flip_y] in *.
  rewrite Hs, ext_eqb_refl. destruct fx, fy; split; reflexivity.
Qed.

Lemma after_identity_witness :
  exists i j,
    Transform.make_identity (box 10 0 19 19) = Ok i
    /\ Transform.make_identity (box 0 0 9 19) = Ok j
    /\ Transform.is_identity i = true /\ Transform.is_identity j = true
    /\ Transform.after i Examples.shift_flip = Ok Examples.shift_flip
    /\ Transform.after Examples.shift_flip j = Ok Examples.shift_flip.
Proof. apply (after_identity Examples.shift_flip). reflexivity. Defined.

(** The transform [for_subimage] returns for a non-empty box, written
    out: the output box has the dimensions of the box and sits at the
    box's offsets from the edges of [input_bbox], mirrored on flipped
    axes, inside [output_bbox]. *)
Lemma for_subimage_rect (t : ImageSectionTransform) (x y : Z) (w h : positive) :
  constructed t ->
  Transform.for_subimage t (Rect x y w h)
  = Ok {| input_bbox := Rect x y w h;
          output_bbox :=
            Rect (getMinX (output_bbox t)
                  + edge_offset (flip_x t) (getMinX (input_bbox t))
                      (getMaxX (input_bbox t)) x (x + Z.pos w - 1))
                 (getMinY (output_bbox t)
                  + edge_offset (flip_y t) (getMinY (input_bbox t))
                      (getMaxY (input_bbox t)) y (y + Z.pos h - 1))
                 w h;
          flip_x := flip_x t; flip_y := flip_y t |}.
Proof.
  intros Hc. apply constructed_sizes in Hc.
  destruct t as [i o fx fy]; cbn [input_bbox output_bbox flip_x flip_y] in *.
  unfold Transform.for_subimage. cbn [input_bbox output_bbox flip_x flip_y].
  assert (Hw : getWidth i = getWidth o)
    by (unfold getWidth; unfold getSize in Hc; now rewrite Hc).
  assert (Hh : getHeight i = getHeight o)
    by (unfold getHeight; unfold getSize in Hc; now rewrite Hc).
  destruct fx, fy; unfold edge_offset;
    (erewrite Box2I_min_max_eq;
     [ apply new_of_sizes; reflexivity
     | unfold point_sub, point_add_ext, point_sub_ext, getMaxX, getMaxY, getMinX,
         getMinY, getMax in *; cbn [getX getY extX extY getMin] in *;
       change (getWidth (Rect x y w h)) with (Z.pos w) in *;
       change (getHeight (Rect x y w h)) with (Z.pos h) in *;
       try reflexivity; try lia .. ]).
Qed.

(** Restricting twice is restricting once: for non-empty boxes [s] and
    [u], [t.for_subimage(s).for_subimage(u)] is [t.for_subimage(u)]. *)
Theorem for_subimage_twice (t : ImageSectionTransform) (s u : Box2I) :
  constructed t -> isEmpty s = false -> isEmpty u = false ->
  exists ts, Transform.for_subimage t s = Ok ts
             /\ Transform.for_subimage ts u = Transform.for_subimage t u.
Proof.
  intros Hc Hs Hu.
  destruct s as [|sx sy sw sh]; [discriminate|].
  destruct u as [|ux uy uw uh]; [discriminate|].
  rewrite (for_subimage_rect t sx sy sw sh Hc). eexists; split; [reflexivity|].
  rewrite for_subimage_rect by (apply constructed_sizes; reflexivity).
  rewrite (for_subimage_rect t ux uy uw uh Hc).
  cbn [input_bbox output_bbox flip_x flip_y].
  do 2 f_equal. f_equal.
  - unfold edge_offset, getMinX, getMaxX, getMax, getWidth; simpl.
    destruct (flip_x t); lia.
  - unfold edge_offset, getMinY, getMaxY, getMax, getHeight; simpl.
    destruct (flip_y t); lia.
Qed.

Lemma for_subimage_twice_witness :
  exists ts, Transform.for_subimage Examples.shift_flip (box 2 0 8 19) = Ok ts
             /\ Transform.for_subimage ts (box 3 1 4 5)
                = Transform.for_subimage Examples.shift_flip (box 3 1 4 5).
Proof.
  apply (for_subimage_twice Examples.shift_flip (box 2 0 8 19) (box 3 1 4 5));
    reflexivity.
Defined.

(** A non-empty box contained in [input_bbox] is sent inside
    [output_bbox], with its own dimensions. *)
Theorem for_subimage_inside (t : ImageSectionTransform) (s : Box2I) :
  constructed t -> isEmpty s = false -> contains (input_bbox t) s = true ->
  exists ts, Transform.for_subimage t s = Ok ts
             /\ contains (output_bbox t) (output_bbox ts) = true
             /\ getSize (output_bbox ts) = getSize s.
Proof.
  intros Hc Hs Hin. destruct s as [|x y w h]; [discriminate|].
  rewrite (for_subimage_rect t x y w h Hc). eexists; split; [reflexivity|].
  split; [|reflexivity]. apply constructed_sizes in Hc.
  destruct t as [i o fx fy]; cbn [input_bbox output_bbox flip_x flip_y] in *.
  unfold contains in *. cbn [isEmpty orb] in *.
  rewrite !andb_true_iff, !Z.leb_le in *.
  destruct i as [|ix iy iw ih], o as [|ox oy ow oh]; try discriminate;
    unfold getMaxX, getMaxY, getMinX, getMinY, getMax, getWidth, getHeight, edge_offset in *;
    cbn [getX getY extX extY getMin getDimensions] in *; [lia|].
  inversion Hc; subst ow oh. destruct fx, fy; lia.
Qed.

Lemma for_subimage_inside_witness :
  exists ts, Transform.for_subimage Examples.shift_flip (box 2 0 8 19) = Ok ts
             /\ contains (box 10 0 19 19) (output_bbox ts) = true
             /\ getSize (output_bbox ts) = getSize (box 2 0 8 19).
Proof.
  apply (for_subimage_inside Examples.shift_flip (box 2 0 8 19)); reflexivity.
Defined.

(** Restriction commutes with composition: when [b] ends where [a]
    starts, restricting [a.after(b)] to a non-empty box [s] gives the
    composite of [b] restricted to [s] and [a] restricted to where [b]
    sends [s]. *)
Theorem for_subimage_after (a b : ImageSectionTransform) (s : Box2I) :
  constructed a -> constructed b -> output_bbox b = input_bbox a ->
  isEmpty s = false ->
  exists ab bs a_s,
    Transform.after a b = Ok ab
    /\ Transform.for_subimage b s = Ok bs
    /\ Transform.for_subimage a (output_bbox bs) = Ok a_s
    /\ Transform.after a_s bs = Transform.for_subimage ab s.
Proof.
  intros Ha Hb Hchain Hs. destruct s as [|x y w h]; [discriminate|].
  pose proof Ha as Sa. pose proof Hb as Sb.
  apply constructed_sizes in Sa, Sb.
  assert (Sab : getSize (input_bbox b) = getSize (output_bbox a)) by congruence.
  do 3 eexists.
  split; [unfold Transform.after; apply new_of_sizes; exact Sab|].
  split; [apply for_subimage_rect; exact Hb|]. cbn [output_bbox].
  split; [apply for_subimage_rect; exact Ha|].
  rewrite for_subimage_rect by (apply constructed_sizes; exact Sab).
  unfold Transform.after. cbn [input_bbox output_bbox flip_x flip_y].
  rewrite new_of_sizes by reflexivity. do 2 f_equal. f_equal.
  - rewrite <- Hchain.
    assert (Hw : getWidth (input_bbox b) = getWidth (output_bbox b))
      by (unfold getWidth; unfold getSize in Sb; now rewrite Sb).
    unfold edge_offset, getMaxX, getMax, getMinX in *. cbn [getX] in *.
    destruct (flip_x a), (flip_x b); cbn [xorb]; lia.
  - rewrite <- Hchain.
    assert (Hh : getHeight (input_bbox b) = getHeight (output_bbox b))
      by (unfold getHeight; unfold getSize in Sb; now rewrite Sb).
    unfold edge_offset, getMaxY, getMax, getMinY in *. cbn [getY] in *.
    destruct (flip_y a), (flip_y b); cbn [xorb]; lia.
Qed.

Lemma for_subimage_after_witness :
  exists ab bs a_s,
    Transform.after Examples.shift_flip
      (Examples.transform (box 5 5 14 24) (box 0 0 9 19) true true) = Ok ab
    /\ Transform.for_subimage
         (Examples.transform (box 5 5 14 24) (box 0 0 9 19) true true) (box 6 7 8 9)
       = Ok bs
    /\ Transform.for_subimage Examples.shift_flip (output_bbox bs) = Ok a_s
    /\ Transform.after a_s bs = Transform.for_subimage ab (box 6 7 8 9).
Proof.
  apply (for_subimage_after Examples.shift_flip
           (Examples.transform (box 5 5 14 24) (box 0 0 9 19) true true) (box 6 7 8 9));
    reflexivity.
Defined.

(** ** Image sections *)

Lemma corner_dims_nat (p : PointI) (w h : nat) :
  Box2I_corner_dims p (nat_extent w h)
  = match w, h with
    | S _, S _ => Rect (getX p) (getY p) (Pos.of_nat w) (Pos.of_nat h)
    | _, _ => EmptyBox
    end.
Proof.
  unfold Box2I_corner_dims, nat_extent; cbn [extX extY].
  destruct w as [|w]; [reflexivity|]. destruct h as [|h]; [reflexivity|].
  cbn [Z.eqb Z.of_nat orb]. unfold axis_corner_dim. cbn [Z.ltb Z.compare Z.of_nat].
  cbn [Z.to_pos]. now rewrite !Pos.of_nat_succ.
Qed.

Lemma contains_point_corner_dims (p : PointI) (w h : nat) (x y : Z) :
  contains_point (Box2I_corner_dims p (nat_extent w h)) x y
  = in_range w (x - getX p) && in_range h (y - getY p).
Proof.
  rewrite corner_dims_nat. apply eq_true_iff_eq.
  rewrite andb_true_iff, !in_range_spec.
  destruct w as [|w], h as [|h];
    try (unfold contains_point, getMinX, getMaxX, getMinY, getMaxY, getMax, getWidth,
           getHeight; simpl; rewrite !andb_true_iff, !Z.leb_le; lia).
  rewrite contains_point_rect. cbn [getX getY]. lia.
Qed.

Lemma corner_dims_same_size (o : Box2I) (p : PointI) (w h : nat) :
  getSize o = getSize (Box2I_corner_dims p (nat_extent w h)) ->
  Box2I_corner_dims (getMin o) (nat_extent w h) = o.
Proof.
  rewrite !corner_dims_nat.
  destruct w as [|w], h as [|h], o as [|ox oy ow oh]; simpl;
    intros H; try discriminate; try reflexivity.
  inversion H; subst. reflexivity.
Qed.

Lemma corner_dims_of_size (b : Box2I) (w h : nat) :
  getWidth b = Z.of_nat w -> getHeight b = Z.of_nat h ->
  Box2I_corner_dims (getMin b) (nat_extent w h) = b.
Proof.
  intros Hw Hh. rewrite corner_dims_nat.
  destruct b as [|x y bw bh]; unfold getWidth, getHeight in *; simpl in *.
  - destruct w; [reflexivity|lia].
  - destruct w as [|w]; [lia|]. destruct h as [|h]; [lia|].
    f_equal; lia.
Qed.

Lemma with_new_image_ok (s : ImageSection) (img : PyImage) (s' : ImageSection) :
  ImgSec.with_new_image s img = Ok s' ->
  ImgSec.bbox s' = ImgSec.bbox s /\ ImgSec.image s' = img.
Proof.
  unfold ImgSec.with_new_image, ImgSec.without_image.
  destruct img as [|arr|m|mo]; intros H.
  - destruct (ImgSec.bbox s) as [b|]; cbn [rbind] in H; [|discriminate].
    inversion H; subst. split; reflexivity.
  - unfold module_of in H.
    destruct (Numpy.a_module arr) as [md|]; cbn [rbind] in H; [|discriminate].
    destruct (String.prefix _ md);
      [destruct (ImgSec.bbox s); cbn [rbind] in H; discriminate|].
    destruct (ImgSec.bbox s) as [b|]; cbn [rbind] in H; [|discriminate].
    destruct (negb (getHeight b =? _) || negb (getWidth b =? _)) eqn:E; [discriminate|].
    inversion H; subst; clear H. split; [|reflexivity].
    apply orb_false_iff in E as [E1 E2].
    apply negb_false_iff, Z.eqb_eq in E1, E2.
    cbn [ImgSec.bbox]. f_equal.
    now apply (corner_dims_of_size b (Numpy.shape1 arr) (Numpy.shape0 arr)).
  - cbn [module_of rbind] in H.
    change (String.prefix "lsst.afw.image" afw_image_module) with true in H.
    cbv iota in H.
    destruct (ImgSec.bbox s) as [b|]; cbn [rbind] in H; [|discriminate].
    destruct (negb (box_eqb b (Afw.getBBox m))) eqn:E; [discriminate|].
    inversion H; subst; clear H. split; [|reflexivity].
    apply negb_false_iff, box_eqb_eq in E. cbn [ImgSec.bbox]. now rewrite E.
  - destruct mo as [md|]; cbn [module_of rbind] in H; [|discriminate].
    destruct (String.prefix _ md); [|discriminate].
    destruct (ImgSec.bbox s); cbn [rbind] in H; discriminate.
Qed.



Lemma shares_storage_cells (r s : ImageSection) :
  shares_storage r s ->
  exists b, payload_buffer r = Some b /\ payload_buffer s = Some b.
Proof.
  intros (x1 & y1 & x2 & y2 & c & H1 & H2).
  exists (fst (fst c)). split.
  - destruct r as [b|a [p|b]|m]; simpl in *; try discriminate.
    + destruct (Numpy.in_shape _ _ _); [|discriminate]. now inversion H1.
    + destruct (Afw.in_image _ _ _); [|discriminate]. now inversion H1.
  - destruct s as [b|a [p|b]|m]; simpl in *; try discriminate.
    + destruct (Numpy.in_shape _ _ _); [|discriminate]. now inversion H2.
    + destruct (Afw.in_image _ _ _); [|discriminate]. now inversion H2.
Qed.

(** [copy] is a deep copy: it always returns, the result has the same
    box and the same pixel at every coordinate, the buffers that were
    there keep their contents, and the result shares no storage with a
    source whose buffer was already handed out. *)
Theorem section_copy_deep (s : ImageSection) (h : Heap) :
  exists s' h',
    ImgSec.copy s h = Ok (s', h')
    /\ extends h h'
    /\ ImgSec.bbox s' = ImgSec.bbox s
    /\ (forall x y, ImgSec.pixel h' s' x y = ImgSec.pixel h s x y)
    /\ (allocated h s -> ~ shares_storage s' s).
Proof.
  destruct s as [b|a m|m]; cbn [ImgSec.copy].
  - exists (BoxOnlyImageSection b), h. split; [reflexivity|].
    split; [apply extends_refl|]. split; [reflexivity|]. split; [reflexivity|].
    intros _ Hs. apply shares_storage_cells in Hs as (k & Hk & _). discriminate.
  - do 2 eexists. split; [reflexivity|].
    split; [eapply numpy_copy_extends; reflexivity|].
    split; [destruct m; reflexivity|]. split.
    + intros x y. destruct m as [p|bx]; [|reflexivity].
      unfold ImgSec.pixel. cbn [ImgSec.pixel_cell].
      change (Numpy.in_shape (Numpy.fresh_like h a) (y - getY p) (x - getX p))
        with (Numpy.in_shape a (y - getY p) (x - getX p)).
      destruct (Numpy.in_shape a (y - getY p) (x - getX p)) eqn:Hin; [|reflexivity].
      cbn [option_map]. f_equal. unfold read, Numpy.cell, Numpy.fresh_like.
      cbn [Numpy.a_buf Numpy.a_r0 Numpy.a_c0 Numpy.a_sr Numpy.a_sc pix].
      rewrite Nat.eqb_refl, !Z.add_0_l, !Z.mul_1_r, Hin. reflexivity.
    + intros Ha. apply (fresh_buffer_disjoint h); [exact Ha|reflexivity].
  - do 2 eexists. split; [reflexivity|].
    split; [eapply (afw_clone_extends m true); reflexivity|].
    split; [reflexivity|]. split.
    + intros x y. unfold ImgSec.pixel. cbn [ImgSec.pixel_cell].
      change (Afw.in_image (Afw.fresh_like h m) (x - Afw.i_x0 (Afw.fresh_like h m))
                (y - Afw.i_y0 (Afw.fresh_like h m)))
        with (Afw.in_image m (x - Afw.i_x0 m) (y - Afw.i_y0 m)).
      destruct (Afw.in_image m (x - Afw.i_x0 m) (y - Afw.i_y0 m)) eqn:Hin; [|reflexivity].
      cbn [option_map]. f_equal. unfold read, Afw.cell, Afw.fresh_like.
      cbn [Afw.i_buf Afw.i_r0 Afw.i_c0 Afw.i_x0 Afw.i_y0 pix].
      rewrite Nat.eqb_refl, !Z.add_0_l, Hin. reflexivity.
    + intros Ha. apply (fresh_buffer_disjoint h); [exact Ha|reflexivity].
Qed.

Lemma section_copy_deep_witness :
  exists s' h',
    ImgSec.copy Examples.small_numpy (Examples.heap 1) = Ok (s', h')
    /\ ~ shares_storage s' Examples.small_numpy.
Proof.
  destruct (section_copy_deep Examples.small_numpy (Examples.heap 1))
    as (s' & h' & Hc & _ & _ & _ & Hn).
  exists s', h'. split; [exact Hc|]. apply Hn.
  intros b Hb. inversion Hb. simpl. lia.
Defined.

(** Facts about a point of a section's box, read off the section's
    corner and shape, and about a second box of the same size. *)
Lemma corner_dims_facts (p : PointI) (w h : nat) (i o : Box2I) (x y : Z) :
  Box2I_corner_dims p (nat_extent w h) = i ->
  getSize i = getSize o ->
  contains_point i x y = true ->
  in_range w (x - getX p) = true /\ in_range h (y - getY p) = true
  /\ getMinX i = getX p /\ getMinY i = getY p
  /\ getMaxX o = getMinX o + Z.of_nat w - 1
  /\ getMaxY o = getMinY o + Z.of_nat h - 1.
Proof.
  intros Hi Hs Hin. subst i.
  assert (Hr := Hin). rewrite contains_point_corner_dims in Hr.
  apply andb_true_iff in Hr as [Hx Hy]. split; [exact Hx|]. split; [exact Hy|].
  apply in_range_spec in Hx, Hy.
  rewrite corner_dims_nat in *.
  destruct w as [|w]; [lia|]. destruct h as [|h]; [lia|].
  destruct o as [|ox oy ow oh]; [discriminate|].
  unfold getSize in Hs.
  assert (Hw := f_equal extX Hs). assert (Hh := f_equal extY Hs).
  cbn [extX extY getDimensions] in Hw, Hh.
  unfold getMinX, getMinY, getMaxX, getMaxY, getMax, getWidth, getHeight.
  cbn [getX getY extX extY getMin getDimensions].
  lia.
Qed.

Lemma apply_transform_returns (s : ImageSection) (t : ImageSectionTransform)
    (allow_view : bool) (h : Heap) :
  ImgSec.bbox s = Ok (input_bbox t) -> constructed t ->
  exists s' h',
    ImgSec.apply_transform s t allow_view h = Ok (s', h')
    /\ ImgSec.bbox s' = Ok (output_bbox t).
Proof.
  intros Hb Hc. apply constructed_sizes in Hc.
  destruct s as [b|a [p|bx]|m]; cbn [ImgSec.bbox] in Hb; try discriminate;
    inversion Hb as [Hi]; clear Hb.
  - cbn [ImgSec.apply_transform]. unfold lift. rewrite box_eqb_refl. cbn.
    do 2 eexists. split; reflexivity.
  - destruct (ImgSec.apply_transform (NumPyImageSection a (MinPoint p)) t allow_view h)
      as [[s' h']|e] eqn:E.
    + exists s', h'. split; [reflexivity|].
      cbn [ImgSec.apply_transform] in E. unfold bind in E.
      destruct (negb allow_view); cbn in E; inversion E; subst; clear E;
        cbn [ImgSec.bbox]; f_equal;
        apply (corner_dims_same_size _ p); rewrite <- Hc, <- Hi; reflexivity.
    + exfalso. cbn [ImgSec.apply_transform] in E. unfold bind in E.
      destruct (negb allow_view); cbn in E; discriminate.
  - destruct (ImgSec.apply_transform (AfwImageSection m) t allow_view h)
      as [[s' h']|e] eqn:E.
    + exists s', h'. split; [reflexivity|].
      cbn [ImgSec.apply_transform] in E. unfold bind in E.
      destruct (negb (flip_x t || flip_y t)); [destruct (negb allow_view)|];
        cbn in E; inversion E; subst; clear E;
        cbn [ImgSec.bbox]; f_equal;
        apply (corner_dims_same_size _ (Afw.getXY0 m)); rewrite <- Hc, <- Hi; reflexivity.
    + exfalso. cbn [ImgSec.apply_transform] in E. unfold bind in E.
      destruct (negb (flip_x t || flip_y t)); [destruct (negb allow_view)|];
        cbn in E; discriminate.
Qed.

(** [apply_transform] with a transform made for the section always
    returns; the result sits at [transform.output_bbox], and the store
    only gained fresh buffers. *)
Theorem apply_transform_bbox (s : ImageSection) (t : ImageSectionTransform)
    (allow_view : bool) (h : Heap) :
  ImgSec.bbox s = Ok (input_bbox t) -> constructed t ->
  exists s' h',
    ImgSec.apply_transform s t allow_view h = Ok (s', h')
    /\ ImgSec.bbox s' = Ok (output_bbox t)
    /\ extends h h'.
Proof.
  intros Hb Hc.
  destruct (apply_transform_returns s t allow_view h Hb Hc) as (s' & h' & E & Hs').
  exists s', h'. split; [exact E|]. split; [exact Hs'|].
  eapply apply_transform_extends; exact E.
Qed.

Lemma apply_transform_bbox_witness :
  exists s' h',
    ImgSec.apply_transform Examples.small_afw Examples.flip_in_place true (Examples.heap 1)
    = Ok (s', h')
    /\ ImgSec.bbox s' = Ok (box 0 0 1 1)
    /\ extends (Examples.heap 1) h'.
Proof.
  apply (apply_transform_bbox Examples.small_afw Examples.flip_in_place true
           (Examples.heap 1)); reflexivity.
Defined.

Lemma moved_index (flip : bool) (im om oM x : Z) (w : nat) :
  oM = om + Z.of_nat w - 1 ->
  moved flip im om oM x - om
  = if flip then Z.of_nat w - 1 - (x - im) else x - im.
Proof. intros ->. unfold moved. destruct flip; lia. Qed.

Lemma mirror_in_range (flip : bool) (n : nat) (i : Z) :
  in_range n i = true ->
  in_range n (if flip then Z.of_nat n - 1 - i else i) = true.
Proof. rewrite !in_range_spec. destruct flip; lia. Qed.

Lemma mirror_twice (flip : bool) (n i : Z) :
  (if flip then n - 1 - (if flip then n - 1 - i else i)
   else (if flip then n - 1 - i else i)) = i.
Proof. destruct flip; lia. Qed.

(** [apply_transform] moves pixels as the transform says: the pixel the
    source has at [(x, y)] is the pixel the result has at the same
    distance from the near edges of [output_bbox], or from the far edges
    along flipped axes. *)
Theorem apply_transform_pixels (s : ImageSection) (t : ImageSectionTransform)
    (allow_view : bool) (h : Heap) (s' : ImageSection) (h' : Heap) (x y : Z) :
  ImgSec.bbox s = Ok (input_bbox t) -> constructed t ->
  ImgSec.apply_transform s t allow_view h = Ok (s', h') ->
  contains_point (input_bbox t) x y = true ->
  ImgSec.pixel h' s'
    (moved (flip_x t) (getMinX (input_bbox t)) (getMinX (output_bbox t))
       (getMaxX (output_bbox t)) x)
    (moved (flip_y t) (getMinY (input_bbox t)) (getMinY (output_bbox t))
       (getMaxY (output_bbox t)) y)
  = ImgSec.pixel h s x y.
Proof.
  intros Hb Hc E Hin. apply constructed_sizes in Hc.
  destruct s as [b|a [p|bx]|m]; cbn [ImgSec.bbox] in Hb; try discriminate;
    injection Hb as Hi.
  - (* no pixels on either side *)
    cbn [ImgSec.apply_transform] in E. unfold lift in E.
    destruct (box_eqb (input_bbox t) b); cbn in E; [|discriminate].
    inversion E; subst. reflexivity.
  - destruct (corner_dims_facts p (Numpy.shape1 a) (Numpy.shape0 a) _ (output_bbox t)
                x y Hi Hc Hin) as (Hx & Hy & Hmx & Hmy & HMx & HMy).
    set (x' := moved (flip_x t) _ _ _ x). set (y' := moved (flip_y t) _ _ _ y).
    assert (Ex : x' - getX (getMin (output_bbox t))
                 = if flip_x t then Z.of_nat (Numpy.shape1 a) - 1 - (x - getX p)
                   else x - getX p)
      by (subst x'; rewrite Hmx; apply moved_index; exact HMx).
    assert (Ey : y' - getY (getMin (output_bbox t))
                 = if flip_y t then Z.of_nat (Numpy.shape0 a) - 1 - (y - getY p)
                   else y - getY p)
      by (subst y'; rewrite Hmy; apply moved_index; exact HMy).
    assert (Hs : Numpy.in_shape a (y - getY p) (x - getX p) = true)
      by (unfold Numpy.in_shape; now rewrite Hx, Hy).
    pose proof (flip_view_in_shape a (flip_y t) (flip_x t) _ _ Hs) as Hs'.
    assert (Hcell : Numpy.cell (Numpy.flip_view a (flip_y t) (flip_x t))
                      (if flip_y t then Z.of_nat (Numpy.shape0 a) - 1 - (y - getY p)
                       else y - getY p)
                      (if flip_x t then Z.of_nat (Numpy.shape1 a) - 1 - (x - getX p)
                       else x - getX p)
                    = Numpy.cell a (y - getY p) (x - getX p)).
    { rewrite flip_view_cell. now rewrite !mirror_twice. }
    unfold ImgSec.pixel at 2. cbn [ImgSec.pixel_cell]. rewrite Hs. cbn [option_map].
    cbn [ImgSec.apply_transform] in E. unfold bind in E.
    destruct (negb allow_view); cbn in E; inversion E; subst s' h'; clear E;
      unfold ImgSec.pixel; cbn [ImgSec.pixel_cell].
    + change (Numpy.in_shape (Numpy.fresh_like h (Numpy.flip_view a (flip_y t) (flip_x t)))
                (y' - getY (getMin (output_bbox t))) (x' - getX (getMin (output_bbox t))))
        with (Numpy.in_shape (Numpy.flip_view a (flip_y t) (flip_x t))
                (y' - getY (getMin (output_bbox t))) (x' - getX (getMin (output_bbox t)))).
      rewrite Ex, Ey, Hs'. cbn [option_map]. f_equal.
      unfold read, Numpy.cell at 1, Numpy.fresh_like.
      cbn [Numpy.a_buf Numpy.a_r0 Numpy.a_c0 Numpy.a_sr Numpy.a_sc pix].
      rewrite Nat.eqb_refl, !Z.add_0_l, !Z.mul_1_r, Hs'. cbn [andb].
      unfold Numpy.get. rewrite <- Hcell. reflexivity.
    + rewrite Ex, Ey, Hs'. cbn [option_map]. f_equal.
      now rewrite Hcell.
  - destruct (corner_dims_facts (Afw.getXY0 m) (Afw.i_w m) (Afw.i_h m) _ (output_bbox t)
                x y Hi Hc Hin) as (Hx & Hy & Hmx & Hmy & HMx & HMy).
    cbn [Afw.getXY0 getX getY] in *.
    set (x' := moved (flip_x t) _ _ _ x). set (y' := moved (flip_y t) _ _ _ y).
    assert (Ex : x' - getX (getMin (output_bbox t))
                 = if flip_x t then Z.of_nat (Afw.i_w m) - 1 - (x - Afw.i_x0 m)
                   else x - Afw.i_x0 m)
      by (subst x'; rewrite Hmx; apply moved_index; exact HMx).
    assert (Ey : y' - getY (getMin (output_bbox t))
                 = if flip_y t then Z.of_nat (Afw.i_h m) - 1 - (y - Afw.i_y0 m)
                   else y - Afw.i_y0 m)
      by (subst y'; rewrite Hmy; apply moved_index; exact HMy).
    assert (Hs : Afw.in_image m (x - Afw.i_x0 m) (y - Afw.i_y0 m) = true)
      by (unfold Afw.in_image; now rewrite Hx, Hy).
    pose proof (mirror_in_range (flip_x t) _ _ Hx) as Hx'.
    pose proof (mirror_in_range (flip_y t) _ _ Hy) as Hy'.
    unfold ImgSec.pixel at 2. cbn [ImgSec.pixel_cell]. rewrite Hs. cbn [option_map].
    cbn [ImgSec.apply_transform] in E. unfold bind in E.
    destruct (flip_x t || flip_y t) eqn:Ef; cbn [negb] in E.
    + (* a flip: the pixels were copied in reverse *)
      cbn in E. inversion E; subst s' h'; clear E.
      unfold ImgSec.pixel; cbn [ImgSec.pixel_cell].
      unfold Afw.in_image, Afw.setXY0, Afw.fresh_like, Afw.cell.
      cbn [Afw.i_buf Afw.i_r0 Afw.i_c0 Afw.i_x0 Afw.i_y0 Afw.i_w Afw.i_h].
      rewrite Ex, Ey, Hx', Hy'. cbn [andb option_map]. f_equal.
      unfold read. cbn [pix].
      rewrite Nat.eqb_refl, !Z.add_0_l. unfold Afw.in_image.
      rewrite Hx', Hy'. cbn [andb]. unfold Afw.cell.
      now rewrite !mirror_twice.
    + apply orb_false_iff in Ef as [Fx Fy]. rewrite Fx, Fy in *.
      destruct (negb allow_view); cbn in E; inversion E; subst s' h'; clear E;
        unfold ImgSec.pixel; cbn [ImgSec.pixel_cell];
        unfold Afw.in_image, Afw.setXY0, Afw.fresh_like, Afw.cell;
        cbn [Afw.i_buf Afw.i_r0 Afw.i_c0 Afw.i_x0 Afw.i_y0 Afw.i_w Afw.i_h];
        rewrite Ex, Ey, Hx, Hy; cbn [andb option_map]; f_equal.
      unfold read. cbn [pix].
      rewrite Nat.eqb_refl, !Z.add_0_l. unfold Afw.in_image.
      rewrite Hx, Hy. reflexivity.
Qed.

Lemma apply_transform_pixels_witness :
  exists s' h',
    ImgSec.apply_transform Examples.small_afw Examples.flip_in_place false (Examples.heap 1)
    = Ok (s', h')
    /\ ImgSec.pixel h' s' 1 0 = ImgSec.pixel (Examples.heap 1) Examples.small_afw 0 0.
Proof.
  destruct (ImgSec.apply_transform Examples.small_afw Examples.flip_in_place false
              (Examples.heap 1)) as [[s' h']|e] eqn:E; [|discriminate E].
  exists s', h'. split; [reflexivity|].
  exact (apply_transform_pixels Examples.small_afw Examples.flip_in_place false
           (Examples.heap 1) s' h' 0 0 eq_refl eq_refl E eq_refl).
Defined.

Lemma contains_rect_corner_dims (p : PointI) (w h : nat) (x y : Z) (bw bh : positive) :
  contains (Box2I_corner_dims p (nat_extent w h)) (Rect x y bw bh) = true
  <-> getX p <= x /\ getY p <= y
      /\ x + Z.pos bw <= getX p + Z.of_nat w /\ y + Z.pos bh <= getY p + Z.of_nat h.
Proof.
  rewrite corner_dims_nat. unfold contains. cbn [isEmpty orb].
  rewrite !andb_true_iff, !Z.leb_le.
  destruct w as [|w], h as [|h];
    unfold getMinX, getMinY, getMaxX, getMaxY, getMax, getWidth, getHeight;
    cbn [getX getY extX extY getMin getDimensions]; lia.
Qed.

(** On afw images, [subimage] of a non-empty box returns exactly when
    the box is contained and raises [LengthError] otherwise; the section
    returned has the requested box, and its pixels are the cells the
    source has at the same coordinates. *)
Theorem afw_subimage_view (m : Afw.Image) (bx : Box2I) :
  isEmpty bx = false ->
  (contains (Afw.getBBox m) bx = false ->
   ImgSec.subimage (AfwImageSection m) bx = Raise LengthError)
  /\ (contains (Afw.getBBox m) bx = true ->
      exists s', ImgSec.subimage (AfwImageSection m) bx = Ok s'
        /\ ImgSec.bbox s' = Ok bx
        /\ forall x y,
             ImgSec.pixel_cell s' x y
             = if contains_point bx x y
               then ImgSec.pixel_cell (AfwImageSection m) x y else None).
Proof.
  intros Hne. destruct bx as [|x0 y0 w h]; [discriminate|]. clear Hne.
  pose proof (contains_rect_corner_dims (Afw.getXY0 m) (Afw.i_w m) (Afw.i_h m) x0 y0 w h)
    as Hc.
  change (Box2I_corner_dims (Afw.getXY0 m) (nat_extent (Afw.i_w m) (Afw.i_h m)))
    with (Afw.getBBox m) in Hc.
  cbn [Afw.getXY0 getX getY] in Hc.
  cbn [ImgSec.subimage]. unfold Afw.subimage, Afw.sub_view.
  cbn [point_sub extX extY getX getY Geom.getMin Geom.getDimensions Afw.getXY0].
  split.
  - intros Hf. apply not_true_iff_false in Hf. rewrite Hc in Hf.
    destruct (_ || _) eqn:E; [reflexivity|]. exfalso. apply Hf.
    rewrite !orb_false_iff, !Z.ltb_ge in E. lia.
  - intros Ht. apply Hc in Ht.
    destruct (_ || _) eqn:E.
    { rewrite !orb_true_iff, !Z.ltb_lt in E. lia. }
    cbn [rbind]. eexists. split; [reflexivity|]. split.
    + cbn [ImgSec.bbox]. f_equal. unfold Afw.getBBox, Afw.getXY0, Afw.getDimensions.
      cbn [Afw.i_x0 Afw.i_y0 Afw.i_w Afw.i_h].
      rewrite !Z2Nat.id by lia. reflexivity.
    + intros x y. cbn [ImgSec.pixel_cell]. unfold Afw.in_image, Afw.cell.
      cbn [Afw.i_buf Afw.i_r0 Afw.i_c0 Afw.i_x0 Afw.i_y0 Afw.i_w Afw.i_h].
      destruct (contains_point (Rect x0 y0 w h) x y) eqn:Hp.
      * apply contains_point_rect in Hp.
        replace (in_range (Z.to_nat (Z.pos w)) (x - x0)) with true
          by (symmetry; apply in_range_spec; lia).
        replace (in_range (Z.to_nat (Z.pos h)) (y - y0)) with true
          by (symmetry; apply in_range_spec; lia).
        replace (in_range (Afw.i_w m) (x - Afw.i_x0 m)) with true
          by (symmetry; apply in_range_spec; lia).
        replace (in_range (Afw.i_h m) (y - Afw.i_y0 m)) with true
          by (symmetry; apply in_range_spec; lia).
        cbn [andb]. f_equal.
        apply f_equal2; [apply f_equal2; [reflexivity|lia]|lia].
      * destruct (in_range (Z.to_nat (Z.pos w)) (x - x0)
                  && in_range (Z.to_nat (Z.pos h)) (y - y0)) eqn:Hr; [|reflexivity].
        exfalso. apply not_true_iff_false in Hp. apply Hp.
        apply contains_point_rect.
        apply andb_true_iff in Hr as [Hx Hy]. apply in_range_spec in Hx, Hy. lia.
Qed.

Lemma afw_subimage_view_witness :
  ImgSec.subimage Examples.small_afw (box 5 5 6 6) = Raise LengthError
  /\ exists s', ImgSec.subimage Examples.small_afw (box 1 0 1 1) = Ok s'
       /\ ImgSec.bbox s' = Ok (box 1 0 1 1)
       /\ forall x y,
            ImgSec.pixel_cell s' x y
            = if contains_point (box 1 0 1 1) x y
              then ImgSec.pixel_cell Examples.small_afw x y else None.
Proof.
  split.
  - apply (proj1 (afw_subimage_view (Examples.afw_image 0 0 0 2 2) (box 5 5 6 6) eq_refl)).
    reflexivity.
  - apply (proj2 (afw_subimage_view (Examples.afw_image 0 0 0 2 2) (box 1 0 1 1) eq_refl)).
    reflexivity.
Defined.

Lemma axis_index_affine (s o k i : Z) (n : nat) :
  s <> 0 ->
  Numpy.axis_index (o + k * s) s n (o + i * s)
  = if in_range n (i - k) then Some (i - k) else None.
Proof.
  intros Hs. unfold Numpy.axis_index.
  replace (o + i * s - (o + k * s)) with ((i - k) * s) by ring.
  rewrite Z.div_mul by exact Hs.
  replace (o + k * s + (i - k) * s =? o + i * s) with true
    by (symmetry; apply Z.eqb_eq; ring).
  reflexivity.
Qed.

Lemma adjust_inside (n : nat) (i : Z) : 0 <= i <= Z.of_nat n -> Numpy.adjust n i = i.
Proof.
  intros H. unfold Numpy.adjust.
  assert (E1 : (i <? 0) = false) by (apply Z.ltb_ge; lia).
  assert (E2 : (Z.of_nat n <? i) = false) by (apply Z.ltb_ge; lia).
  rewrite E1. cbv zeta. now rewrite E1, E2.
Qed.

Lemma bsrc_in_range (m : nat) (i : Z) : in_range m i = true -> Numpy.bsrc m i = i.
Proof.
  intros H. apply in_range_spec in H. unfold Numpy.bsrc.
  destruct (Nat.eqb_spec m 1); [lia|reflexivity].
Qed.

Lemma corner_dims_rect_inv (p : PointI) (w h : nat) (x y : Z) (bw bh : positive) :
  Box2I_corner_dims p (nat_extent w h) = Rect x y bw bh ->
  x = getX p /\ y = getY p /\ Z.pos bw = Z.of_nat w /\ Z.pos bh = Z.of_nat h.
Proof.
  rewrite corner_dims_nat. intros H.
  destruct w as [|w]; [discriminate|]. destruct h as [|h]; [discriminate|].
  assert (Hx := f_equal getMinX H). assert (Hy := f_equal getMinY H).
  assert (Hw := f_equal getWidth H). assert (Hh := f_equal getHeight H).
  unfold getMinX, getMinY, getWidth, getHeight in *.
  cbn [getX getY extX extY getMin getDimensions] in *. lia.
Qed.

(** [assign] between array sections, for a non-empty contained box. *)
Lemma numpy_assign_box (a b : Numpy.ndarray) (p q : PointI) (h : Heap) (bs bo : Box2I) :
  ImgSec.bbox (NumPyImageSection a (MinPoint p)) = Ok bs ->
  ImgSec.bbox (NumPyImageSection b (MinPoint q)) = Ok bo ->
  isEmpty bo = false -> contains bs bo = true ->
  Numpy.a_sr a <> 0 -> Numpy.a_sc a <> 0 ->
  (forall i j, Numpy.in_shape b i j = true ->
     Numpy.cast (Numpy.a_dtype a) (Numpy.get h b i j) = Numpy.get h b i j) ->
  exists h',
    ImgSec.assign (NumPyImageSection a (MinPoint p)) (NumPyImageSection b (MinPoint q)) h
    = Ok (tt, h')
    /\ next_buf h' = next_buf h
    /\ forall x y,
         ImgSec.pixel h' (NumPyImageSection a (MinPoint p)) x y
         = if contains_point bo x y
           then ImgSec.pixel h (NumPyImageSection b (MinPoint q)) x y
           else ImgSec.pixel h (NumPyImageSection a (MinPoint p)) x y.
Proof.
  intros Hbs Hbo Hne Hin Hsr Hsc Hfit.
  cbn [ImgSec.bbox] in Hbs, Hbo. injection Hbs as Hbs. injection Hbo as Hbo.
  change {| extX := Z.of_nat (Numpy.shape1 a); extY := Z.of_nat (Numpy.shape0 a) |}
    with (nat_extent (Numpy.shape1 a) (Numpy.shape0 a)) in Hbs.
  change {| extX := Z.of_nat (Numpy.shape1 b); extY := Z.of_nat (Numpy.shape0 b) |}
    with (nat_extent (Numpy.shape1 b) (Numpy.shape0 b)) in Hbo.
  destruct bo as [|x0 y0 w hh]; [discriminate|]. clear Hne.
  assert (Hq : x0 = getX q /\ y0 = getY q
               /\ Z.pos w = Z.of_nat (Numpy.shape1 b)
               /\ Z.pos hh = Z.of_nat (Numpy.shape0 b)).
  { now apply corner_dims_rect_inv in Hbo. }
  destruct Hq as (Hx0 & Hy0 & Hw & Hh).
  rewrite <- Hbs in Hin. apply contains_rect_corner_dims in Hin.
  destruct Hin as (Hpx & Hpy & HxM & HyM).
  cbn [ImgSec.assign]. unfold bind, lift.
  cbn [ImgSec.bbox ImgSec.subimage ImgSec.image].
  change {| extX := Z.of_nat (Numpy.shape1 b); extY := Z.of_nat (Numpy.shape0 b) |}
    with (nat_extent (Numpy.shape1 b) (Numpy.shape0 b)).
  rewrite Hbo.
  cbn [point_sub ext_add getMin getSize getDimensions getX getY extX extY].
  unfold Numpy.assign_all, Numpy.slice.
  cbn [Numpy.shape0 Numpy.shape1 Numpy.a_buf Numpy.a_r0 Numpy.a_c0 Numpy.a_sr Numpy.a_sc
       Numpy.a_dtype].
  rewrite !adjust_inside by lia.
  replace (Z.to_nat (y0 - getY p + Z.pos hh - (y0 - getY p))) with (Numpy.shape0 b) by lia.
  replace (Z.to_nat (x0 - getX p + Z.pos w - (x0 - getX p))) with (Numpy.shape1 b) by lia.
  unfold Numpy.broadcastable. rewrite !Nat.eqb_refl. cbn [orb andb].
  eexists. split; [reflexivity|]. split; [reflexivity|].
  intros x y. unfold ImgSec.pixel. cbn [ImgSec.pixel_cell].
  destruct (Numpy.in_shape a (y - getY p) (x - getX p)) eqn:Ha.
  - cbn [option_map]. unfold read at 1, Numpy.cell at 1. cbn [pix].
    rewrite Nat.eqb_refl, !axis_index_affine by assumption.
    unfold Numpy.in_shape in Ha. apply andb_true_iff in Ha as [Hay Hax].
    apply in_range_spec in Hay, Hax.
    destruct (contains_point (Rect x0 y0 w hh) x y) eqn:Hp.
    + apply contains_point_rect in Hp.
      assert (Hby : in_range (Numpy.shape0 b) (y - getY p - (y0 - getY p)) = true)
        by (apply in_range_spec; lia).
      assert (Hbx : in_range (Numpy.shape1 b) (x - getX p - (x0 - getX p)) = true)
        by (apply in_range_spec; lia).
      rewrite Hby, Hbx, !bsrc_in_range by assumption.
      replace (y - getY p - (y0 - getY p)) with (y - getY q) in * by lia.
      replace (x - getX p - (x0 - getX p)) with (x - getX q) in * by lia.
      rewrite Hfit by (unfold Numpy.in_shape; now rewrite Hby, Hbx).
      unfold Numpy.in_shape. rewrite Hby, Hbx. reflexivity.
    + destruct (in_range (Numpy.shape0 b) (y - getY p - (y0 - getY p))) eqn:Hby;
        [|reflexivity].
      destruct (in_range (Numpy.shape1 b) (x - getX p - (x0 - getX p))) eqn:Hbx;
        [|reflexivity].
      exfalso. apply not_true_iff_false in Hp. apply Hp.
      apply contains_point_rect. apply in_range_spec in Hby, Hbx. lia.
  - destruct (contains_point (Rect x0 y0 w hh) x y) eqn:Hp; [|reflexivity].
    exfalso. apply contains_point_rect in Hp.
    apply not_true_iff_false in Ha. apply Ha.
    unfold Numpy.in_shape. apply andb_true_iff. rewrite !in_range_spec. lia.
Qed.

Lemma pixel_type_eqb_refl (t : Afw.PixelType) : Afw.pixel_type_eqb t t = true.
Proof. destruct t; reflexivity. Qed.

(** [assign] between afw sections of one pixel type, for a non-empty
    contained box. *)
Lemma afw_assign_box (m rhs : Afw.Image) (h : Heap) (bs bo : Box2I) :
  Afw.i_type m = Afw.i_type rhs ->
  ImgSec.bbox (AfwImageSection m) = Ok bs ->
  ImgSec.bbox (AfwImageSection rhs) = Ok bo ->
  isEmpty bo = false -> contains bs bo = true ->
  exists h',
    ImgSec.assign (AfwImageSection m) (AfwImageSection rhs) h = Ok (tt, h')
    /\ next_buf h' = next_buf h
    /\ forall x y,
         ImgSec.pixel h' (AfwImageSection m) x y
         = if contains_point bo x y
           then ImgSec.pixel h (AfwImageSection rhs) x y
           else ImgSec.pixel h (AfwImageSection m) x y.
Proof.
  intros Ht Hbs Hbo Hne Hin.
  cbn [ImgSec.bbox] in Hbs, Hbo. injection Hbs as Hbs. injection Hbo as Hbo.
  unfold Afw.getBBox in Hbs, Hbo.
  change (Afw.getDimensions m) with (nat_extent (Afw.i_w m) (Afw.i_h m)) in Hbs.
  change (Afw.getDimensions rhs) with (nat_extent (Afw.i_w rhs) (Afw.i_h rhs)) in Hbo.
  destruct bo as [|x0 y0 w hh]; [discriminate|]. clear Hne.
  destruct (corner_dims_rect_inv _ _ _ _ _ _ _ Hbo) as (Hx0 & Hy0 & Hw & Hh).
  cbn [Afw.getXY0 getX getY] in Hx0, Hy0.
  rewrite <- Hbs in Hin. apply contains_rect_corner_dims in Hin.
  cbn [Afw.getXY0 getX getY] in Hin. destruct Hin as (Hpx & Hpy & HxM & HyM).
  cbn [ImgSec.assign ImgSec.image]. unfold bind, lift. cbn [ImgSec.bbox].
  unfold Afw.getBBox at 1.
  change (Afw.getDimensions rhs) with (nat_extent (Afw.i_w rhs) (Afw.i_h rhs)).
  rewrite Hbo. unfold Afw.assign. cbn [isEmpty].
  rewrite Ht, pixel_type_eqb_refl. cbn [negb].
  replace (ext_eqb (getDimensions (Rect x0 y0 w hh)) (Afw.getDimensions rhs)) with true
    by (symmetry; unfold ext_eqb, Afw.getDimensions; cbn [extX extY getDimensions];
        apply andb_true_iff; rewrite !Z.eqb_eq; lia).
  cbn [negb]. unfold Afw.sub_view.
  cbn [point_sub extX extY getX getY getMin getDimensions Afw.getXY0].
  destruct (_ || _) eqn:E.
  { rewrite !orb_true_iff, !Z.ltb_lt in E. lia. }
  eexists. split; [reflexivity|]. split; [reflexivity|].
  intros x y. unfold ImgSec.pixel. cbn [ImgSec.pixel_cell].
  unfold Afw.in_image, Afw.cell, Afw.copy_pixels, read.
  cbn [Afw.i_buf Afw.i_r0 Afw.i_c0 Afw.i_x0 Afw.i_y0 Afw.i_w Afw.i_h pix].
  destruct (in_range (Afw.i_w m) (x - Afw.i_x0 m)
            && in_range (Afw.i_h m) (y - Afw.i_y0 m)) eqn:Hm.
  - cbn [option_map]. rewrite Nat.eqb_refl. cbn [andb].
    unfold Afw.in_image, Afw.cell.
    cbn [Afw.i_buf Afw.i_r0 Afw.i_c0 Afw.i_x0 Afw.i_y0 Afw.i_w Afw.i_h].
    apply andb_true_iff in Hm as [Hmx Hmy]. apply in_range_spec in Hmx, Hmy.
    replace (Afw.i_c0 m + (x - Afw.i_x0 m) - (Afw.i_c0 m + (x0 - Afw.i_x0 m)))
      with (x - x0) by lia.
    replace (Afw.i_r0 m + (y - Afw.i_y0 m) - (Afw.i_r0 m + (y0 - Afw.i_y0 m)))
      with (y - y0) by lia.
    destruct (contains_point (Rect x0 y0 w hh) x y) eqn:Hp.
    + apply contains_point_rect in Hp.
      replace (in_range (Z.to_nat (Z.pos w)) (x - x0)) with true
        by (symmetry; apply in_range_spec; lia).
      replace (in_range (Z.to_nat (Z.pos hh)) (y - y0)) with true
        by (symmetry; apply in_range_spec; lia).
      rewrite <- Hx0, <- Hy0.
      replace (in_range (Afw.i_w rhs) (x - x0)) with true
        by (symmetry; apply in_range_spec; lia).
      replace (in_range (Afw.i_h rhs) (y - y0)) with true
        by (symmetry; apply in_range_spec; lia).
      reflexivity.
    + destruct (in_range (Z.to_nat (Z.pos w)) (x - x0)
                && in_range (Z.to_nat (Z.pos hh)) (y - y0)) eqn:Hr; [|reflexivity].
      exfalso. apply not_true_iff_false in Hp. apply Hp.
      apply contains_point_rect.
      apply andb_true_iff in Hr as [Hx Hy]. apply in_range_spec in Hx, Hy. lia.
  - destruct (contains_point (Rect x0 y0 w hh) x y) eqn:Hp; [|reflexivity].
    exfalso. apply contains_point_rect in Hp.
    apply not_true_iff_false in Hm. apply Hm.
    apply andb_true_iff. rewrite !in_range_spec. lia.
Qed.

(** [assign] copies a box: between two arrays such that the element
    type of [self] holds every value of [other], or two afw images of
    the same pixel type, for a non-empty box of [other] contained in the
    box of [self], the call returns, hands out no buffer, and afterwards
    [self] shows the pixels [other] had inside [other]'s box and its own
    former pixels everywhere else. *)
Theorem assign_copies_box (self other : ImageSection) (h : Heap) (bs bo : Box2I) :
  assignable h self other ->
  ImgSec.bbox self = Ok bs -> ImgSec.bbox other = Ok bo ->
  isEmpty bo = false -> contains bs bo = true ->
  exists h',
    ImgSec.assign self other h = Ok (tt, h')
    /\ next_buf h' = next_buf h
    /\ forall x y,
         ImgSec.pixel h' self x y
         = if contains_point bo x y then ImgSec.pixel h other x y
           else ImgSec.pixel h self x y.
Proof.
  intros Hk Hbs Hbo Hne Hin.
  destruct self as [b|a [p|bx]|m], other as [b'|a' [p'|bx']|m'];
    cbn [assignable] in Hk; try contradiction; try discriminate.
  - destruct Hk as (Hsr & Hsc & Hfit). now apply (numpy_assign_box a a' p p' h bs bo).
  - now apply (afw_assign_box m m' h bs bo).
Qed.

(** Without those conditions [assign] does not carry values over: an
    [int8] array that is assigned the value 2000 holds -48 afterwards,
    and an afw image refuses an image of another pixel type. *)
Lemma assign_between_pixel_types :
  ImgSec.pixel (Examples.heap 2)
    (NumPyImageSection (Examples.array 1 1 1) (MinPoint (Examples.point 0 0))) 0 0
  = Some 2000
  /\ result_of
       (ImgSec.assign
          (NumPyImageSection
             {| Numpy.a_buf := 0; Numpy.a_r0 := 0; Numpy.a_c0 := 0;
                Numpy.a_sr := 1; Numpy.a_sc := 1;
                Numpy.shape0 := 1; Numpy.shape1 := 1;
                Numpy.a_dtype := Numpy.int8; Numpy.a_module := None |}
             (MinPoint (Examples.point 0 0)))
          (NumPyImageSection (Examples.array 1 1 1) (MinPoint (Examples.point 0 0)))
          (Examples.heap 2))
       (fun _ h' => pix h' 0%nat 0 0)
     = Ok (-48)
  /\ forall h,
       ImgSec.assign (AfwImageSection (Examples.afw_image 0 0 0 2 2))
         (AfwImageSection
            {| Afw.i_buf := 1; Afw.i_r0 := 0; Afw.i_c0 := 0;
               Afw.i_x0 := 0; Afw.i_y0 := 0; Afw.i_w := 2; Afw.i_h := 2;
               Afw.i_type := Afw.PixelU |}) h
       = Raise TypeError.
Proof.
  split; [reflexivity|]. split; [vm_compute; reflexivity|].
  intros h. reflexivity.
Qed.

Lemma assign_copies_box_witness :
  exists h',
    ImgSec.assign Examples.small_numpy
      (NumPyImageSection (Examples.array 1 1 1) (MinPoint (Examples.point 1 1)))
      (Examples.heap 2) = Ok (tt, h')
    /\ next_buf h' = 2%nat
    /\ forall x y,
         ImgSec.pixel h' Examples.small_numpy x y
         = if contains_point (box 1 1 1 1) x y
           then ImgSec.pixel (Examples.heap 2)
                  (NumPyImageSection (Examples.array 1 1 1)
                     (MinPoint (Examples.point 1 1))) x y
           else ImgSec.pixel (Examples.heap 2) Examples.small_numpy x y.
Proof.
  apply (assign_copies_box Examples.small_numpy
           (NumPyImageSection (Examples.array 1 1 1) (MinPoint (Examples.point 1 1)))
           (Examples.heap 2) (box 0 0 1 1) (box 1 1 1 1));
    try reflexivity.
  split; [discriminate|]. split; [discriminate|].
  intros i j Hin. unfold Numpy.in_shape in Hin.
  apply andb_true_iff in Hin as [Hi Hj]. apply in_range_spec in Hi, Hj.
  assert (Ei : i = 0) by (cbn in Hi; lia). assert (Ej : j = 0) by (cbn in Hj; lia).
  subst i j. vm_compute. reflexivity.
Defined.

(** ** Amplifiers *)

Lemma trimmed_init_ok data id rt ho vo hp pt a :
  TrimmedAmplifier.init data id rt ho vo hp pt = Ok a ->
  a = {| TrimmedAmplifier._data := data;
         TrimmedAmplifier._amplifier_id := id;
         TrimmedAmplifier._readout_transform := rt;
         TrimmedAmplifier._horizontal_overscan_is_at_min := ho;
         TrimmedAmplifier._vertical_overscan_is_at_min := vo;
         TrimmedAmplifier._horizontal_prescan_is_at_min := hp;
         TrimmedAmplifier._physical_transform := pt |}
  /\ ImgSec.bbox data = Ok (input_bbox rt)
  /\ input_bbox pt = input_bbox rt.
Proof.
  unfold TrimmedAmplifier.init. intros H.
  destruct (ImgSec.bbox data) as [b|] eqn:Eb; cbn [rbind] in H; [|discriminate].
  destruct (box_eqb (input_bbox rt) b) eqn:E1; cbn [rbind assert_] in H; [|discriminate].
  destruct (box_eqb (input_bbox pt) b) eqn:E2; cbn [rbind assert_] in H; [|discriminate].
  apply box_eqb_eq in E1, E2. inversion H. subst. auto.
Qed.

Lemma trimmed_init_of_invariant data id rt ho vo hp pt :
  ImgSec.bbox data = Ok (input_bbox rt) -> input_bbox pt = input_bbox rt ->
  TrimmedAmplifier.init data id rt ho vo hp pt
  = Ok {| TrimmedAmplifier._data := data;
          TrimmedAmplifier._amplifier_id := id;
          TrimmedAmplifier._readout_transform := rt;
          TrimmedAmplifier._horizontal_overscan_is_at_min := ho;
          TrimmedAmplifier._vertical_overscan_is_at_min := vo;
          TrimmedAmplifier._horizontal_prescan_is_at_min := hp;
          TrimmedAmplifier._physical_transform := pt |}.
Proof.
  intros Hb Hp. unfold TrimmedAmplifier.init. rewrite Hb. cbn [rbind].
  rewrite Hp, box_eqb_refl. reflexivity.
Qed.

Lemma untrimmed_init_ok full id rt db dpb hob vob hpb rdt a :
  UntrimmedAmplifier.init full id rt db dpb hob vob hpb rdt = Ok a ->
  a = {| UntrimmedAmplifier._full := full;
         UntrimmedAmplifier._amplifier_id := id;
         UntrimmedAmplifier._readout_transform := rt;
         UntrimmedAmplifier._data_bbox := db;
         UntrimmedAmplifier._data_physical_bbox := dpb;
         UntrimmedAmplifier._horizontal_overscan_bbox := hob;
         UntrimmedAmplifier._vertical_overscan_bbox := vob;
         UntrimmedAmplifier._horizontal_prescan_bbox := hpb;
         UntrimmedAmplifier._raw_detector_transform := rdt |}
  /\ ImgSec.bbox full = Ok (input_bbox rt)
  /\ input_bbox rdt = input_bbox rt
  /\ contains (input_bbox rt) db = true.
Proof.
  unfold UntrimmedAmplifier.init. intros H.
  destruct (ImgSec.bbox full) as [b|] eqn:Eb; cbn [rbind] in H; [|discriminate].
  destruct (box_eqb (input_bbox rt) b) eqn:E1; cbn [rbind assert_] in H; [|discriminate].
  destruct (box_eqb (input_bbox rdt) b) eqn:E2; cbn [rbind assert_] in H; [|discriminate].
  destruct (contains b db) eqn:E3; cbn [rbind assert_] in H; [|discriminate].
  apply box_eqb_eq in E1, E2. inversion H. subst. auto.
Qed.

Lemma untrimmed_init_of_invariant full id rt db dpb hob vob hpb rdt :
  ImgSec.bbox full = Ok (input_bbox rt) -> input_bbox rdt = input_bbox rt ->
  contains (input_bbox rt) db = true ->
  UntrimmedAmplifier.init full id rt db dpb hob vob hpb rdt
  = Ok {| UntrimmedAmplifier._full := full;
          UntrimmedAmplifier._amplifier_id := id;
          UntrimmedAmplifier._readout_transform := rt;
          UntrimmedAmplifier._data_bbox := db;
          UntrimmedAmplifier._data_physical_bbox := dpb;
          UntrimmedAmplifier._horizontal_overscan_bbox := hob;
          UntrimmedAmplifier._vertical_overscan_bbox := vob;
          UntrimmedAmplifier._horizontal_prescan_bbox := hpb;
          UntrimmedAmplifier._raw_detector_transform := rdt |}.
Proof.
  intros Hb Hp Hc. unfold UntrimmedAmplifier.init. rewrite Hb. cbn [rbind].
  rewrite Hp, box_eqb_refl, Hc. reflexivity.
Qed.

Lemma make_identity_ok (b : Box2I) (t : ImageSectionTransform) :
  Transform.make_identity b = Ok t ->
  t = {| input_bbox := b; output_bbox := b; flip_x := false; flip_y := false |}.
Proof. unfold Transform.make_identity. intros H. now apply new_ok in H as [-> _]. Qed.

Lemma after_ok (t u r : ImageSectionTransform) :
  Transform.after t u = Ok r ->
  r = {| input_bbox := input_bbox u; output_bbox := output_bbox t;
         flip_x := xorb (flip_x t) (flip_x u); flip_y := xorb (flip_y t) (flip_y u) |}.
Proof. unfold Transform.after. intros H. now apply new_ok in H as [-> _]. Qed.

(** The three coordinate changes return only when the transform they
    apply leaves the box where it is (it may still flip it); the
    amplifier returned then has the identity as that transform, and the
    other transform composed with the one applied. *)
Theorem coordinate_change_in_place :
  (forall a allow_view h a' h',
     trimmed_invariant a -> constructed (TrimmedAmplifier.physical_transform a) ->
     TrimmedAmplifier.into_physical_coordinates a allow_view h = Ok (a', h') ->
     output_bbox (TrimmedAmplifier.physical_transform a)
     = input_bbox (TrimmedAmplifier.physical_transform a)
     /\ Transform.is_identity (TrimmedAmplifier.physical_transform a') = true
     /\ Transform.after (TrimmedAmplifier.readout_transform a)
          (TrimmedAmplifier.physical_transform a)
        = Ok (TrimmedAmplifier.readout_transform a'))
  /\ (forall a allow_view h a' h',
        untrimmed_invariant a ->
        constructed (UntrimmedAmplifier.raw_detector_transform a) ->
        UntrimmedAmplifier.into_raw_detector_coordinates a allow_view h = Ok (a', h') ->
        output_bbox (UntrimmedAmplifier.raw_detector_transform a)
        = input_bbox (UntrimmedAmplifier.raw_detector_transform a)
        /\ Transform.is_identity (UntrimmedAmplifier.raw_detector_transform a') = true
        /\ Transform.after (UntrimmedAmplifier.readout_transform a)
             (UntrimmedAmplifier.raw_detector_transform a)
           = Ok (UntrimmedAmplifier.readout_transform a'))
  /\ (forall a allow_view h a' h',
        untrimmed_invariant a ->
        constructed (UntrimmedAmplifier.readout_transform a) ->
        UntrimmedAmplifier.into_readout_coordinates a allow_view h = Ok (a', h') ->
        output_bbox (UntrimmedAmplifier.readout_transform a)
        = input_bbox (UntrimmedAmplifier.readout_transform a)
        /\ Transform.is_identity (UntrimmedAmplifier.readout_transform a') = true
        /\ Transform.after (UntrimmedAmplifier.raw_detector_transform a)
             (UntrimmedAmplifier.readout_transform a)
           = Ok (UntrimmedAmplifier.raw_detector_transform a')).
Proof.
  split; [|split].
  - intros a v h a' h' (b & Hb & Hr & Hp) Hc H.
    unfold TrimmedAmplifier.data, TrimmedAmplifier.readout_transform,
      TrimmedAmplifier.physical_transform in *.
    destruct (apply_transform_returns (TrimmedAmplifier._data a)
                (TrimmedAmplifier._physical_transform a) v h)
      as (s' & h1 & Ea & Hs'); [now rewrite Hp|exact Hc|].
    unfold TrimmedAmplifier.into_physical_coordinates in H. unfold bind at 1 in H.
    rewrite Ea in H. apply lift_heap in H as [H _].
    destruct (Transform.after _ _) as [rt|] eqn:Ert; cbn [rbind] in H; [|discriminate].
    rewrite Hs' in H. cbn [rbind] in H.
    destruct (Transform.make_identity _) as [pt|] eqn:Ept; cbn [rbind] in H; [|discriminate].
    apply trimmed_init_ok in H as (-> & Hd & Hi). cbn.
    apply make_identity_ok in Ept. pose proof (after_ok _ _ _ Ert) as Hrt.
    rewrite Hs' in Hd. injection Hd as Hd.
    split; [subst rt; exact Hd|].
    split; [subst pt; unfold Transform.is_identity; cbn; apply box_eqb_refl|reflexivity].
  - intros a v h a' h' (b & Hb & Hr & Hp & _) Hc H.
    unfold UntrimmedAmplifier.full, UntrimmedAmplifier.readout_transform,
      UntrimmedAmplifier.raw_detector_transform in *.
    destruct (apply_transform_returns (UntrimmedAmplifier._full a)
                (UntrimmedAmplifier._raw_detector_transform a) v h)
      as (s' & h1 & Ea & Hs'); [now rewrite Hp|exact Hc|].
    unfold UntrimmedAmplifier.into_raw_detector_coordinates in H. unfold bind at 1 in H.
    unfold UntrimmedAmplifier.raw_detector_transform in H.
    rewrite Ea in H. apply lift_heap in H as [H _].
    destruct (Transform.after _ _) as [rt|] eqn:Ert; cbn [rbind] in H; [|discriminate].
    repeat (destruct (UntrimmedAmplifier.mapped _ _); cbn [rbind] in H; [|discriminate]).
    rewrite Hs' in H. cbn [rbind] in H.
    destruct (Transform.make_identity _) as [pt|] eqn:Ept; cbn [rbind] in H; [|discriminate].
    apply untrimmed_init_ok in H as (-> & Hd & Hi & _). cbn.
    apply make_identity_ok in Ept. pose proof (after_ok _ _ _ Ert) as Hrt.
    rewrite Hs' in Hd. injection Hd as Hd.
    split; [subst rt; exact Hd|].
    split; [subst pt; unfold Transform.is_identity; cbn; apply box_eqb_refl|reflexivity].
  - intros a v h a' h' (b & Hb & Hr & Hp & _) Hc H.
    unfold UntrimmedAmplifier.full, UntrimmedAmplifier.readout_transform,
      UntrimmedAmplifier.raw_detector_transform in *.
    destruct (apply_transform_returns (UntrimmedAmplifier._full a)
                (UntrimmedAmplifier._readout_transform a) v h)
      as (s' & h1 & Ea & Hs'); [now rewrite Hr|exact Hc|].
    unfold UntrimmedAmplifier.into_readout_coordinates in H. unfold bind at 1 in H.
    rewrite Ea in H. apply lift_heap in H as [H _].
    rewrite Hs' in H. cbn [rbind] in H.
    destruct (Transform.make_identity _) as [rt|] eqn:Ert; cbn [rbind] in H; [|discriminate].
    repeat (destruct (UntrimmedAmplifier.mapped _ _); cbn [rbind] in H; [|discriminate]).
    unfold UntrimmedAmplifier.raw_detector_transform in H.
    destruct (Transform.after _ _) as [rdt|] eqn:Erdt; cbn [rbind] in H; [|discriminate].
    apply untrimmed_init_ok in H as (-> & Hd & Hi & _). cbn.
    apply make_identity_ok in Ert. pose proof (after_ok _ _ _ Erdt) as Hrdt.
    subst rt rdt. cbn in Hi.
    split; [now rewrite Hi|].
    split; [unfold Transform.is_identity; cbn; apply box_eqb_refl|reflexivity].
Qed.

Lemma framed_2_invariant : untrimmed_invariant Examples.framed_2.
Proof. exists (box 15 0 29 21). repeat split; reflexivity. Qed.

Lemma coordinate_change_in_place_witness :
  exists a' h',
    UntrimmedAmplifier.into_raw_detector_coordinates Examples.framed_2 true
      (Examples.heap 2) = Ok (a', h')
    /\ output_bbox (UntrimmedAmplifier.raw_detector_transform Examples.framed_2)
       = input_bbox (UntrimmedAmplifier.raw_detector_transform Examples.framed_2)
    /\ Transform.is_identity (UntrimmedAmplifier.raw_detector_transform a') = true.
Proof.
  destruct (UntrimmedAmplifier.into_raw_detector_coordinates Examples.framed_2 true
              (Examples.heap 2)) as [[a' h']|e] eqn:E;
    [|vm_compute in E; discriminate E].
  exists a', h'. split; [reflexivity|].
  destruct (proj1 (proj2 coordinate_change_in_place) Examples.framed_2 true
              (Examples.heap 2) a' h' framed_2_invariant eq_refl E) as (H1 & H2 & _).
  split; assumption.
Defined.

(** [without_images] on an amplifier that satisfies its invariant always
    returns; the result holds no image, has the same box, transforms,
    identifier and flags (or boxes), and is left unchanged by a second
    call. *)
Theorem without_images_keeps_geometry :
  (forall a, trimmed_invariant a ->
     exists a', TrimmedAmplifier.without_images a = Ok a'
       /\ ImgSec.image (TrimmedAmplifier.data a') = PyNone
       /\ ImgSec.bbox (TrimmedAmplifier.data a') = ImgSec.bbox (TrimmedAmplifier.data a)
       /\ a' = {| TrimmedAmplifier._data := TrimmedAmplifier._data a';
                  TrimmedAmplifier._amplifier_id := TrimmedAmplifier._amplifier_id a;
                  TrimmedAmplifier._readout_transform :=
                    TrimmedAmplifier._readout_transform a;
                  TrimmedAmplifier._horizontal_overscan_is_at_min :=
                    TrimmedAmplifier._horizontal_overscan_is_at_min a;
                  TrimmedAmplifier._vertical_overscan_is_at_min :=
                    TrimmedAmplifier._vertical_overscan_is_at_min a;
                  TrimmedAmplifier._horizontal_prescan_is_at_min :=
                    TrimmedAmplifier._horizontal_prescan_is_at_min a;
                  TrimmedAmplifier._physical_transform :=
                    TrimmedAmplifier._physical_transform a |}
       /\ TrimmedAmplifier.without_images a' = Ok a')
  /\ (forall a, untrimmed_invariant a ->
        exists a', UntrimmedAmplifier.without_images a = Ok a'
          /\ ImgSec.image (UntrimmedAmplifier.full a') = PyNone
          /\ ImgSec.bbox (UntrimmedAmplifier.full a')
             = ImgSec.bbox (UntrimmedAmplifier.full a)
          /\ a' = {| UntrimmedAmplifier._full := UntrimmedAmplifier._full a';
                     UntrimmedAmplifier._amplifier_id := UntrimmedAmplifier._amplifier_id a;
                     UntrimmedAmplifier._readout_transform :=
                       UntrimmedAmplifier._readout_transform a;
                     UntrimmedAmplifier._data_bbox := UntrimmedAmplifier._data_bbox a;
                     UntrimmedAmplifier._data_physical_bbox :=
                       UntrimmedAmplifier._data_physical_bbox a;
                     UntrimmedAmplifier._horizontal_overscan_bbox :=
                       UntrimmedAmplifier._horizontal_overscan_bbox a;
                     UntrimmedAmplifier._vertical_overscan_bbox :=
                       UntrimmedAmplifier._vertical_overscan_bbox a;
                     UntrimmedAmplifier._horizontal_prescan_bbox :=
                       UntrimmedAmplifier._horizontal_prescan_bbox a;
                     UntrimmedAmplifier._raw_detector_transform :=
                       UntrimmedAmplifier._raw_detector_transform a |}
          /\ UntrimmedAmplifier.without_images a' = Ok a').
Proof.
  split.
  - intros a (b & Hb & Hr & Hp).
    unfold TrimmedAmplifier.data, TrimmedAmplifier.readout_transform,
      TrimmedAmplifier.physical_transform in *.
    unfold TrimmedAmplifier.without_images.
    destruct (ImgSec.image (TrimmedAmplifier._data a)) eqn:Ei.
    1: { exists a. rewrite Ei. repeat split; try assumption. now destruct a. }
    all: unfold ImgSec.without_image; rewrite Hb; cbn [rbind];
      unfold TrimmedAmplifier.amplifier_id;
      rewrite trimmed_init_of_invariant by (cbn [ImgSec.bbox]; congruence);
      eexists; split; [reflexivity|]; cbn;
      repeat split; try reflexivity; congruence.
  - intros a (b & Hb & Hr & Hp & Hc).
    unfold UntrimmedAmplifier.full, UntrimmedAmplifier.readout_transform,
      UntrimmedAmplifier.raw_detector_transform in *.
    unfold UntrimmedAmplifier.without_images.
    destruct (ImgSec.image (UntrimmedAmplifier._full a)) eqn:Ei.
    1: { exists a. rewrite Ei. repeat split; try assumption. now destruct a. }
    all: unfold ImgSec.without_image; rewrite Hb; cbn [rbind];
      unfold UntrimmedAmplifier.amplifier_id;
      rewrite untrimmed_init_of_invariant
        by (cbn [ImgSec.bbox]; congruence);
      eexists; split; [reflexivity|]; cbn;
      repeat split; try reflexivity; congruence.
Qed.

Lemma without_images_keeps_geometry_witness :
  exists a', UntrimmedAmplifier.without_images Examples.framed_2 = Ok a'
    /\ ImgSec.image (UntrimmedAmplifier.full a') = PyNone
    /\ ImgSec.bbox (UntrimmedAmplifier.full a') = Ok (box 15 0 29 21)
    /\ UntrimmedAmplifier.without_images a' = Ok a'.
Proof.
  destruct (proj2 without_images_keeps_geometry Examples.framed_2 framed_2_invariant)
    as (a' & H1 & H2 & H3 & _ & H5).
  exists a'. repeat split; assumption.
Defined.

Lemma for_subimage_empty_raises (t : ImageSectionTransform) :
  Transform.for_subimage t EmptyBox = Raise ValueError.
Proof.
  unfold Transform.for_subimage.
  destruct (flip_x t), (flip_y t); cbv zeta;
    unfold Box2I_min_max;
    repeat match goal with
           | |- context [axis_min_max ?a ?b] => destruct (axis_min_max a b)
           end;
    reflexivity.
Qed.

Lemma boundary_flag (v lo hi : Z) :
  v = lo \/ v = hi -> (if v =? lo then lo else hi) = v.
Proof. intros H. destruct (Z.eqb_spec v lo); destruct H; congruence. Qed.

(** The trimmed view of an untrimmed amplifier, when it can be built:
    it keeps the identifier, its data section has the box [data_bbox]
    (which is then not empty), its physical transform leads to
    [data_physical_bbox] with the flips of the raw-detector transform, and
    its three boundary accessors report the same edges as those of the
    untrimmed amplifier. *)
Theorem trimmed_view_consistent (u : UntrimmedAmplifier.t) (a : TrimmedAmplifier.t) :
  UntrimmedAmplifier.trimmed_view u = Ok a ->
  TrimmedAmplifier.amplifier_id a = UntrimmedAmplifier.amplifier_id u
  /\ ImgSec.bbox (TrimmedAmplifier.data a) = Ok (UntrimmedAmplifier._data_bbox u)
  /\ isEmpty (UntrimmedAmplifier._data_bbox u) = false
  /\ output_bbox (TrimmedAmplifier.physical_transform a)
     = UntrimmedAmplifier._data_physical_bbox u
  /\ flip_x (TrimmedAmplifier.physical_transform a)
     = flip_x (UntrimmedAmplifier.raw_detector_transform u)
  /\ flip_y (TrimmedAmplifier.physical_transform a)
     = flip_y (UntrimmedAmplifier.raw_detector_transform u)
  /\ TrimmedAmplifier.horizontal_overscan_boundary a
     = UntrimmedAmplifier.horizontal_overscan_boundary u
  /\ TrimmedAmplifier.vertical_overscan_boundary a
     = UntrimmedAmplifier.vertical_overscan_boundary u
  /\ TrimmedAmplifier.horizontal_prescan_boundary a
     = UntrimmedAmplifier.horizontal_prescan_boundary u.
Proof.
  unfold UntrimmedAmplifier.trimmed_view. intros H.
  destruct (UntrimmedAmplifier.data u) as [d|]; cbn [rbind] in H; [|discriminate].
  destruct (Transform.for_subimage _ _) as [rt|] eqn:Ert; cbn [rbind] in H; [|discriminate].
  destruct (UntrimmedAmplifier.horizontal_overscan_boundary u) as [hob|] eqn:Eh;
    cbn [rbind] in H; [|discriminate].
  destruct (UntrimmedAmplifier.vertical_overscan_boundary u) as [vob|] eqn:Ev;
    cbn [rbind] in H; [|discriminate].
  destruct (UntrimmedAmplifier.horizontal_prescan_boundary u) as [hpb|] eqn:Ep;
    cbn [rbind] in H; [|discriminate].
  destruct (Transform.new _ _ _ _) as [pt|] eqn:Ept; cbn [rbind] in H; [|discriminate].
  apply trimmed_init_ok in H as (-> & Hd & Hi).
  apply new_ok in Ept as [-> _].
  assert (Hne : isEmpty (UntrimmedAmplifier._data_bbox u) = false).
  { destruct (UntrimmedAmplifier._data_bbox u); [|reflexivity].
    rewrite for_subimage_empty_raises in Ert. discriminate. }
  assert (Hrt : input_bbox rt = UntrimmedAmplifier._data_bbox u).
  { unfold Transform.for_subimage in Ert.
    destruct (flip_x _), (flip_y _); cbv zeta in Ert; now apply new_ok in Ert as [-> _]. }
  rewrite Hrt in Hd.
  unfold TrimmedAmplifier.horizontal_overscan_boundary,
    TrimmedAmplifier.vertical_overscan_boundary,
    TrimmedAmplifier.horizontal_prescan_boundary, TrimmedAmplifier.data,
    TrimmedAmplifier.physical_transform, TrimmedAmplifier.amplifier_id.
  cbn [TrimmedAmplifier._data TrimmedAmplifier._amplifier_id
       TrimmedAmplifier._physical_transform
       TrimmedAmplifier._horizontal_overscan_is_at_min
       TrimmedAmplifier._vertical_overscan_is_at_min
       TrimmedAmplifier._horizontal_prescan_is_at_min
       output_bbox flip_x flip_y].
  rewrite Hd. cbn [rbind].
  repeat split; try reflexivity; try assumption; f_equal; apply boundary_flag.
  - unfold UntrimmedAmplifier.horizontal_overscan_boundary in Eh.
    destruct (_ <? _); [left; now injection Eh|].
    destruct (_ <? _); cbn in Eh; [right; now injection Eh|discriminate].
  - unfold UntrimmedAmplifier.vertical_overscan_boundary in Ev.
    destruct (_ <? _); [left; now injection Ev|].
    destruct (_ <? _); cbn in Ev; [right; now injection Ev|discriminate].
  - unfold UntrimmedAmplifier.horizontal_prescan_boundary in Ep.
    destruct (_ <? _); [left; now injection Ep|].
    destruct (_ <? _); cbn in Ep; [right; now injection Ep|discriminate].
Qed.

Lemma trimmed_view_consistent_witness :
  exists a, UntrimmedAmplifier.trimmed_view Examples.framed_2 = Ok a
    /\ ImgSec.bbox (TrimmedAmplifier.data a) = Ok (box 17 0 26 19)
    /\ TrimmedAmplifier.horizontal_overscan_boundary a = Ok 26
    /\ TrimmedAmplifier.horizontal_prescan_boundary a = Ok 17.
Proof.
  destruct (UntrimmedAmplifier.trimmed_view Examples.framed_2) as [a|e] eqn:E;
    [|vm_compute in E; discriminate E].
  exists a. split; [reflexivity|].
  destruct (trimmed_view_consistent Examples.framed_2 a E)
    as (_ & H2 & _ & _ & _ & _ & H7 & _ & H9).
  split; [exact H2|]. split; [rewrite H7|rewrite H9]; reflexivity.
Defined.

(** ** Amplifier sets as dictionaries *)

Lemma dict_get_set {V} (k k' : Z) (v : V) (d : list (Z * V)) :
  Dict.get k (Dict.set k' v d) = if k =? k' then Some v else Dict.get k d.
Proof.
  induction d as [|[k0 v0] d IH]; cbn [Dict.set Dict.get].
  - reflexivity.
  - destruct (Z.eqb_spec k' k0) as [->|Hne]; cbn [Dict.get].
    + destruct (k =? k0); reflexivity.
    + rewrite IH. destruct (Z.eqb_spec k k'), (Z.eqb_spec k k0); congruence.
Qed.

Lemma dict_set_keys {V} (k : Z) (v : V) (d : list (Z * V)) :
  map fst (Dict.set k v d)
  = if existsb (Z.eqb k) (map fst d) then map fst d else map fst d ++ [k].
Proof.
  induction d as [|[k0 v0] d IH]; cbn [Dict.set map fst existsb app].
  - reflexivity.
  - destruct (Z.eqb_spec k k0) as [->|Hne]; cbn [map fst orb].
    + reflexivity.
    + rewrite IH. destruct (existsb _ _); reflexivity.
Qed.

Lemma existsb_eqb_In (k : Z) (l : list Z) :
  existsb (Z.eqb k) l = true <-> In k l.
Proof.
  rewrite existsb_exists. split.
  - intros (x & Hx & E). apply Z.eqb_eq in E. now subst.
  - intros H. exists k. split; [assumption|apply Z.eqb_refl].
Qed.

Lemma dict_set_nodup {V} (k : Z) (v : V) (d : list (Z * V)) :
  NoDup (map fst d) -> NoDup (map fst (Dict.set k v d)).
Proof.
  intros H. rewrite dict_set_keys.
  destruct (existsb _ _) eqn:E; [assumption|].
  apply NoDup_app; [assumption|repeat constructor; intros []|].
  intros x Hx [<-|[]]. apply existsb_eqb_In in Hx. congruence.
Qed.

Lemma dict_set_fresh {V} (k : Z) (v : V) (d : list (Z * V)) :
  ~ In k (map fst d) -> Dict.set k v d = d ++ [(k, v)].
Proof.
  induction d as [|[k0 v0] d IH]; cbn [Dict.set map fst app In]; intros H.
  - reflexivity.
  - destruct (Z.eqb_spec k k0) as [->|Hne]; [tauto|].
    rewrite IH by tauto. reflexivity.
Qed.

Lemma dict_set_entries {V} (key : V -> Z) (v : V) (d : list (Z * V)) (P : V -> Prop) :
  P v ->
  (forall k' v', In (k', v') d -> k' = key v' /\ P v') ->
  forall k' v', In (k', v') (Dict.set (key v) v d) -> k' = key v' /\ P v'.
Proof.
  intros Hv. induction d as [|[k0 v0] d IH]; cbn [Dict.set]; intros Hd k' v' Hin.
  - destruct Hin as [E|[]]. injection E as <- <-. auto.
  - destruct (key v =? k0).
    + destruct Hin as [E|Hin]; [injection E as <- <-; auto|].
      apply Hd. now right.
    + destruct Hin as [E|Hin]; [apply Hd; now left|].
      apply IH; [|assumption]. intros; apply Hd; now right.
Qed.

Lemma dict_set_length {V} (k : Z) (v : V) (d : list (Z * V)) :
  (List.length (Dict.set k v d) <= S (List.length d))%nat.
Proof.
  induction d as [|[k0 v0] d IH]; cbn [Dict.set List.length]; [lia|].
  destruct (k =? k0); cbn [List.length]; lia.
Qed.

Lemma find_append {A} (f : A -> bool) (l1 l2 : list A) :
  find f (l1 ++ l2)
  = match find f l1 with Some x => Some x | None => find f l2 end.
Proof.
  induction l1 as [|a l1 IH]; cbn [app find]; [reflexivity|].
  destruct (f a); [reflexivity|exact IH].
Qed.

Section OfList.

Context {V : Type} (key : V -> Z).

Lemma fold_set_get (k : Z) (l : list V) (d : list (Z * V)) :
  Dict.get k (fold_left (fun d v => Dict.set (key v) v d) l d)
  = match find (fun v => key v =? k) (rev l) with
    | Some v => Some v
    | None => Dict.get k d
    end.
Proof.
  revert d. induction l as [|a l IH]; intros d; cbn [fold_left rev].
  - reflexivity.
  - rewrite IH. rewrite dict_get_set.
    rewrite find_append. destruct (find _ (rev l)); [reflexivity|].
    cbn [find]. rewrite (Z.eqb_sym (key a) k). destruct (k =? key a); reflexivity.
Qed.

Lemma fold_set_nodup (l : list V) (d : list (Z * V)) :
  NoDup (map fst d) -> NoDup (map fst (fold_left (fun d v => Dict.set (key v) v d) l d)).
Proof.
  revert d. induction l as [|a l IH]; intros d H; cbn [fold_left]; [assumption|].
  apply IH. now apply dict_set_nodup.
Qed.

Lemma fold_set_entries (l : list V) (d : list (Z * V)) (P : V -> Prop) :
  (forall v, In v l -> P v) ->
  (forall k v, In (k, v) d -> k = key v /\ P v) ->
  forall k v, In (k, v) (fold_left (fun d v => Dict.set (key v) v d) l d) -> k = key v /\ P v.
Proof.
  revert d. induction l as [|a l IH]; intros d Hl Hd; cbn [fold_left]; [assumption|].
  apply IH.
  - intros; apply Hl; now right.
  - apply dict_set_entries; [apply Hl; now left|assumption].
Qed.

Lemma fold_set_length (l : list V) (d : list (Z * V)) :
  (List.length (fold_left (fun d v => Dict.set (key v) v d) l d) <= List.length d + List.length l)%nat.
Proof.
  revert d. induction l as [|a l IH]; intros d; cbn [fold_left List.length]; [lia|].
  specialize (IH (Dict.set (key a) a d)). pose proof (dict_set_length (key a) a d).
  lia.
Qed.

Lemma fold_set_distinct (l : list V) (d : list (Z * V)) :
  NoDup (map fst d ++ map key l) ->
  fold_left (fun d v => Dict.set (key v) v d) l d = d ++ map (fun v => (key v, v)) l.
Proof.
  revert d. induction l as [|a l IH]; intros d H; cbn [fold_left map].
  - now rewrite app_nil_r.
  - rewrite dict_set_fresh.
    + rewrite IH.
      * now rewrite <- app_assoc.
      * rewrite map_app. cbn [map fst]. now rewrite <- app_assoc.
    + cbn [map] in H. apply NoDup_remove_2 in H. intros Hin. apply H.
      apply in_or_app. now left.
Qed.

End OfList.

(** What the dictionary built by a set constructor holds. *)
Lemma dict_of_list_spec {V} (key : V -> Z) (l : list V) :
  (forall k, Dict.get k (Dict.of_list key l) = find (fun v => key v =? k) (rev l))
  /\ NoDup (map key (Dict.values (Dict.of_list key l)))
  /\ (forall v, In v (Dict.values (Dict.of_list key l)) ->
        Dict.get (key v) (Dict.of_list key l) = Some v /\ In v l)
  /\ (List.length (Dict.of_list key l) <= List.length l)%nat
  /\ (NoDup (map key l) -> Dict.values (Dict.of_list key l) = l).
Proof.
  unfold Dict.of_list, Dict.values.
  assert (Hent : forall k v,
             In (k, v) (fold_left (fun d v => Dict.set (key v) v d) l []) ->
             k = key v /\ In v l).
  { apply (fold_set_entries key l [] (fun v => In v l)); [auto|intros ? ? []]. }
  assert (Hnd : NoDup (map fst (fold_left (fun d v => Dict.set (key v) v d) l []))).
  { apply (fold_set_nodup key). constructor. }
  assert (Hkeys : map key (map snd (fold_left (fun d v => Dict.set (key v) v d) l []))
                  = map fst (fold_left (fun d v => Dict.set (key v) v d) l [])).
  { rewrite map_map. apply map_ext_in. intros [k v] Hin.
    apply Hent in Hin as [-> _]. reflexivity. }
  split; [|split; [|split; [|split]]].
  - intros k. rewrite (fold_set_get key). now destruct (find _ _).
  - now rewrite Hkeys.
  - intros v Hin. apply in_map_iff in Hin as ([k v'] & E & Hin). cbn in E. subst v'.
    destruct (Hent _ _ Hin) as [-> Hl]. split; [|assumption].
    clear Hent Hkeys. revert Hnd Hin.
    generalize (fold_left (fun d v => Dict.set (key v) v d) l []).
    induction l0 as [|[k0 v0] d IH]; cbn [map fst In Dict.get]; [tauto|].
    intros Hnd [E|Hin].
    + injection E as -> ->. now rewrite Z.eqb_refl.
    + inversion Hnd as [|? ? Hnot Hnd']; subst.
      destruct (Z.eqb_spec (key v) k0) as [<-|_].
      * exfalso. apply Hnot. apply in_map_iff. now exists (key v, v).
      * now apply IH.
  - apply (fold_set_length key l []).
  - intros H. rewrite (fold_set_distinct key) by exact H.
    cbn [app]. rewrite map_map. cbn [snd]. apply map_id.
Qed.

(** Building an unassembled set from a list of amplifiers: [s[k]] is the
    last amplifier of the list whose identifier is [k] (no entry when
    there is none); the members have pairwise different identifiers, each
    member is one of the amplifiers given and is what its own identifier
    looks up; the set is no longer than the list, and when the
    identifiers in the list are pairwise different the set iterates over
    exactly that list, in order.  The same holds for both unassembled
    set classes. *)
Theorem set_lookup_last_wins :
  (forall (amps : list TrimmedAmplifier.t) (c : bool) (o : ObservationInfo),
     let s := UnassembledTrimmedAmplifierSet.init amps c o in
     (forall k, UnassembledTrimmedAmplifierSet.getitem s k
                = find (fun a => TrimmedAmplifier.amplifier_id a =? k) (rev amps))
     /\ NoDup (map TrimmedAmplifier.amplifier_id (UnassembledTrimmedAmplifierSet.values s))
     /\ (forall a, In a (UnassembledTrimmedAmplifierSet.values s) ->
           UnassembledTrimmedAmplifierSet.getitem s (TrimmedAmplifier.amplifier_id a) = Some a
           /\ In a amps)
     /\ (UnassembledTrimmedAmplifierSet.len s <= List.length amps)%nat
     /\ (NoDup (map TrimmedAmplifier.amplifier_id amps) ->
         UnassembledTrimmedAmplifierSet.values s = amps))
  /\ (forall (amps : list UntrimmedAmplifier.t) (c : bool) (o : ObservationInfo),
        let s := UnassembledUntrimmedAmplifierSet.init amps c o in
        (forall k, UnassembledUntrimmedAmplifierSet.getitem s k
                   = find (fun a => UntrimmedAmplifier.amplifier_id a =? k) (rev amps))
        /\ NoDup (map UntrimmedAmplifier.amplifier_id
                      (UnassembledUntrimmedAmplifierSet.values s))
        /\ (forall a, In a (UnassembledUntrimmedAmplifierSet.values s) ->
              UnassembledUntrimmedAmplifierSet.getitem s (UntrimmedAmplifier.amplifier_id a)
              = Some a
              /\ In a amps)
        /\ (UnassembledUntrimmedAmplifierSet.len s <= List.length amps)%nat
        /\ (NoDup (map UntrimmedAmplifier.amplifier_id amps) ->
            UnassembledUntrimmedAmplifierSet.values s = amps)).
Proof.
  split; intros amps c o s.
  - exact (dict_of_list_spec TrimmedAmplifier.amplifier_id amps).
  - exact (dict_of_list_spec UntrimmedAmplifier.amplifier_id amps).
Qed.

Lemma set_lookup_last_wins_witness :
  exists a, Examples.box_only_trimmed = Ok a
    /\ NoDup (map TrimmedAmplifier.amplifier_id [a])
    /\ UnassembledTrimmedAmplifierSet.values
         (UnassembledTrimmedAmplifierSet.init [a] true None) = [a].
Proof.
  destruct Examples.box_only_trimmed as [a|e] eqn:E; [|vm_compute in E; discriminate E].
  exists a. split; [reflexivity|].
  assert (Hnd : NoDup (map TrimmedAmplifier.amplifier_id [a])).
  { repeat constructor. intros []. }
  split; [exact Hnd|].
  destruct (proj1 set_lookup_last_wins [a] true None) as (_ & _ & _ & _ & H).
  exact (H Hnd).
Defined.

(** ** Array-backed untrimmed amplifiers *)

Lemma mapR_ok_all {A B} (f : A -> Res B) (l : list A) (bs : list B) :
  mapR f l = Ok bs -> forall a, In a l -> exists b, f a = Ok b /\ In b bs.
Proof.
  revert bs. induction l as [|x l IH]; intros bs H a Hin; [destruct Hin|].
  cbn [mapR] in H.
  destruct (f x) as [b|] eqn:Ex; cbn [rbind] in H; [|discriminate].
  destruct (mapR f l) as [bs'|] eqn:El; cbn [rbind] in H; [|discriminate].
  injection H as <-. destruct Hin as [<-|Hin].
  - exists b. split; [assumption|now left].
  - destruct (IH _ eq_refl a Hin) as (b' & Hb & Hin'). exists b'. split; [assumption|now right].
Qed.

Lemma mapM_ok_all {A B} (f : A -> M B) (l : list A) (h : Heap) (bs : list B) (h' : Heap) :
  mapM f l h = Ok (bs, h') ->
  forall a, In a l -> exists h1 b h2, f a h1 = Ok (b, h2) /\ In b bs.
Proof.
  revert h bs. induction l as [|x l IH]; intros h bs H a Hin; [destruct Hin|].
  cbn [mapM] in H. unfold bind at 1 in H.
  destruct (f x h) as [[b h1]|] eqn:Ex; [|discriminate].
  unfold bind at 1 in H.
  destruct (mapM f l h1) as [[bs' h2]|] eqn:El; [|discriminate].
  injection H as <- <-. destruct Hin as [<-|Hin].
  - exists h, b, h1. split; [assumption|now left].
  - destruct (IH _ _ El a Hin) as (h3 & b' & h4 & Hb & Hin').
    exists h3, b', h4. split; [assumption|now right].
Qed.

Lemma mapM_ok_from {A B} (f : A -> M B) (l : list A) (h : Heap) (bs : list B) (h' : Heap) :
  mapM f l h = Ok (bs, h') ->
  forall b, In b bs -> exists a h1 h2, In a l /\ f a h1 = Ok (b, h2).
Proof.
  revert h bs. induction l as [|x l IH]; intros h bs H b Hin.
  - injection H as <- <-. destruct Hin.
  - cbn [mapM] in H. unfold bind at 1 in H.
    destruct (f x h) as [[b0 h1]|] eqn:Ex; [|discriminate].
    unfold bind at 1 in H.
    destruct (mapM f l h1) as [[bs' h2]|] eqn:El; [|discriminate].
    injection H as <- <-. destruct Hin as [<-|Hin].
    + exists x, h, h1. split; [now left|assumption].
    + destruct (IH _ _ El b Hin) as (a & h3 & h4 & Ha & Hb).
      exists a, h3, h4. split; [now right|assumption].
Qed.

(** The trimmed view of an array-backed untrimmed amplifier cannot be
    built: the [data] sub-image has no usable box. *)
Lemma array_backed_trimmed_view (u : UntrimmedAmplifier.t) :
  array_backed (UntrimmedAmplifier.full u) = true ->
  exists e, UntrimmedAmplifier.trimmed_view u = Raise e.
Proof.
  unfold UntrimmedAmplifier.full, UntrimmedAmplifier.trimmed_view, UntrimmedAmplifier.data.
  destruct (UntrimmedAmplifier._full u) as [b|a [p|bx]|m]; try discriminate; intros _.
  - cbn [ImgSec.subimage rbind].
    destruct (Transform.for_subimage _ _); cbn [rbind]; [|eauto].
    destruct (UntrimmedAmplifier.horizontal_overscan_boundary u); cbn [rbind]; [|eauto].
    destruct (UntrimmedAmplifier.vertical_overscan_boundary u); cbn [rbind]; [|eauto].
    destruct (UntrimmedAmplifier.horizontal_prescan_boundary u); cbn [rbind]; [|eauto].
    destruct (Transform.new _ _ _ _); cbn [rbind]; [|eauto].
    exists TypeError. reflexivity.
  - exists TypeError. reflexivity.
Qed.

(** One round of the untrimmed assembly loop on an array-backed
    amplifier raises, whatever the canvas. *)
Lemma array_backed_assembly_step (detector : ImageSection) (u : UntrimmedAmplifier.t)
    (h : Heap) :
  array_backed (UntrimmedAmplifier.full u) = true ->
  exists e,
    (new_amp <~ UntrimmedAmplifier.into_raw_detector_coordinates u true ;;
     d <~ lift (UntrimmedAmplifier.data new_amp) ;;
     ImgSec.assign detector d ;;~
     ret new_amp)%m h = Raise e.
Proof.
  intros Hu. unfold bind at 1.
  destruct (UntrimmedAmplifier.into_raw_detector_coordinates u true h)
    as [[n h1]|e] eqn:E; [|eauto].
  assert (Hn : exists a p, UntrimmedAmplifier._full n = NumPyImageSection a (MinPoint p)).
  { unfold UntrimmedAmplifier.into_raw_detector_coordinates in E.
    unfold UntrimmedAmplifier.full in Hu.
    destruct (UntrimmedAmplifier._full u) as [b|a m|m]; try discriminate.
    cbn [ImgSec.apply_transform negb] in E. unfold bind at 1 in E.
    unfold bind at 1 in E. unfold ret at 1 in E. unfold ret at 1 in E.
    apply lift_heap in E as [E _].
    repeat match type of E with
           | rbind ?r _ = Ok _ => destruct r; cbn [rbind] in E; [|discriminate E]
           end.
    apply untrimmed_init_ok in E as [-> _]. cbn. eauto. }
  destruct Hn as (a & p & Hn).
  unfold bind at 1. unfold UntrimmedAmplifier.data. rewrite Hn.
  cbn [ImgSec.subimage lift].
  destruct detector as [b|a' m'|m']; unfold bind; cbn; eauto.
Qed.

(** An unassembled untrimmed set with an array-backed member: no trimmed
    view of the member or of the set can be built, and neither
    [assemble_into_trimmed] nor [assemble_into_untrimmed] returns,
    whatever the other members, [allow_view] and the store. *)
Theorem array_backed_untrimmed_never_assembles :
  (forall u, array_backed (UntrimmedAmplifier.full u) = true ->
     exists e, UntrimmedAmplifier.trimmed_view u = Raise e)
  /\ (forall s u allow_view h,
        In u (UnassembledUntrimmedAmplifierSet.values s) ->
        array_backed (UntrimmedAmplifier.full u) = true ->
        (exists e, UnassembledUntrimmedAmplifierSet.trimmed_view s = Raise e)
        /\ (exists e, UnassembledUntrimmedAmplifierSet.assemble_into_trimmed s allow_view h
                      = Raise e)
        /\ (exists e, UnassembledUntrimmedAmplifierSet.assemble_into_untrimmed s allow_view h
                      = Raise e)).
Proof.
  split; [exact array_backed_trimmed_view|].
  intros s u allow_view h Hin Hu.
  assert (Htv : exists e, UnassembledUntrimmedAmplifierSet.trimmed_view s = Raise e).
  { unfold UnassembledUntrimmedAmplifierSet.trimmed_view.
    destruct (mapR _ _) as [amps|e] eqn:E; cbn [rbind]; [|eauto].
    destruct (mapR_ok_all _ _ _ E u Hin) as (b & Hb & _).
    destruct (array_backed_trimmed_view u Hu) as [e He]. congruence. }
  split; [exact Htv|]. split.
  - destruct Htv as [e He]. exists e.
    unfold UnassembledUntrimmedAmplifierSet.assemble_into_trimmed, bind.
    rewrite He. reflexivity.
  - destruct (UnassembledUntrimmedAmplifierSet.assemble_into_untrimmed s allow_view h)
      as [[r h']|e] eqn:E; [|eauto].
    exfalso. unfold UnassembledUntrimmedAmplifierSet.assemble_into_untrimmed in E.
    destruct (negb _ || _); [discriminate|]. cbv zeta in E.
    unfold bind at 1 in E.
    destruct (lift (loop_variable _) h) as [[amp h0]|]; [|discriminate].
    unfold bind at 1 in E.
    destruct (lift (UntrimmedAmplifier.data amp) h0) as [[d h1]|]; [|discriminate].
    unfold bind at 1 in E.
    destruct (ImgSec.make_empty d _ h1) as [[detector h2]|]; [|discriminate].
    unfold bind at 1 in E.
    destruct (mapM _ _ h2) as [[new_amps h3]|] eqn:Em; [|discriminate].
    destruct (mapM_ok_all _ _ _ _ _ Em u Hin) as (hu & b & hu' & Hstep & _).
    destruct (array_backed_assembly_step detector u hu Hu) as [e He].
    rewrite He in Hstep. discriminate.
Qed.

Lemma array_backed_untrimmed_never_assembles_witness :
  exists s u, Examples.numpy_pair = Ok s
    /\ In u (UnassembledUntrimmedAmplifierSet.values s)
    /\ array_backed (UntrimmedAmplifier.full u) = true
    /\ exists e, UnassembledUntrimmedAmplifierSet.assemble_into_untrimmed s false
                   (Examples.heap 2) = Raise e.
Proof.
  destruct Examples.numpy_pair as [s|e] eqn:E; [|vm_compute in E; discriminate E].
  destruct (UnassembledUntrimmedAmplifierSet.values s) as [|u l] eqn:Ev.
  { exfalso. vm_compute in E. injection E as <-. discriminate Ev. }
  assert (Hin : In u (UnassembledUntrimmedAmplifierSet.values s))
    by (rewrite Ev; now left).
  assert (Hu : array_backed (UntrimmedAmplifier.full u) = true).
  { vm_compute in E. injection E as <-. vm_compute in Ev. injection Ev as <- _.
    reflexivity. }
  exists s, u. split; [reflexivity|]. split; [exact Hin|]. split; [exact Hu|].
  exact (proj2 (proj2 (proj2 array_backed_untrimmed_never_assembles s u false
                         (Examples.heap 2) Hin Hu))).
Defined.

(** ** Sets of trimmed amplifiers in readout coordinates *)

(** [UnassembledTrimmedAmplifierSet.into_readout_coordinates] returns
    the set itself when views are allowed and every member's readout
    transform is the identity, and a new empty set when the set has no
    member; in every other case it raises, because the per-amplifier
    call it then makes never returns. *)
Theorem trimmed_set_into_readout_coordinates
    (s : UnassembledTrimmedAmplifierSet.t) (allow_view : bool) (h : Heap) :
  let nothing_to_do :=
    allow_view
    && forallb (fun amp => Transform.is_identity (TrimmedAmplifier.readout_transform amp))
               (UnassembledTrimmedAmplifierSet.values s) in
  (nothing_to_do = true ->
   UnassembledTrimmedAmplifierSet.into_readout_coordinates s allow_view h = Ok (s, h))
  /\ (nothing_to_do = false -> UnassembledTrimmedAmplifierSet.values s = [] ->
      UnassembledTrimmedAmplifierSet.into_readout_coordinates s allow_view h
      = Ok (UnassembledTrimmedAmplifierSet.init []
              (UnassembledTrimmedAmplifierSet.is_complete s)
              (UnassembledTrimmedAmplifierSet.observation_info s), h))
  /\ (nothing_to_do = false -> UnassembledTrimmedAmplifierSet.values s <> [] ->
      exists e,
        UnassembledTrimmedAmplifierSet.into_readout_coordinates s allow_view h = Raise e).
Proof.
  cbv zeta. unfold UnassembledTrimmedAmplifierSet.into_readout_coordinates.
  split; [|split].
  - intros ->. reflexivity.
  - intros -> ->. reflexivity.
  - intros -> Hne.
    destruct (UnassembledTrimmedAmplifierSet.values s) as [|a l]; [congruence|].
    cbn [mapM]. unfold bind at 1. unfold bind at 1.
    unfold TrimmedAmplifier.into_readout_coordinates. unfold bind at 1.
    destruct (ImgSec.apply_transform _ _ _ h) as [[new_data h1]|e]; [|eauto].
    unfold lift. destruct (ImgSec.bbox new_data) as [nb|e]; cbn; eauto.
Qed.

Lemma trimmed_set_into_readout_coordinates_witness :
  exists s, Examples.one_row_pair = Ok s
    /\ UnassembledTrimmedAmplifierSet.into_readout_coordinates s true (Examples.heap 2)
       = Ok (s, Examples.heap 2)
    /\ exists e,
         UnassembledTrimmedAmplifierSet.into_readout_coordinates s false (Examples.heap 2)
         = Raise e.
Proof.
  destruct Examples.one_row_pair as [s|e] eqn:E; [|vm_compute in E; discriminate E].
  exists s. split; [reflexivity|].
  destruct (trimmed_set_into_readout_coordinates s true (Examples.heap 2)) as (H1 & _ & _).
  destruct (trimmed_set_into_readout_coordinates s false (Examples.heap 2)) as (_ & _ & H3).
  split.
  - apply H1. vm_compute in E. injection E as <-. reflexivity.
  - apply H3; [reflexivity|].
    vm_compute in E. injection E as <-. discriminate.
Defined.

(** ** Members of an assembled set *)

Lemma dict_values_from {V} (key : V -> Z) (l : list V) (v : V) :
  In v (Dict.values (Dict.of_list key l)) -> In v l.
Proof. intros H. now apply (dict_of_list_spec key l). Qed.

Lemma make_identity_is_identity (b : Box2I) (t : ImageSectionTransform) :
  Transform.make_identity b = Ok t -> Transform.is_identity t = true.
Proof.
  intros H. apply make_identity_ok in H. subst t.
  unfold Transform.is_identity. cbn [flip_x flip_y input_bbox output_bbox orb negb andb].
  apply box_eqb_refl.
Qed.

(** One round of [AssembledTrimmedAmplifierSet.__init__]. *)
Lemma assembled_trimmed_member (d : ImageSection) (amp a : TrimmedAmplifier.t)
    (h h' : Heap) :
  (amp <~ TrimmedAmplifier.into_physical_coordinates amp true ;;
   lift (b <- ImgSec.bbox (TrimmedAmplifier.data amp) ;;
         sub <- ImgSec.subimage d b ;;
         TrimmedAmplifier.with_new_data_image amp (ImgSec.image sub))%res)%m h
  = Ok (a, h') ->
  TrimmedAmplifier.amplifier_id a = TrimmedAmplifier.amplifier_id amp
  /\ Transform.is_identity (TrimmedAmplifier.physical_transform a) = true
  /\ exists b sub,
       ImgSec.bbox (TrimmedAmplifier.data a) = Ok b
       /\ ImgSec.subimage d b = Ok sub
       /\ ImgSec.image (TrimmedAmplifier.data a) = ImgSec.image sub.
Proof.
  intros H. unfold bind at 1 in H.
  destruct (TrimmedAmplifier.into_physical_coordinates amp true h)
    as [[amp1 h1]|] eqn:E1; [|discriminate].
  apply lift_heap in H as [H _].
  destruct (ImgSec.bbox (TrimmedAmplifier.data amp1)) as [b|] eqn:Eb;
    cbn [rbind] in H; [|discriminate].
  destruct (ImgSec.subimage d b) as [sub|] eqn:Es; cbn [rbind] in H; [|discriminate].
  unfold TrimmedAmplifier.with_new_data_image in H.
  destruct (ImgSec.with_new_image _ _) as [nd|] eqn:En; cbn [rbind] in H; [|discriminate].
  apply with_new_image_ok in En as [Hnb Hni].
  apply trimmed_init_ok in H as (-> & _ & _).
  unfold TrimmedAmplifier.into_physical_coordinates in E1. unfold bind at 1 in E1.
  destruct (ImgSec.apply_transform _ _ _ h) as [[nd1 h2]|]; [|discriminate].
  apply lift_heap in E1 as [E1 _].
  destruct (Transform.after _ _) as [rt|]; cbn [rbind] in E1; [|discriminate].
  destruct (ImgSec.bbox nd1) as [nb|]; cbn [rbind] in E1; [|discriminate].
  destruct (Transform.make_identity nb) as [pt|] eqn:Ept; cbn [rbind] in E1; [|discriminate].
  apply trimmed_init_ok in E1 as (-> & _ & _).
  apply make_identity_is_identity in Ept.
  unfold TrimmedAmplifier.amplifier_id, TrimmedAmplifier.physical_transform,
    TrimmedAmplifier.data in *.
  cbn [TrimmedAmplifier._amplifier_id TrimmedAmplifier._physical_transform
       TrimmedAmplifier._data] in *.
  split; [reflexivity|]. split; [exact Ept|].
  exists b, sub. rewrite Hnb. auto.
Qed.

(** One round of [AssembledUntrimmedAmplifierSet.__init__]. *)
Lemma assembled_untrimmed_member (d : ImageSection) (amp a : UntrimmedAmplifier.t)
    (h h' : Heap) :
  (amp <~ UntrimmedAmplifier.into_raw_detector_coordinates amp true ;;
   lift (b <- ImgSec.bbox (UntrimmedAmplifier.full amp) ;;
         sub <- ImgSec.subimage d b ;;
         UntrimmedAmplifier.with_new_full_image amp (ImgSec.image sub))%res)%m h
  = Ok (a, h') ->
  UntrimmedAmplifier.amplifier_id a = UntrimmedAmplifier.amplifier_id amp
  /\ Transform.is_identity (UntrimmedAmplifier.raw_detector_transform a) = true
  /\ exists b sub,
       ImgSec.bbox (UntrimmedAmplifier.full a) = Ok b
       /\ ImgSec.subimage d b = Ok sub
       /\ ImgSec.image (UntrimmedAmplifier.full a) = ImgSec.image sub.
Proof.
  intros H. unfold bind at 1 in H.
  destruct (UntrimmedAmplifier.into_raw_detector_coordinates amp true h)
    as [[amp1 h1]|] eqn:E1; [|discriminate].
  apply lift_heap in H as [H _].
  destruct (ImgSec.bbox (UntrimmedAmplifier.full amp1)) as [b|] eqn:Eb;
    cbn [rbind] in H; [|discriminate].
  destruct (ImgSec.subimage d b) as [sub|] eqn:Es; cbn [rbind] in H; [|discriminate].
  unfold UntrimmedAmplifier.with_new_full_image in H.
  destruct (ImgSec.with_new_image _ _) as [nd|] eqn:En; cbn [rbind] in H; [|discriminate].
  apply with_new_image_ok in En as [Hnb Hni].
  apply untrimmed_init_ok in H as (-> & _ & _).
  unfold UntrimmedAmplifier.into_raw_detector_coordinates in E1. unfold bind at 1 in E1.
  destruct (ImgSec.apply_transform _ _ _ h) as [[nd1 h2]|]; [|discriminate].
  apply lift_heap in E1 as [E1 _].
  destruct (Transform.after _ _) as [rt|]; cbn [rbind] in E1; [|discriminate].
  repeat match type of E1 with
         | rbind (UntrimmedAmplifier.mapped ?t ?b) _ = Ok _ =>
             destruct (UntrimmedAmplifier.mapped t b); cbn [rbind] in E1; [|discriminate E1]
         end.
  destruct (ImgSec.bbox nd1) as [nb|]; cbn [rbind] in E1; [|discriminate].
  destruct (Transform.make_identity nb) as [pt|] eqn:Ept; cbn [rbind] in E1; [|discriminate].
  apply untrimmed_init_ok in E1 as (-> & _ & _).
  apply make_identity_is_identity in Ept.
  unfold UntrimmedAmplifier.amplifier_id, UntrimmedAmplifier.raw_detector_transform,
    UntrimmedAmplifier.full in *.
  cbn [UntrimmedAmplifier._amplifier_id UntrimmedAmplifier._raw_detector_transform
       UntrimmedAmplifier._full] in *.
  split; [reflexivity|]. split; [exact Ept|].
  exists b, sub. rewrite Hnb. auto.
Qed.

(** Whatever the constructor of an assembled set returns: the detector
    is the one passed in; every member is one of the amplifiers given
    (same identifier), moved to physical (trimmed) or raw-detector
    (untrimmed) coordinates, so that this transform of the member is the
    identity; and the member's section holds the image of the
    detector's sub-image at the member's own box. *)
Theorem assembled_members_are_subimages :
  (forall d l o h r h',
     AssembledTrimmedAmplifierSet.init d l o h = Ok (r, h') ->
     AssembledTrimmedAmplifierSet.detector r = d
     /\ forall a, In a (AssembledTrimmedAmplifierSet.values r) ->
          (exists amp, In amp l
             /\ TrimmedAmplifier.amplifier_id a = TrimmedAmplifier.amplifier_id amp)
          /\ Transform.is_identity (TrimmedAmplifier.physical_transform a) = true
          /\ exists b sub,
               ImgSec.bbox (TrimmedAmplifier.data a) = Ok b
               /\ ImgSec.subimage d b = Ok sub
               /\ ImgSec.image (TrimmedAmplifier.data a) = ImgSec.image sub)
  /\ (forall d l o h r h',
        AssembledUntrimmedAmplifierSet.init d l o h = Ok (r, h') ->
        AssembledUntrimmedAmplifierSet.detector r = d
        /\ forall a, In a (AssembledUntrimmedAmplifierSet.values r) ->
             (exists amp, In amp l
                /\ UntrimmedAmplifier.amplifier_id a = UntrimmedAmplifier.amplifier_id amp)
             /\ Transform.is_identity (UntrimmedAmplifier.raw_detector_transform a) = true
             /\ exists b sub,
                  ImgSec.bbox (UntrimmedAmplifier.full a) = Ok b
                  /\ ImgSec.subimage d b = Ok sub
                  /\ ImgSec.image (UntrimmedAmplifier.full a) = ImgSec.image sub).
Proof.
  split; intros d l o h r h' H.
  - unfold AssembledTrimmedAmplifierSet.init in H. unfold bind at 1 in H.
    destruct (mapM _ l h) as [[views h1]|] eqn:Em; [|discriminate].
    injection H as <- <-. split; [reflexivity|].
    intros a Hin. apply dict_values_from in Hin.
    destruct (mapM_ok_from _ _ _ _ _ Em a Hin) as (amp & h2 & h3 & Hamp & Hstep).
    apply assembled_trimmed_member in Hstep as (Hid & Hpt & Hsub).
    split; [exists amp; split; assumption|]. split; assumption.
  - unfold AssembledUntrimmedAmplifierSet.init in H. unfold bind at 1 in H.
    destruct (mapM _ l h) as [[views h1]|] eqn:Em; [|discriminate].
    injection H as <- <-. split; [reflexivity|].
    intros a Hin. apply dict_values_from in Hin.
    destruct (mapM_ok_from _ _ _ _ _ Em a Hin) as (amp & h2 & h3 & Hamp & Hstep).
    apply assembled_untrimmed_member in Hstep as (Hid & Hpt & Hsub).
    split; [exists amp; split; assumption|]. split; assumption.
Qed.

Lemma assembled_members_are_subimages_witness :
  exists a r h',
    Examples.box_only_trimmed = Ok a
    /\ AssembledTrimmedAmplifierSet.init (BoxOnlyImageSection (box 0 0 9 19)) [a] None
         (Examples.heap 0) = Ok (r, h')
    /\ AssembledTrimmedAmplifierSet.detector r = BoxOnlyImageSection (box 0 0 9 19)
    /\ forall m, In m (AssembledTrimmedAmplifierSet.values r) ->
         Transform.is_identity (TrimmedAmplifier.physical_transform m) = true.
Proof.
  destruct Examples.box_only_trimmed as [a|e] eqn:E; [|vm_compute in E; discriminate E].
  destruct (AssembledTrimmedAmplifierSet.init (BoxOnlyImageSection (box 0 0 9 19)) [a] None
              (Examples.heap 0)) as [[r h']|e] eqn:E2.
  - exists a, r, h'. split; [reflexivity|]. split; [exact E2|].
    destruct (proj1 assembled_members_are_subimages _ _ _ _ _ _ E2) as [Hd Hm].
    split; [exact Hd|]. intros m Hin. exact (proj1 (proj2 (Hm m Hin))).
  - exfalso. vm_compute in E. injection E as <-. vm_compute in E2. discriminate E2.
Defined.

(** ** Sets of untrimmed amplifiers in readout coordinates *)

Lemma untrimmed_into_readout_coordinates_id a v h a' h' :
  UntrimmedAmplifier.into_readout_coordinates a v h = Ok (a', h') ->
  UntrimmedAmplifier.amplifier_id a' = UntrimmedAmplifier.amplifier_id a.
Proof.
  unfold UntrimmedAmplifier.into_readout_coordinates. intros H. returned.
  match goal with
  | E : UntrimmedAmplifier.init _ _ _ _ _ _ _ _ _ = Ok _ |- _ =>
      apply untrimmed_init_ok in E as [-> _]
  end.
  reflexivity.
Qed.

(** Whenever [UnassembledUntrimmedAmplifierSet.into_readout_coordinates]
    returns, the set returned has the completeness flag and the
    observation information of the original, and each of its members
    has an identity readout transform and the identifier of a member of
    the original. *)
Theorem untrimmed_set_into_readout_coordinates
    (s : UnassembledUntrimmedAmplifierSet.t) (allow_view : bool) (h : Heap)
    (r : UnassembledUntrimmedAmplifierSet.t) (h' : Heap) :
  UnassembledUntrimmedAmplifierSet.into_readout_coordinates s allow_view h = Ok (r, h') ->
  UnassembledUntrimmedAmplifierSet.is_complete r
  = UnassembledUntrimmedAmplifierSet.is_complete s
  /\ UnassembledUntrimmedAmplifierSet.observation_info r
     = UnassembledUntrimmedAmplifierSet.observation_info s
  /\ forall a, In a (UnassembledUntrimmedAmplifierSet.values r) ->
       Transform.is_identity (UntrimmedAmplifier.readout_transform a) = true
       /\ exists a0, In a0 (UnassembledUntrimmedAmplifierSet.values s)
            /\ UntrimmedAmplifier.amplifier_id a = UntrimmedAmplifier.amplifier_id a0.
Proof.
  unfold UnassembledUntrimmedAmplifierSet.into_readout_coordinates.
  destruct (allow_view && forallb _ _) eqn:Ec; intros H.
  - injection H as <- <-. split; [reflexivity|]. split; [reflexivity|].
    intros a Hin. split; [|exists a; split; [assumption|reflexivity]].
    apply andb_true_iff in Ec as [_ Ec]. rewrite forallb_forall in Ec. now apply Ec.
  - unfold bind at 1 in H.
    destruct (mapM _ _ h) as [[amps h1]|] eqn:Em; [|discriminate].
    injection H as <- <-. split; [reflexivity|]. split; [reflexivity|].
    intros a Hin. apply dict_values_from in Hin.
    destruct (mapM_ok_from _ _ _ _ _ Em a Hin) as (a0 & h2 & h3 & Ha0 & Hstep).
    split; [eapply untrimmed_into_readout_coordinates_identity; exact Hstep|].
    exists a0. split; [assumption|].
    eapply untrimmed_into_readout_coordinates_id; exact Hstep.
Qed.

Lemma untrimmed_set_into_readout_coordinates_witness :
  exists r h',
    UnassembledUntrimmedAmplifierSet.into_readout_coordinates Examples.framed_pair false
      (Examples.heap 2) = Ok (r, h')
    /\ forall a, In a (UnassembledUntrimmedAmplifierSet.values r) ->
         Transform.is_identity (UntrimmedAmplifier.readout_transform a) = true.
Proof.
  destruct (UnassembledUntrimmedAmplifierSet.into_readout_coordinates Examples.framed_pair
              false (Examples.heap 2)) as [[r h']|e] eqn:E;
    [|vm_compute in E; discriminate E].
  exists r, h'. split; [reflexivity|]. intros a Hin.
  destruct (untrimmed_set_into_readout_coordinates Examples.framed_pair false
              (Examples.heap 2) r h' E) as (_ & _ & H).
  exact (proj1 (H a Hin)).
Defined.

(** ** The detector of an assembled set *)

(** [with_new_detector_image] with an image: whenever the call returns,
    on either assembled set class, the image passed was not [None], and
    the detector of the result has the box of the old detector and holds
    exactly the image passed. *)
Theorem with_new_detector_image_rewraps :
  (forall call self img h r h',
     AssembledTrimmedAmplifierSet.with_new_detector_image call self img h = Ok (r, h') ->
     img <> PyNone
     /\ ImgSec.bbox (AssembledTrimmedAmplifierSet.detector r)
        = ImgSec.bbox (AssembledTrimmedAmplifierSet.detector self)
     /\ ImgSec.image (AssembledTrimmedAmplifierSet.detector r) = img)
  /\ (forall call self img h r h',
        AssembledUntrimmedAmplifierSet.with_new_detector_image call self img h = Ok (r, h') ->
        img <> PyNone
        /\ ImgSec.bbox (AssembledUntrimmedAmplifierSet.detector r)
           = ImgSec.bbox (AssembledUntrimmedAmplifierSet.detector self)
        /\ ImgSec.image (AssembledUntrimmedAmplifierSet.detector r) = img).
Proof.
  split; intros call self img h r h' H.
  - destruct img as [|arr|m|]; [discriminate H| | |];
      (split; [discriminate|]);
      unfold AssembledTrimmedAmplifierSet.with_new_detector_image in H;
      unfold bind at 1 in H;
      (destruct (lift _ h) as [[d h1]|] eqn:El; [|discriminate H]);
      apply lift_heap in El as [El _];
      apply with_new_image_ok in El as [Hb Hi];
      apply assembled_trimmed_init_detector in H; rewrite H; split; assumption.
  - destruct img as [|arr|m|]; [discriminate H| | |];
      (split; [discriminate|]);
      unfold AssembledUntrimmedAmplifierSet.with_new_detector_image in H;
      unfold bind at 1 in H;
      (destruct (lift _ h) as [[d h1]|] eqn:El; [|discriminate H]);
      apply lift_heap in El as [El _];
      apply with_new_image_ok in El as [Hb Hi];
      apply assembled_untrimmed_init_spec in H as [H _]; rewrite H; split; assumption.
Qed.

Lemma with_new_detector_image_rewraps_witness :
  exists a r h',
    Examples.box_only_trimmed = Ok a
    /\ AssembledTrimmedAmplifierSet.with_new_detector_image (fun _ s => ret s)
         {| AssembledTrimmedAmplifierSet._detector := BoxOnlyImageSection (box 0 0 9 19);
            AssembledTrimmedAmplifierSet._mapping := [(1, a)];
            AssembledTrimmedAmplifierSet._observation_info := None |}
         (PyAfw (Examples.afw_image 0 0 0 10 20)) (Examples.heap 1) = Ok (r, h')
    /\ ImgSec.bbox (AssembledTrimmedAmplifierSet.detector r) = Ok (box 0 0 9 19)
    /\ ImgSec.image (AssembledTrimmedAmplifierSet.detector r)
       = PyAfw (Examples.afw_image 0 0 0 10 20).
Proof.
  destruct Examples.box_only_trimmed as [a|e] eqn:E; [|vm_compute in E; discriminate E].
  destruct (AssembledTrimmedAmplifierSet.with_new_detector_image (fun _ s => ret s)
              {| AssembledTrimmedAmplifierSet._detector := BoxOnlyImageSection (box 0 0 9 19);
                 AssembledTrimmedAmplifierSet._mapping := [(1, a)];
                 AssembledTrimmedAmplifierSet._observation_info := None |}
              (PyAfw (Examples.afw_image 0 0 0 10 20)) (Examples.heap 1))
    as [[r h']|e] eqn:E2.
  - exists a, r, h'. split; [reflexivity|]. split; [exact E2|].
    exact (proj2 (proj1 with_new_detector_image_rewraps _ _ _ _ _ _ E2)).
  - exfalso. vm_compute in E. injection E as <-. vm_compute in E2. discriminate E2.
Defined.

Lemma canvas_bbox_is_union_without_arrays_witness :
  exists r h',
    UnassembledUntrimmedAmplifierSet.assemble_into_untrimmed Examples.framed_pair false
      (Examples.heap 2) = Ok (r, h')
    /\ ImgSec.bbox (AssembledUntrimmedAmplifierSet.detector r)
       = Ok (bbox_union
               (map (fun amp => output_bbox (UntrimmedAmplifier.raw_detector_transform amp))
                    (UnassembledUntrimmedAmplifierSet.values Examples.framed_pair))).
Proof.
  destruct (UnassembledUntrimmedAmplifierSet.assemble_into_untrimmed Examples.framed_pair
              false (Examples.heap 2)) as [[r h']|e] eqn:E;
    [|vm_compute in E; discriminate E].
  exists r, h'. split; [reflexivity|].
  apply (proj2 canvas_bbox_is_union_without_arrays Examples.framed_pair false
           (Examples.heap 2) r h'); [|exact E].
  intros amp a m Hl. vm_compute in Hl. injection Hl as <-. discriminate.
Defined.
